(** * measureEccentricity.eccDefinition: a shallow embedding

    The module measures eccentricity and mean anomaly of a gravitational
    waveform from the extrema of its (2,2)-mode frequency.  This file embeds
    [eccDefinition.__init__], [interp_extrema], [measure_ecc],
    [check_extrema_separation], the three omega22 averaging methods,
    [compute_tref_in_and_fref_out_from_fref_in] and [get_fref_out]; and,
    from gw_eccentricity.load_data, [load_waveform], [load_EOB_waveform],
    [reomve_junk_from_nr_data] and the final truncation of
    [get_zeroecc_dataDict_for_lvcnr].

    Conventions.
    - numpy float arrays are [list R]: floating-point numbers are idealised
      as real numbers, so rounding, NaN and infinities are outside the model
      (a division by zero, which numpy answers with inf/nan and a warning,
      is Rocq's total division here).
    - Python exceptions are the constructors of [exn]; a method that may
      raise returns a [result].
    - [warnings.warn] calls and the plotting methods have no effect on any
      returned value or raised exception and are left out; of
      [check_monotonicity_and_convexity] the construction of its spline,
      which can fail, is kept.  The warnings of
      [check_extrema_separation] are given by a function of their own,
      [check_extrema_separation_warnings], and of the plotting methods
      [plot_phase_diff_ratio_between_peaks] is given by the curves it draws.
    - scipy and numpy routines whose numerics are not the subject of this
      development (spline fitting, gradient, unwrap, angle, arange, interp)
      and the abstract method [find_extrema] are Section variables: for the
      spline constructor one variable says on which data it raises and
      another gives the fitted function; so are
      the loaders of load_data that read files or call LAL. *)

From Stdlib Require Import String.
From Stdlib Require Import Reals Lra Lia List Bool Arith ZArith.
From Stdlib Require Import Sorting.Permutation Sorting.Sorted.
Import ListNotations.

Local Open Scope R_scope.

#[local] Set Default Proof Using "Type".

(** ** Exceptions and the result monad *)

Inductive exn : Type :=
| KeyError_hlm_22                       (* self.hlm[(2, 2)] on a dict without that key *)
| KeyError_t_zeroecc                    (* dataDict["t_zeroecc"] on a dict without that key *)
| ValueError_num_orbits_negative        (* "num_orbits_to_exclude_before_merger must be non-negative." *)
| Exception_insufficient_extrema (extrema_type : string)
                                        (* "Sufficient number of {extrema_type} are not found." *)
| KeyError_exactly_one                  (* "Exactly one of tref_in and fref_in should be specified." *)
| KeyError_atleast_one                  (* "Atleast one of tref_in or fref_in should be provided" *)
| Exception_length_mismatch             (* "Length of fref_out ... is different from Length of tref_out" *)
| Exception_tref_in_later_than_t_max    (* "tref_in is later than t_max=..." *)
| Exception_tref_in_earlier_than_t_min  (* "tref_in is earlier than t_min=..." *)
| Exception_tref_out_empty              (* "tref_out is empty. ..." *)
| Exception_not_within_two_peaks        (* "Reference time must be within two peaks." *)
| Exception_zeroecc_too_short           (* "Length of zeroecc waveform must be >= ..." *)
| Exception_peaks_not_monotonic         (* "Omega22 average at peaks are not strictly monotonically increaing" *)
| Exception_troughs_not_monotonic       (* "Omega22 average at troughs are not strictly ..." *)
| KeyError_averaging_method (method : string)
                                        (* "Omega22 averaging method {method} does not exist." *)
| Exception_fref_in_earlier_than_minimum (* "fref_in is earlier than minimum available frequency" *)
| Exception_fref_in_later_than_maximum  (* "fref_in is later than maximum available frequency" *)
| Exception_fref_out_empty              (* "fref_out is empty. ..." *)
| AttributeError_zeroecc                (* self.t_zeroecc read on an object built without zeroecc data *)
| Error_from_scipy                      (* scipy: the ValueError or dfitpack.error of
                                           InterpolatedUnivariateSpline on data it refuses *)
| IndexError                            (* numpy: index out of bounds *)
| ValueError_empty_sequence             (* numpy: argmin/argmax of an empty sequence *)
| ValueError_vectorize_size_0.          (* numpy: np.vectorize called on a size 0 input *)

Inductive result (A : Type) : Type :=
| Ok (a : A)
| Raise (e : exn).

Arguments Ok {A} a.
Arguments Raise {A} e.

Definition bind {A B : Type} (m : result A) (f : A -> result B) : result B :=
  match m with
  | Ok a => f a
  | Raise e => Raise e
  end.

Notation "x <- m ;; k" := (bind m (fun x => k))
  (at level 61, m at next level, right associativity).
Notation "' pat <- m ;; k" := (bind m (fun x => match x with pat => k end))
  (at level 61, pat pattern, m at next level, right associativity).

Fixpoint mapM {A B : Type} (f : A -> result B) (l : list A) : result (list B) :=
  match l with
  | [] => Ok []
  | x :: xs => y <- f x ;; ys <- mapM f xs ;; Ok (y :: ys)
  end.

(** ** numpy on real arrays *)

Definition Rleb (x y : R) : bool := if Rle_dec x y then true else false.
Definition Rltb (x y : R) : bool := if Rlt_dec x y then true else false.

(** [a[i]] for a non-negative index. *)
Definition getitem {A : Type} (a : list A) (i : nat) : result A :=
  match nth_error a i with
  | Some x => Ok x
  | None => Raise IndexError
  end.

(** [a[0]] and [a[-1]]. *)
Definition first_item {A : Type} (a : list A) : result A := getitem a 0.

Definition last_item {A : Type} (a : list A) : result A :=
  match a with
  | [] => Raise IndexError
  | x :: xs => Ok (last xs x)
  end.

(** [a[idx]] for an integer index array [idx]. *)
Definition take {A : Type} (a : list A) (idx : list nat) : result (list A) :=
  mapM (getitem a) idx.

(** [a[mask]] where [mask] is the elementwise test [p]. *)
Definition boolean_index (p : R -> bool) (a : list R) : list R := filter p a.

(** [np.where(mask)[0]]: the positions at which [p] holds, in order. *)
Fixpoint np_where_from (p : R -> bool) (a : list R) (i : nat) : list nat :=
  match a with
  | [] => []
  | x :: xs => if p x then i :: np_where_from p xs (S i)
               else np_where_from p xs (S i)
  end.

Definition np_where (p : R -> bool) (a : list R) : list nat := np_where_from p a 0.

(** [np.argmin]: position of the first occurrence of the minimum. *)
Fixpoint argmin_from (best : R) (besti : nat) (a : list R) (i : nat) : nat :=
  match a with
  | [] => besti
  | x :: xs => if Rltb x best then argmin_from x i xs (S i)
               else argmin_from best besti xs (S i)
  end.

Definition np_argmin (a : list R) : result nat :=
  match a with
  | [] => Raise ValueError_empty_sequence
  | x :: xs => Ok (argmin_from x 0%nat xs 1%nat)
  end.

(** [np.argmax]: position of the first occurrence of the maximum. *)
Fixpoint argmax_from (best : R) (besti : nat) (a : list R) (i : nat) : nat :=
  match a with
  | [] => besti
  | x :: xs => if Rltb best x then argmax_from x i xs (S i)
               else argmax_from best besti xs (S i)
  end.

Definition np_argmax (a : list R) : result nat :=
  match a with
  | [] => Raise ValueError_empty_sequence
  | x :: xs => Ok (argmax_from x 0%nat xs 1%nat)
  end.

(** [np.diff]. *)
Fixpoint np_diff (a : list R) : list R :=
  match a with
  | x :: ((y :: _) as rest) => (y - x) :: np_diff rest
  | _ => []
  end.

(** [any(a <= 0)]. *)
Definition any_nonpositive (a : list R) : bool := existsb (fun d => Rleb d 0) a.

(** Elementwise binary operation on two arrays of the same length. *)
Fixpoint zip_with {A B C : Type} (f : A -> B -> C) (a : list A) (b : list B) : list C :=
  match a, b with
  | x :: xs, y :: ys => f x y :: zip_with f xs ys
  | _, _ => []
  end.

(** [np.argsort]: the positions of [a] in ascending order of value.  numpy
    leaves the relative order of equal values to the sorting kind; here
    equal values keep their original order. *)
Fixpoint insert_key (x : R * nat) (l : list (R * nat)) : list (R * nat) :=
  match l with
  | [] => [x]
  | y :: ys => if Rleb (fst x) (fst y) then x :: y :: ys
               else y :: insert_key x ys
  end.

Fixpoint sort_keys (l : list (R * nat)) : list (R * nat) :=
  match l with
  | [] => []
  | x :: xs => insert_key x (sort_keys xs)
  end.

Definition enumerate (a : list R) : list (R * nat) := combine a (seq 0 (length a)).

Definition np_argsort (a : list R) : list nat := map snd (sort_keys (enumerate a)).

(** Python's [min(a)] and [max(a)] on an array. *)
Definition py_min (a : list R) : result R :=
  match a with
  | [] => Raise ValueError_empty_sequence
  | x :: xs => Ok (fold_left Rmin xs x)
  end.

Definition py_max (a : list R) : result R :=
  match a with
  | [] => Raise ValueError_empty_sequence
  | x :: xs => Ok (fold_left Rmax xs x)
  end.

(** [np.atleast_1d] on an input that is a single float or an array. *)
Inductive float_or_array : Type :=
| Float (x : R)
| Array (a : list R).

Definition np_atleast_1d (v : float_or_array) : list R :=
  match v with
  | Float x => [x]
  | Array a => a
  end.

(** Values of a returned quantity, whichever of the two shapes it has. *)
Definition values (v : float_or_array) : list R := np_atleast_1d v.

(** [x[0] if len(x) == 1 else x], as at the end of [measure_ecc]. *)
Definition squeeze_if_single (a : list R) : float_or_array :=
  match a with
  | [x] => Float x
  | _ => Array a
  end.

(** Complex samples and [np.abs] on them. *)
Definition complex : Type := (R * R)%type.

Definition np_abs (z : complex) : R := sqrt (fst z * fst z + snd z * snd z).

(** ** The waveform data and the eccDefinition object *)

Definition modeDict : Type := list ((Z * Z) * list complex).

(** [hlm[(l, m)]]. *)
Fixpoint mode_lookup (hlm : modeDict) (l m : Z) : option (list complex) :=
  match hlm with
  | [] => None
  | ((l', m'), h) :: rest =>
      if (Z.eqb l l' && Z.eqb m m')%bool then Some h else mode_lookup rest l m
  end.

(** The input dictionary [{"t": ..., "hlm": ..., "t_zeroecc": ..., "hlm_zeroecc": ...}]. *)
Record dataDict_t : Type := {
  dd_t : list R;
  dd_hlm : modeDict;
  dd_t_zeroecc : option (list R);
  dd_hlm_zeroecc : option modeDict
}.

(** Keyword arguments of scipy's InterpolatedUnivariateSpline. *)
Record spline_kwargs_t : Type := {
  w : option (list R);
  bbox : option R * option R;
  k : nat;
  ext : nat;
  check_finite : bool
}.

Definition get_default_spline_kwargs : spline_kwargs_t :=
  {| w := None; bbox := (None, None); k := 3; ext := 2; check_finite := false |}.

(** What scipy uses when the caller passes only the data. *)
Definition scipy_spline_defaults : spline_kwargs_t :=
  {| w := None; bbox := (None, None); k := 3; ext := 0; check_finite := false |}.

Record extra_kwargs_t : Type := {
  num_orbits_to_exclude_before_merger : option R;
  debug : bool;
  omega22_averaging_method : string
}.

Definition get_default_extra_kwargs : extra_kwargs_t :=
  {| num_orbits_to_exclude_before_merger := Some 1;
     debug := true;
     omega22_averaging_method := "average_between_extrema" |}.

(** Attributes set by [compute_res_amp_and_omega22]. *)
Record zeroecc_t : Type := {
  t_zeroecc : list R;
  omega22_zeroecc : list R;
  res_amp22 : list R;
  res_omega22 : list R
}.

(** Attributes of the object after [__init__]. *)
Record eccDefinition : Type := {
  t : list R;
  h22 : list complex;
  amp22 : list R;
  phase22 : list R;
  omega22 : list R;
  zeroecc : option zeroecc_t;
  spline_kwargs : spline_kwargs_t;
  extra_kwargs : extra_kwargs_t
}.

(** Modelled from the spec: [utils.get_peak_via_quadratic_fit] is imported
    by eccDefinition.py but its file is not among the sources.  The spec
    describes it as "a quadratic fit to the three samples around the global
    maximum" of the amplitude, giving an "interpolated sub-sample peak
    location, not just the argmax index".  The parabola through the samples
    at positions [i-1], [i], [i+1] around the argmax [i] is written in
    Newton form; the function returns its vertex (time, value).  A maximum
    at the first or the last sample has no sample on one side, and the
    lookup fails there. *)
Definition get_peak_via_quadratic_fit (time func : list R) : result (R * R) :=
  i <- np_argmax func ;;
  match i with
  | O => Raise IndexError
  | S j =>
      x0 <- getitem time j ;; x1 <- getitem time i ;; x2 <- getitem time (S i) ;;
      y0 <- getitem func j ;; y1 <- getitem func i ;; y2 <- getitem func (S i) ;;
      let d1 := (y1 - y0) / (x1 - x0) in
      let d2 := (y2 - y1) / (x2 - x1) in
      let c2 := (d2 - d1) / (x2 - x0) in
      let tpeak := (x0 + x1) / 2 - d1 / (2 * c2) in
      Ok (tpeak, y0 + d1 * (tpeak - x0) + c2 * (tpeak - x0) * (tpeak - x1))
  end.

(** The amplitude the spec asks for in its description of the construction:
    sqrt of the sum over all supplied modes of |h_lm|^2, sample by sample.
    It is used only to state the spec's version of the time shift. *)
Fixpoint sum_sq_amplitudes (hs : list (list complex)) (n : nat) : list R :=
  match hs with
  | [] => repeat 0 n
  | h :: rest =>
      zip_with Rplus (map (fun z => np_abs z * np_abs z) h) (sum_sq_amplitudes rest n)
  end.

Definition multi_mode_amplitude (hlm : modeDict) (n : nat) : list R :=
  map sqrt (sum_sq_amplitudes (map snd hlm) n).

(** ** gw_eccentricity.load_data: choosing a loader *)

(** Values of the keyword arguments, as far as [load_EOB_waveform] looks at
    them: [None], a string or a boolean. *)
Inductive py_value : Type :=
| PyNone
| PyStr (s : string)
| PyBool (b : bool).

(** A [**kwargs] dictionary in insertion order; each keyword occurs once. *)
Definition kwargs_t : Type := list (string * py_value).

(** [kwargs[key]] *)
Fixpoint kwargs_get (kwargs : kwargs_t) (key : string) : option py_value :=
  match kwargs with
  | [] => None
  | (kw, v) :: rest => if String.eqb key kw then Some v else kwargs_get rest key
  end.

(** [sub in s] for two strings. *)
Definition contains (sub s : string) : bool :=
  match String.index 0 sub s with
  | Some _ => true
  | None => false
  end.

Inductive load_exn : Type :=
| Exception_unknown_origin (origin : string)
                                        (* "Unknown origin {origin}. Should be one of ..." *)
| KeyError_invalid_keyword (kw : string)
                                        (* "{kw} is not a valid keyword. Must be one of ..." *)
| KeyError_kwargs (key : string)        (* kwargs[key] on a dict without that key *)
| Exception_must_provide_filepath       (* "Must provide file path to EOB waveform" *)
| Exception_unknown_filepath_pattern    (* "Unknown filepath pattern." *)
| TypeError_not_iterable                (* "argument of type 'bool' is not iterable" *)
| TypeError_unexpected_keyword (kw : string)
                                        (* "... got an unexpected keyword argument '{kw}'" *)
| TypeError_missing_argument (name : string)
                                        (* "... missing 1 required positional argument: '{name}'" *)
| Error_while_loading (message : string).
                                        (* raised by h5py or LAL inside a loader *)

Inductive load_result (A : Type) : Type :=
| Loaded (a : A)
| LoadError (e : load_exn).

Arguments Loaded {A} a.
Arguments LoadError {A} e.

Definition allowed_kwargs : list string :=
  ["filepath"; "filepath_zero_ecc"; "include_zero_ecc"]%string.

(** The loop [for kw in kwargs: if kw not in allowed_kwargs: raise KeyError]. *)
Fixpoint check_allowed_kwargs (kwargs : kwargs_t) : load_result unit :=
  match kwargs with
  | [] => Loaded tt
  | (kw, _) :: rest =>
      if existsb (String.eqb kw) allowed_kwargs then check_allowed_kwargs rest
      else LoadError (KeyError_invalid_keyword kw)
  end.

Section LoadData.

(** The data dictionary that a loader returns. *)
Variable loaded_data : Type.

(** The loaders that read files or call LAL. *)
Variable load_LAL_waveform : kwargs_t -> load_result loaded_data.
Variable load_lvcnr_waveform : kwargs_t -> load_result loaded_data.
Variable load_EMRI_waveform : kwargs_t -> load_result loaded_data.
Variable load_EOB_EccTest_file : kwargs_t -> load_result loaded_data.
(** The body of [load_h22_from_EOBfile(EOB_file)]. *)
Variable load_h22_from_EOBfile : py_value -> load_result loaded_data.

(** The call of [load_h22_from_EOBfile] with the keywords of [kwargs], for
    a function declared with the single parameter [EOB_file]: a keyword that is not the parameter's
    name is refused, and the parameter must be given. *)
Definition call_load_h22_from_EOBfile (kwargs : kwargs_t)
  : load_result loaded_data :=
  match find (fun kv => negb (String.eqb (fst kv) "EOB_file")) kwargs with
  | Some (kw, _) => LoadError (TypeError_unexpected_keyword kw)
  | None =>
      match kwargs_get kwargs "EOB_file" with
      | Some v => load_h22_from_EOBfile v
      | None => LoadError (TypeError_missing_argument "EOB_file")
      end
  end.

Definition load_EOB_waveform (kwargs : kwargs_t) : load_result loaded_data :=
  match check_allowed_kwargs kwargs with
  | LoadError e => LoadError e
  | Loaded _ =>
      match kwargs_get kwargs "filepath" with
      | None => LoadError (KeyError_kwargs "filepath")
      | Some PyNone => LoadError Exception_must_provide_filepath
      | Some (PyBool _) => LoadError TypeError_not_iterable
      | Some (PyStr filepath) =>
          if contains "EccTest" filepath then load_EOB_EccTest_file kwargs
          else if contains "Case" filepath then call_load_h22_from_EOBfile kwargs
          else LoadError Exception_unknown_filepath_pattern
      end
  end.

(** The loader that [get_available_waveform_origins()] has for [origin],
    called with the keywords of [kwargs], or the exception for an origin
    that is not a key of that dictionary. *)
Definition load_waveform (origin : string) (kwargs : kwargs_t)
  : load_result loaded_data :=
  if String.eqb origin "LAL" then load_LAL_waveform kwargs
  else if String.eqb origin "LVCNR" then load_lvcnr_waveform kwargs
  else if String.eqb origin "EOB" then load_EOB_waveform kwargs
  else if String.eqb origin "EMRI" then load_EMRI_waveform kwargs
  else LoadError (Exception_unknown_origin origin).

End LoadData.

(** Keyword arguments naming a file of the "Case" family, and a stand-in
    for a loader. *)
Definition case_kwargs : kwargs_t :=
  [("filepath", PyStr "data/EOB/Case3.h5"); ("include_zero_ecc", PyBool true)]%string.

Definition example_loader (kwargs : kwargs_t) : load_result nat := Loaded 0%nat.

Section EccDefinition.

(** scipy.interpolate.InterpolatedUnivariateSpline(x, y, **kwargs).  The
    constructor raises on data it refuses (a ValueError when x is not
    strictly increasing, FITPACK's error when there are no more points than
    the degree k): [InterpolatedUnivariateSpline_raises] tells whether it
    does, and [InterpolatedUnivariateSpline] is otherwise the function that
    the fitted spline represents. *)
Variable InterpolatedUnivariateSpline :
  list R -> list R -> spline_kwargs_t -> R -> R.
Variable InterpolatedUnivariateSpline_raises :
  list R -> list R -> spline_kwargs_t -> bool.

Variable np_angle : complex -> R.
Variable np_unwrap : list R -> list R.
(** np.gradient(f, x) *)
Variable np_gradient : list R -> list R -> list R.
(** np.arange(start, stop, step) *)
Variable np_arange : R -> R -> R -> list R.
(** np.interp(x, xp, fp) *)
Variable np_interp : list R -> list R -> list R -> list R.

(** The abstract method [find_extrema(extrema_type)], overridden by each
    concrete definition of eccentricity; it returns positions in [self.t]. *)
Variable find_extrema : eccDefinition -> string -> list nat.

(** Drops from a goal the Section variables it does not mention, so that
    arithmetic and propositional automation cannot pick them up. *)
Ltac clear_unused_variables :=
  try clear InterpolatedUnivariateSpline;
  try clear InterpolatedUnivariateSpline_raises; try clear np_angle;
  try clear np_unwrap; try clear np_gradient; try clear np_arange;
  try clear np_interp; try clear find_extrema.

(** A call of the constructor. *)
Definition construct_spline (x y : list R) (kw : spline_kwargs_t)
  : result (R -> R) :=
  if InterpolatedUnivariateSpline_raises x y kw then Raise Error_from_scipy
  else Ok (InterpolatedUnivariateSpline x y kw).

(** *** compute_res_amp_and_omega22 *)

Definition compute_res_amp_and_omega22
    (dataDict : dataDict_t) (self_t self_amp22 self_omega22 : list R)
    (hlm_zeroecc : modeDict) : result zeroecc_t :=
  t_zeroecc0 <- match dd_t_zeroecc dataDict with
                | Some x => Ok x
                | None => Raise KeyError_t_zeroecc
                end ;;
  h22_zeroecc <- match mode_lookup hlm_zeroecc 2 2 with
                 | Some h => Ok h
                 | None => Raise KeyError_hlm_22
                 end ;;
  peak <- get_peak_via_quadratic_fit t_zeroecc0 (map np_abs h22_zeroecc) ;;
  let t_zeroecc1 := map (fun x => x - fst peak) t_zeroecc0 in
  tz0 <- first_item t_zeroecc1 ;;
  t0 <- first_item self_t ;;
  if Rltb t0 tz0 then Raise Exception_zeroecc_too_short
  else
    amp22_zeroecc_spline <-
      construct_spline t_zeroecc1 (map np_abs h22_zeroecc) scipy_spline_defaults ;;
    let amp22_zeroecc_interp := map amp22_zeroecc_spline self_t in
    let phase22_zeroecc := map Ropp (np_unwrap (map np_angle h22_zeroecc)) in
    let omega22_zeroecc1 := np_gradient phase22_zeroecc t_zeroecc1 in
    omega22_zeroecc_spline <-
      construct_spline t_zeroecc1 omega22_zeroecc1 scipy_spline_defaults ;;
    let omega22_zeroecc_interp := map omega22_zeroecc_spline self_t in
    Ok {| t_zeroecc := t_zeroecc1;
          omega22_zeroecc := omega22_zeroecc1;
          res_amp22 := zip_with Rminus self_amp22 amp22_zeroecc_interp;
          res_omega22 := zip_with Rminus self_omega22 omega22_zeroecc_interp |}.

(** *** __init__
    [spline_kwargs] and [extra_kwargs] are the dictionaries after
    [check_kwargs_and_set_defaults] has filled in the defaults. *)

Definition init (dataDict : dataDict_t)
    (spline_kw : spline_kwargs_t) (extra_kw : extra_kwargs_t)
  : result eccDefinition :=
  let t0 := dd_t dataDict in
  let hlm := dd_hlm dataDict in
  h22_ <- match mode_lookup hlm 2 2 with
          | Some h => Ok h
          | None => Raise KeyError_hlm_22
          end ;;
  let amp22_ := map np_abs h22_ in
  peak <- get_peak_via_quadratic_fit t0 amp22_ ;;
  let t1 := map (fun x => x - fst peak) t0 in
  let phase22_ := map Ropp (np_unwrap (map np_angle h22_)) in
  let omega22_ := np_gradient phase22_ t1 in
  zeroecc_ <- match dd_hlm_zeroecc dataDict with
              | Some hz =>
                  z <- compute_res_amp_and_omega22 dataDict t1 amp22_ omega22_ hz ;;
                  Ok (Some z)
              | None => Ok None
              end ;;
  match num_orbits_to_exclude_before_merger extra_kw with
  | Some n =>
      if Rltb n 0 then Raise ValueError_num_orbits_negative
      else Ok {| t := t1; h22 := h22_; amp22 := amp22_; phase22 := phase22_;
                 omega22 := omega22_; zeroecc := zeroecc_;
                 spline_kwargs := spline_kw; extra_kwargs := extra_kw |}
  | None =>
      Ok {| t := t1; h22 := h22_; amp22 := amp22_; phase22 := phase22_;
            omega22 := omega22_; zeroecc := zeroecc_;
            spline_kwargs := spline_kw; extra_kwargs := extra_kw |}
  end.

(** *** interp_extrema *)

(** The position [idx_num_orbit_earlier_than_merger]. *)
Definition idx_num_orbit_earlier_than_merger (self : eccDefinition) (n : R)
  : result nat :=
  merger_idx <- np_argmin (map Rabs (t self)) ;;
  phase22_at_merger <- getitem (phase22 self) merger_idx ;;
  let phase22_num_orbits_earlier_than_merger := phase22_at_merger - 4 * PI * n in
  np_argmin (map (fun p => Rabs (p - phase22_num_orbits_earlier_than_merger))
               (phase22 self)).

(** The extrema kept by [interp_extrema] before the length test. *)
Definition trimmed_extrema (self : eccDefinition) (extrema_type : string)
  : result (list nat) :=
  let extrema_idx := find_extrema self extrema_type in
  match num_orbits_to_exclude_before_merger (extra_kwargs self) with
  | Some n =>
      idx <- idx_num_orbit_earlier_than_merger self n ;;
      Ok (filter (fun i => Nat.leb i idx) extrema_idx)
  | None => Ok extrema_idx
  end.

Definition interp_extrema (self : eccDefinition) (extrema_type : string)
  : result ((R -> R) * list nat) :=
  extrema_idx <- trimmed_extrema self extrema_type ;;
  if Nat.leb 2 (length extrema_idx) then
    t_ext <- take (t self) extrema_idx ;;
    omega22_ext <- take (omega22 self) extrema_idx ;;
    spline <- construct_spline t_ext omega22_ext (spline_kwargs self) ;;
    Ok (spline, extrema_idx)
  else Raise (Exception_insufficient_extrema extrema_type).

(** *** check_extrema_separation
    Returns [orb_phase_diff] and [orb_phase_diff_ratio]; the three warnings
    it may emit do not change them. *)

Definition check_extrema_separation (self : eccDefinition)
    (extrema_location : list nat) : result (list R * list R) :=
  phase22_at_extrema <- take (phase22 self) extrema_location ;;
  let orb_phase_at_extrema := map (fun p => p / 2) phase22_at_extrema in
  let orb_phase_diff := np_diff orb_phase_at_extrema in
  t_at_extrema <- take (t self) extrema_location ;;
  let orb_phase_diff_ratio :=
    0 :: zip_with Rdiv (tl orb_phase_diff) (removelast orb_phase_diff) in
  Ok (orb_phase_diff, orb_phase_diff_ratio).

(** The calls of [warnings.warn] made by [check_extrema_separation], in
    their order, with the numbers that enter their messages. *)
Inductive separation_warning : Type :=
| Warning_too_close (min_orb_phase_diff_found : R) (too_close_times : list R)
                                        (* "At least a pair of {extrema_type} are too close. ..." *)
| Warning_phase_shift_closer_to_pi      (* "Phase shift closer to pi than 2 pi detected." *)
| Warning_too_far (max_orb_phase_diff_found : R) (too_far_times : list R).
                                        (* "At least a pair of {extrema_type} are too far. ..." *)

Definition check_extrema_separation_warnings (self : eccDefinition)
    (extrema_location : list nat)
    (max_orb_phase_diff_factor min_orb_phase_diff : R)
  : result (list separation_warning) :=
  phase22_at_extrema <- take (phase22 self) extrema_location ;;
  let orb_phase_at_extrema := map (fun p => p / 2) phase22_at_extrema in
  let orb_phase_diff := np_diff orb_phase_at_extrema in
  t_at <- take (t self) extrema_location ;;
  let t_at_extrema := tl t_at in
  too_close <-
    (if existsb (fun d => Rltb d min_orb_phase_diff) orb_phase_diff then
       let too_close_idx := np_where (fun d => Rltb d min_orb_phase_diff) orb_phase_diff in
       too_close_times <- take t_at_extrema too_close_idx ;;
       smallest <- py_min orb_phase_diff ;;
       Ok [Warning_too_close smallest too_close_times]
     else Ok []) ;;
  let closer_to_pi :=
    if existsb (fun d => Rltb (Rabs (d - PI)) (Rabs (d - 2 * PI))) orb_phase_diff
    then [Warning_phase_shift_closer_to_pi] else [] in
  let orb_phase_diff_ratio :=
    0 :: zip_with Rdiv (tl orb_phase_diff) (removelast orb_phase_diff) in
  too_far <-
    (if existsb (fun r => Rltb max_orb_phase_diff_factor r) orb_phase_diff_ratio then
       let too_far_idx :=
         np_where (fun r => Rltb max_orb_phase_diff_factor r) orb_phase_diff_ratio in
       too_far_times <- take t_at_extrema too_far_idx ;;
       largest <- py_max orb_phase_diff ;;
       Ok [Warning_too_far largest too_far_times]
     else Ok []) ;;
  Ok (too_close ++ closer_to_pi ++ too_far).

(** *** The omega22 averaging methods *)

(** The inner vectorized function [orbital_averaged_omega22_at_extrema(n, extrema_type)],
    with [extrema_locations[extrema_type]] passed as [locations]. *)
Definition orbital_averaged_omega22_at_extrema (self : eccDefinition)
    (locations : list nat) (n : nat) : result R :=
  i1 <- getitem locations (n + 1) ;;
  p1 <- getitem (phase22 self) i1 ;;
  i0 <- getitem locations n ;;
  p0 <- getitem (phase22 self) i0 ;;
  let integ := p1 - p0 in
  t1 <- getitem (t self) i1 ;;
  t0 <- getitem (t self) i0 ;;
  let period := t1 - t0 in
  Ok (integ / period).

(** Application of an [np.vectorize]d function to an index array. *)
Definition vectorize {A : Type} (f : A -> result R) (a : list A) : result (list R) :=
  match a with
  | [] => Raise ValueError_vectorize_size_0
  | _ => mapM f a
  end.

(** [(x[1:] + x[:-1]) / 2] *)
Definition midpoints (x : list R) : list R :=
  zip_with (fun a b => (a + b) / 2) (tl x) (removelast x).

Definition compute_orbital_averaged_omega22_at_extrema (self : eccDefinition)
    (peaks_location troughs_location : list nat) : result (list R * list R) :=
  t_peaks <- take (t self) peaks_location ;;
  let t_average_peaks := midpoints t_peaks in
  omega22_average_peaks <-
    vectorize (orbital_averaged_omega22_at_extrema self peaks_location)
      (seq 0 (length peaks_location - 1)) ;;
  t_troughs <- take (t self) troughs_location ;;
  let t_average_troughs := midpoints t_troughs in
  omega22_average_troughs <-
    vectorize (orbital_averaged_omega22_at_extrema self troughs_location)
      (seq 0 (length troughs_location - 1)) ;;
  let t_average0 := t_average_troughs ++ t_average_peaks in
  let sorted_idx := np_argsort t_average0 in
  t_average <- take t_average0 sorted_idx ;;
  if any_nonpositive (np_diff omega22_average_peaks)
  then Raise Exception_peaks_not_monotonic
  else if any_nonpositive (np_diff omega22_average_troughs)
  then Raise Exception_troughs_not_monotonic
  else
    omega22_average <-
      take (omega22_average_troughs ++ omega22_average_peaks) sorted_idx ;;
    Ok (t_average, omega22_average).

Definition compute_omega22_average_between_extrema (self : eccDefinition)
    (omega22_peaks_interp omega22_troughs_interp : R -> R) (t_min t_max : R)
  : result (list R * list R) :=
  t1 <- getitem (t self) 1 ;;
  t0 <- getitem (t self) 0 ;;
  let grid := np_arange t_min t_max (t1 - t0) in
  Ok (grid,
      map (fun x => (omega22_peaks_interp x + omega22_troughs_interp x) / 2) grid).

Definition compute_omega22_zeroecc (self : eccDefinition) (t_min t_max : R)
  : result (list R * list R) :=
  t1 <- getitem (t self) 1 ;;
  t0 <- getitem (t self) 0 ;;
  let grid := np_arange t_min t_max (t1 - t0) in
  match zeroecc self with
  | Some z => Ok (grid, np_interp grid (t_zeroecc z) (omega22_zeroecc z))
  | None => Raise AttributeError_zeroecc
  end.

(** *** get_fref_out
    [omega22_average] is the attribute [self.omega22_average]. *)

Definition get_fref_out (omega22_average : list R) (fref_in : list R)
  : result (list R) :=
  om_first <- first_item omega22_average ;;
  om_last <- last_item omega22_average ;;
  let fref_out :=
    boolean_index (fun f => Rleb (om_first / (2 * PI)) f
                            && Rltb f (om_last / (2 * PI))) fref_in in
  if Nat.eqb (length fref_out) 0 then
    f_first <- first_item fref_in ;;
    if Rltb f_first (om_first / (2 * PI))
    then Raise Exception_fref_in_earlier_than_minimum
    else
      f_last <- last_item fref_in ;;
      if Rltb (om_last / (2 * PI)) f_last
      then Raise Exception_fref_in_later_than_maximum
      else Raise Exception_fref_out_empty
  else Ok fref_out.

(** *** compute_tref_in_and_fref_out_from_fref_in *)

Definition compute_tref_in_and_fref_out_from_fref_in (self : eccDefinition)
    (peaks_location troughs_location : list nat)
    (omega22_peaks_interp omega22_troughs_interp : R -> R) (t_min t_max : R)
    (fref_in : list R) : result (list R * list R) :=
  let method := omega22_averaging_method (extra_kwargs self) in
  '(t_for_omega22_average, omega22_average) <-
    (if String.eqb method "average_between_extrema" then
       compute_omega22_average_between_extrema self
         omega22_peaks_interp omega22_troughs_interp t_min t_max
     else if String.eqb method "orbital_average_at_extrema" then
       compute_orbital_averaged_omega22_at_extrema self
         peaks_location troughs_location
     else if String.eqb method "omega22_zeroecc" then
       compute_omega22_zeroecc self t_min t_max
     else Raise (KeyError_averaging_method method)) ;;
  fref_out <- get_fref_out omega22_average fref_in ;;
  t_of_fref_out <-
    construct_spline (map (fun om => om / (2 * PI)) omega22_average)
      t_for_omega22_average scipy_spline_defaults ;;
  Ok (map t_of_fref_out fref_out, fref_out).

(** *** check_monotonicity_and_convexity
    The method builds a spline through (tref_out, ecc_ref) with scipy's
    defaults, which can fail; the derivatives of that spline are used only
    to decide on warnings and are stored for the diagnostic plots. *)

Definition check_monotonicity_and_convexity (tref_out ecc_ref : list R)
  : result unit :=
  _ <- construct_spline tref_out ecc_ref scipy_spline_defaults ;;
  Ok tt.

(** *** measure_ecc *)

(** Eq. 4 of arXiv:2101.11798, as written in [measure_ecc]. *)
Definition ecc_formula (omega22_peak omega22_trough : R) : R :=
  (sqrt omega22_peak - sqrt omega22_trough)
  / (sqrt omega22_peak + sqrt omega22_trough).

(** The vectorized inner function [compute_mean_ano(time)]. *)
Definition compute_mean_ano (t_peaks : list R) (time : R) : result R :=
  idx_at_last_peak <- last_item (np_where (fun p => Rleb p time) t_peaks) ;;
  t_at_last_peak <- getitem t_peaks idx_at_last_peak ;;
  t_at_next_peak <- getitem t_peaks (idx_at_last_peak + 1) ;;
  let t_since_last_peak := time - t_at_last_peak in
  let current_period := t_at_next_peak - t_at_last_peak in
  Ok (2 * PI * t_since_last_peak / current_period).

(** [tref_in[np.logical_and(tref_in < t_max, tref_in >= t_min)]] *)
Definition in_window (t_min t_max : R) (x : R) : bool :=
  Rltb x t_max && Rleb t_min x.

(** Attributes set on the object by a call of [measure_ecc] that returns,
    and the returned triple. *)
Record measurement : Type := {
  omega22_peaks_interp : R -> R;
  peaks_location : list nat;
  omega22_troughs_interp : R -> R;
  troughs_location : list nat;
  t_max : R;
  t_min : R;
  fref_out : option float_or_array;
  tref_out : float_or_array;
  orb_phase_diff_at_peaks : list R;
  orb_phase_diff_ratio_at_peaks : list R;
  orb_phase_diff_at_troughs : list R;
  orb_phase_diff_ratio_at_troughs : list R;
  omega22_peak_at_tref_out : list R;
  omega22_trough_at_tref_out : list R;
  ecc_ref : float_or_array;
  mean_ano_ref : float_or_array;
  returned : float_or_array * float_or_array * float_or_array
}.

Definition is_not_None {A : Type} (x : option A) : nat :=
  match x with Some _ => 1 | None => 0 end.

(** The reference times [tref_in] after the test on the two inputs, with
    [self.fref_out] when the input was a frequency. *)
Definition reference_input (self : eccDefinition)
    (peaks_loc troughs_loc : list nat) (peaks_interp troughs_interp : R -> R)
    (tmin tmax : R) (tref_in fref_in : option float_or_array)
  : result (list R * option (list R)) :=
  if negb (Nat.eqb (is_not_None tref_in + is_not_None fref_in) 1)
  then Raise KeyError_exactly_one
  else
    match tref_in with
    | Some tr => Ok (np_atleast_1d tr, None)
    | None =>
        match fref_in with
        | Some fr =>
            '(tref_in1, fref_out1) <-
              compute_tref_in_and_fref_out_from_fref_in self peaks_loc troughs_loc
                peaks_interp troughs_interp tmin tmax (np_atleast_1d fr) ;;
            Ok (tref_in1, Some fref_out1)
        | None => Raise KeyError_atleast_one
        end
    end.

Definition measure_ecc (self : eccDefinition)
    (tref_in fref_in : option float_or_array) : result measurement :=
  '(peaks_interp, peaks_loc) <- interp_extrema self "maxima" ;;
  '(troughs_interp, troughs_loc) <- interp_extrema self "minima" ;;
  t_peaks <- take (t self) peaks_loc ;;
  t_troughs <- take (t self) troughs_loc ;;
  t_peaks_last <- last_item t_peaks ;;
  t_troughs_last <- last_item t_troughs ;;
  let tmax := Rmin t_peaks_last t_troughs_last in
  t_peaks_first <- first_item t_peaks ;;
  t_troughs_first <- first_item t_troughs ;;
  let tmin := Rmax t_peaks_first t_troughs_first in
  '(tref_in1, fref_out1) <-
    reference_input self peaks_loc troughs_loc peaks_interp troughs_interp
      tmin tmax tref_in fref_in ;;
  let tref_out1 := boolean_index (in_window tmin tmax) tref_in1 in
  _ <- match fref_out1 with
       | Some fo =>
           if negb (Nat.eqb (length fo) (length tref_out1))
           then Raise Exception_length_mismatch else Ok tt
       | None => Ok tt
       end ;;
  _ <- (if Nat.eqb (length tref_out1) 0 then
          tref_in_last <- last_item tref_in1 ;;
          if Rltb tmax tref_in_last
          then Raise Exception_tref_in_later_than_t_max
          else
            tref_in_first <- first_item tref_in1 ;;
            if Rltb tref_in_first tmin
            then Raise Exception_tref_in_earlier_than_t_min
            else Raise Exception_tref_out_empty
        else Ok tt) ;;
  '(diff_peaks, ratio_peaks) <- check_extrema_separation self peaks_loc ;;
  '(diff_troughs, ratio_troughs) <- check_extrema_separation self troughs_loc ;;
  tref_out_first <- first_item tref_out1 ;;
  if Rltb tref_out_first t_peaks_first
  then Raise Exception_not_within_two_peaks
  else
    tref_out_last <- last_item tref_out1 ;;
    if Rleb t_peaks_last tref_out_last
    then Raise Exception_not_within_two_peaks
    else
      (* eccentricity, arXiv:2101.11798 eq. 4 *)
      let peak_at := map peaks_interp tref_out1 in
      let trough_at := map troughs_interp tref_out1 in
      let ecc := zip_with ecc_formula peak_at trough_at in
      mean_ano <- vectorize (compute_mean_ano t_peaks) tref_out1 ;;
      _ <- (if Nat.ltb 1 (length tref_out1)
            then check_monotonicity_and_convexity tref_out1 ecc
            else Ok tt) ;;
      let fref_final :=
        match fref_out1 with
        | Some fo => Some (squeeze_if_single fo)
        | None => None
        end in
      let return_array :=
        match fref_final with
        | Some fo => fo
        | None => squeeze_if_single tref_out1
        end in
      Ok {| omega22_peaks_interp := peaks_interp;
            peaks_location := peaks_loc;
            omega22_troughs_interp := troughs_interp;
            troughs_location := troughs_loc;
            t_max := tmax;
            t_min := tmin;
            fref_out := fref_final;
            tref_out := squeeze_if_single tref_out1;
            orb_phase_diff_at_peaks := diff_peaks;
            orb_phase_diff_ratio_at_peaks := ratio_peaks;
            orb_phase_diff_at_troughs := diff_troughs;
            orb_phase_diff_ratio_at_troughs := ratio_troughs;
            omega22_peak_at_tref_out := peak_at;
            omega22_trough_at_tref_out := trough_at;
            ecc_ref := squeeze_if_single ecc;
            mean_ano_ref := squeeze_if_single mean_ano;
            returned := (return_array, squeeze_if_single ecc,
                         squeeze_if_single mean_ano) |}.

(** *** plot_phase_diff_ratio_between_peaks
    The two curves handed to matplotlib's [plot], as (x, y) pairs: first
    the periastron curve, then the apastron curve.  [plot] refuses x and y
    of different lengths. *)

Definition plot_phase_diff_ratio_between_peaks (self : eccDefinition)
    (m : measurement) : result ((list R * list R) * (list R * list R)) :=
  tpeaks <- take (t self) (tl (peaks_location m)) ;;
  let peaks_curve := (tl tpeaks, tl (orb_phase_diff_ratio_at_peaks m)) in
  ttroughs <- take (t self) (tl (troughs_location m)) ;;
  let troughs_curve := (tl ttroughs, tl (orb_phase_diff_ratio_at_troughs m)) in
  Ok (peaks_curve, troughs_curve).

(** ** gw_eccentricity.load_data *)

(** *** reomve_junk_from_nr_data
    [modes_dict] is a dictionary, so each key occurs once in the list; the
    loop over its keys slices every mode at the same position. *)

Definition reomve_junk_from_nr_data (time : list R) (modes_dict : modeDict)
    (num_orbits_to_remove_as_junk : R) : result (list R * modeDict) :=
  h22_ <- match mode_lookup modes_dict 2 2 with
          | Some h => Ok h
          | None => Raise KeyError_hlm_22
          end ;;
  let phase22_ := map Ropp (np_unwrap (map np_angle h22_)) in
  phase22_first <- first_item phase22_ ;;
  idx_junk <-
    np_argmin
      (map (fun p => Rabs (p - (phase22_first
                                + num_orbits_to_remove_as_junk * 4 * PI)))
         phase22_) ;;
  let t_clean := skipn idx_junk time in
  let modes_dict_clean :=
    map (fun kv => (fst kv, skipn idx_junk (snd kv))) modes_dict in
  Ok (t_clean, modes_dict_clean).

(** *** get_zeroecc_dataDict_for_lvcnr: the final truncation
    The last statements of the function, from [start_zeroecc_idx = ...] to
    the [return]; [t_zeroecc] and [hlm_zeroecc] are the quasicircular data
    that the loop before them ended with, [nr_t] is [nr_dataDict["t"]]. *)

(** [a[start:]]: a negative [start] counts from the end of the array. *)
Definition slice_from {A : Type} (a : list A) (start : Z) : list A :=
  if (start <? 0)%Z then skipn (length a - Z.to_nat (- start)) a
  else skipn (Z.to_nat start) a.

Definition truncate_zeroecc (t_zeroecc : list R) (hlm_zeroecc : modeDict)
    (nr_t : list R) : result (list R * modeDict) :=
  nr_t_first <- first_item nr_t ;;
  nearest <- np_argmin (map (fun x => Rabs (x - nr_t_first)) t_zeroecc) ;;
  let start_zeroecc_idx := (Z.of_nat nearest - 10)%Z in
  let hlm_zeroecc1 :=
    map (fun kv => (fst kv, slice_from (snd kv) start_zeroecc_idx)) hlm_zeroecc in
  Ok (slice_from t_zeroecc start_zeroecc_idx, hlm_zeroecc1).

(** ** Notions used to state the properties *)

(** The elements [f] of [fref_in] with [fmin <= f < fmax], in their order. *)
Definition frequencies_in_range (fmin fmax : R) (fref_in : list R) : list R :=
  filter (fun f => Rleb fmin f && Rltb f fmax) fref_in.

(** [m] raises no exception outside [P]. *)
Definition raises_only {A : Type} (P : exn -> Prop) (m : result A) : Prop :=
  forall e, m = Raise e -> P e.

(** The exceptions that come from the numpy operations and from the methods
    called by [measure_ecc], as opposed to its own [raise] statements. *)
Definition from_callee (e : exn) : Prop :=
  match e with
  | KeyError_exactly_one | KeyError_atleast_one | Exception_length_mismatch
  | Exception_tref_in_later_than_t_max | Exception_tref_in_earlier_than_t_min
  | Exception_tref_out_empty | Exception_not_within_two_peaks => False
  | _ => True
  end.

(** Exactly one of [tref_in] and [fref_in] is given (is not [None]). *)
Definition exactly_one_given (tref_in fref_in : option float_or_array) : Prop :=
  (tref_in <> None /\ fref_in = None) \/ (tref_in = None /\ fref_in <> None).

(** The averaged frequency of each pair of consecutive extrema: phase22
    difference over time difference. *)
Fixpoint orbit_averages (times phases : list R) : list R :=
  match times, phases with
  | t0 :: ((t1 :: _) as times'), p0 :: ((p1 :: _) as phases') =>
      (p1 - p0) / (t1 - t0) :: orbit_averages times' phases'
  | _, _ => []
  end.

(** The midpoint of each pair of consecutive extrema times. *)
Fixpoint pair_midpoints (times : list R) : list R :=
  match times with
  | t0 :: ((t1 :: _) as times') => (t0 + t1) / 2 :: pair_midpoints times'
  | _ => []
  end.

(** The first position of [phase] at which [threshold] is reached, the
    threshold position in the wording of the specification. *)
Definition first_position_reaching (threshold : R) (phase : list R) : option nat :=
  hd_error (np_where (fun p => Rleb threshold p) phase).

(** Order of two (value, position) pairs by value. *)
Definition key_le (a b : R * nat) : Prop := fst a <= fst b.

(** [mean_ano] is the mean anomaly at [tref] for the periastron times
    [t_peaks]: with [t_p0] the latest periastron time at or before [tref]
    and [t_p1] the first periastron time after [t_p0], it is
    2*pi*(tref - t_p0)/(t_p1 - t_p0). *)
Definition mean_anomaly_between_periastrons
    (t_peaks : list R) (tref mean_ano : R) : Prop :=
  exists t_p0 t_p1,
    In t_p0 t_peaks /\ t_p0 <= tref
    /\ (forall p, In p t_peaks -> p <= tref -> p <= t_p0)
    /\ In t_p1 t_peaks /\ t_p0 < t_p1
    /\ (forall p, In p t_peaks -> t_p0 < p -> t_p1 <= p)
    /\ mean_ano = 2 * PI * (tref - t_p0) / (t_p1 - t_p0).

(** ** Example waveforms *)

(** Stand-ins for the scipy and numpy routines on the examples: a spline
    that is constant at the first fitted value, a one-point grid, and
    identities.  The spline constructor refuses, as scipy's does, a degree
    outside 1..5, x and y of different lengths, no more points than the
    degree, and an x that is not strictly increasing. *)
Definition example_spline (x y : list R) (kw : spline_kwargs_t) (u : R) : R := hd 0 y.
Definition example_spline_raises (x y : list R) (kw : spline_kwargs_t) : bool :=
  negb (Nat.leb 1 (k kw) && Nat.leb (k kw) 5)
  || negb (Nat.eqb (length x) (length y))
  || Nat.leb (length x) (k kw)
  || any_nonpositive (np_diff x).
Definition example_arange (start stop step : R) : list R := [start].
Definition example_interp (x xp fp : list R) : list R := x.
Definition example_angle (z : complex) : R := 0.
Definition example_unwrap (p : list R) : list R := p.
Definition example_gradient (f x : list R) : list R := f.

(** An extrema finder that reports the samples 0, 2, 4 as periastrons and
    1, 3, 5 as apastrons. *)
Definition example_find_extrema (self : eccDefinition) (extrema_type : string)
  : list nat :=
  if String.eqb extrema_type "maxima" then [0; 2; 4]%nat else [1; 3; 5]%nat.

(** Linear splines, for which the three extrema of each kind in the
    example below are enough. *)
Definition example_spline_kwargs : spline_kwargs_t :=
  {| w := None; bbox := (None, None); k := 1; ext := 2; check_finite := false |}.

(** Seven samples ending at the merger, without merger-proximity trimming. *)
Definition example_self : eccDefinition :=
  {| t := [-6; -5; -4; -3; -2; -1; 0];
     h22 := [];
     amp22 := [];
     phase22 := [0; 1; 3; 5; 8; 11; 15];
     omega22 := [4; 1; 5; 2; 6; 3; 7];
     zeroecc := None;
     spline_kwargs := example_spline_kwargs;
     extra_kwargs := {| num_orbits_to_exclude_before_merger := None;
                        debug := true;
                        omega22_averaging_method := "orbital_average_at_extrema" |} |}.

Definition example_tref_in : float_or_array := Array [-5; -9 / 2; -4; -3; -2; 0].

(** What [measure_ecc] leaves on [example_self] for [example_tref_in]. *)
Definition example_measurement : measurement :=
  {| omega22_peaks_interp :=
       example_spline [-6; -4; -2] [4; 5; 6] example_spline_kwargs;
     peaks_location := [0; 2; 4]%nat;
     omega22_troughs_interp :=
       example_spline [-5; -3; -1] [1; 2; 3] example_spline_kwargs;
     troughs_location := [1; 3; 5]%nat;
     t_max := -2;
     t_min := -5;
     fref_out := None;
     tref_out := Array [-5; -9 / 2; -4; -3];
     orb_phase_diff_at_peaks := [3 / 2 - 0 / 2; 8 / 2 - 3 / 2];
     orb_phase_diff_ratio_at_peaks := [0; (8 / 2 - 3 / 2) / (3 / 2 - 0 / 2)];
     orb_phase_diff_at_troughs := [5 / 2 - 1 / 2; 11 / 2 - 5 / 2];
     orb_phase_diff_ratio_at_troughs := [0; (11 / 2 - 5 / 2) / (5 / 2 - 1 / 2)];
     omega22_peak_at_tref_out := [4; 4; 4; 4];
     omega22_trough_at_tref_out := [1; 1; 1; 1];
     ecc_ref := Array [ecc_formula 4 1; ecc_formula 4 1; ecc_formula 4 1;
                       ecc_formula 4 1];
     mean_ano_ref :=
       Array [2 * PI * (-5 - -6) / (-4 - -6); 2 * PI * (-9 / 2 - -6) / (-4 - -6);
              2 * PI * (-4 - -4) / (-2 - -4); 2 * PI * (-3 - -4) / (-2 - -4)];
     returned :=
       (Array [-5; -9 / 2; -4; -3],
        Array [ecc_formula 4 1; ecc_formula 4 1; ecc_formula 4 1; ecc_formula 4 1],
        Array [2 * PI * (-5 - -6) / (-4 - -6); 2 * PI * (-9 / 2 - -6) / (-4 - -6);
               2 * PI * (-4 - -4) / (-2 - -4); 2 * PI * (-3 - -4) / (-2 - -4)]) |}.

(** Three samples ending at the merger, with the default exclusion of one
    orbit before merger: the (2,2) phase is 0, 3*pi, 8*pi, so the phase one
    orbit before merger, 4*pi, lies between the last two samples and the
    middle sample is the nearest to it. *)
Definition trimming_self : eccDefinition :=
  {| t := [-2; -1; 0];
     h22 := [];
     amp22 := [];
     phase22 := [0; 3 * PI; 8 * PI];
     omega22 := [1; 2; 3];
     zeroecc := None;
     spline_kwargs := get_default_spline_kwargs;
     extra_kwargs := get_default_extra_kwargs |}.

(** An extrema finder that reports the samples 0 and 1. *)
Definition trimming_find_extrema (self : eccDefinition) (extrema_type : string)
  : list nat := [0; 1]%nat.

(** The same three samples with the (2,2) phase 0, [phase_mid], 8*pi. *)
Definition threshold_self (phase_mid : R) : eccDefinition :=
  {| t := [-2; -1; 0];
     h22 := [];
     amp22 := [];
     phase22 := [0; phase_mid; 8 * PI];
     omega22 := [1; 2; 3];
     zeroecc := None;
     spline_kwargs := get_default_spline_kwargs;
     extra_kwargs := get_default_extra_kwargs |}.

(** A two-mode waveform: |h22| = 1, 2, 1, 0, 0 peaks at the second sample;
    |h33| = 0, 0, 0, 3, 0 makes the combined amplitude 1, 2, 1, 3, 0 peak
    at the fourth. *)
Definition two_mode_dataDict : dataDict_t :=
  {| dd_t := [0; 1; 2; 3; 4];
     dd_hlm := [((2, 2)%Z, [(1, 0); (2, 0); (1, 0); (0, 0); (0, 0)]);
                ((3, 3)%Z, [(0, 0); (0, 0); (0, 0); (3, 0); (0, 0)])];
     dd_t_zeroecc := None;
     dd_hlm_zeroecc := None |}.

(** The (2,2) mode of [two_mode_dataDict] with a quasicircular counterpart
    sampled from one step earlier: |h22_zeroecc| = 1, 1, 2, 1, 0 over
    t = -1..3 peaks at t = 1, as |h22| does, so after the two shifts the
    quasicircular times start at -2 and the eccentric ones at -1. *)
Definition zeroecc_dataDict : dataDict_t :=
  {| dd_t := [0; 1; 2; 3; 4];
     dd_hlm := [((2, 2)%Z, [(1, 0); (2, 0); (1, 0); (0, 0); (0, 0)])];
     dd_t_zeroecc := Some [-1; 0; 1; 2; 3];
     dd_hlm_zeroecc :=
       Some [((2, 2)%Z, [(1, 0); (1, 0); (2, 0); (1, 0); (0, 0)])] |}.

(** A copy of an object with another [omega22_averaging_method]. *)
Definition with_averaging_method (self : eccDefinition) (method : string)
  : eccDefinition :=
  {| t := t self; h22 := h22 self; amp22 := amp22 self; phase22 := phase22 self;
     omega22 := omega22 self; zeroecc := zeroecc self;
     spline_kwargs := spline_kwargs self;
     extra_kwargs :=
       {| num_orbits_to_exclude_before_merger :=
            num_orbits_to_exclude_before_merger (extra_kwargs self);
          debug := debug (extra_kwargs self);
          omega22_averaging_method := method |} |}.

(** Three samples of a (2,2) mode whose phase, carried by the second
    component and read back by the stand-in for [np.angle] below, is
    0, 3*pi, 8*pi. *)
Definition junk_modes_dict : modeDict :=
  [((2, 2)%Z, [(1, 0); (1, 3 * PI); (1, 8 * PI)])].

Definition junk_angle (z : complex) : R := - snd z.

(** Twelve quasicircular samples, for an NR waveform that starts at -9. *)
Definition long_t_zeroecc : list R :=
  [-11; -10; -9; -8; -7; -6; -5; -4; -3; -2; -1; 0].

(** * Properties *)

(** ** Comparisons, indexing and the result monad *)

Lemma Rleb_true_iff (x y : R) : Rleb x y = true <-> x <= y.
Proof.
  clear_unused_variables.
  unfold Rleb. destruct (Rle_dec x y); split; intros; try discriminate; tauto.
Qed.

Lemma Rleb_false_iff (x y : R) : Rleb x y = false <-> y < x.
Proof.
  unfold Rleb. destruct (Rle_dec x y); split; intros;
    try discriminate; try reflexivity; lra.
Qed.

Lemma Rltb_true_iff (x y : R) : Rltb x y = true <-> x < y.
Proof.
  clear_unused_variables.
  unfold Rltb. destruct (Rlt_dec x y); split; intros; try discriminate; tauto.
Qed.

Lemma Rltb_false_iff (x y : R) : Rltb x y = false <-> y <= x.
Proof.
  unfold Rltb. destruct (Rlt_dec x y); split; intros;
    try discriminate; try reflexivity; lra.
Qed.

Lemma bind_Ok {A B : Type} (m : result A) (f : A -> result B) (b : B) :
  bind m f = Ok b -> exists a, m = Ok a /\ f a = Ok b.
Proof. destruct m; simpl; intros H; [eauto | discriminate]. Qed.

(** Splits the first step off a hypothesis [x <- m ;; k = Ok _]. *)
Ltac bind_inv H :=
  let a := fresh "a" in
  let E := fresh "E" in
  apply bind_Ok in H; destruct H as (a & E & H).

Lemma getitem_Ok {A : Type} (a : list A) (i : nat) (x : A) :
  getitem a i = Ok x <-> nth_error a i = Some x.
Proof.
  unfold getitem. destruct (nth_error a i); split; intros H;
    try discriminate; congruence.
Qed.

Lemma getitem_lt {A : Type} (a : list A) (i : nat) :
  (i < length a)%nat -> exists x, getitem a i = Ok x.
Proof.
  intros H. unfold getitem. destruct (nth_error a i) eqn:E; eauto.
  apply nth_error_None in E. lia.
Qed.

Lemma take_Ok_length {A : Type} (a : list A) (idx : list nat) (l : list A) :
  take a idx = Ok l -> length l = length idx.
Proof.
  unfold take. revert l. induction idx as [|i idx IH]; simpl; intros l H.
  - injection H as <-. reflexivity.
  - bind_inv H. bind_inv H. injection H as <-. simpl. f_equal. auto.
Qed.

Lemma take_in_range {A : Type} (a : list A) (idx : list nat) :
  Forall (fun i => (i < length a)%nat) idx -> exists l, take a idx = Ok l.
Proof.
  unfold take. induction 1 as [|i idx Hi _ (l & IH)]; simpl.
  - eauto.
  - destruct (getitem_lt a i Hi) as (x & ->). simpl. rewrite IH. simpl. eauto.
Qed.

Lemma take_Ok_in_range {A : Type} (a : list A) (idx : list nat) (l : list A) :
  take a idx = Ok l -> Forall (fun i => (i < length a)%nat) idx.
Proof.
  unfold take. revert l. induction idx as [|i idx IH]; simpl; intros l H.
  - constructor.
  - bind_inv H. bind_inv H. constructor; eauto.
    apply getitem_Ok in E. apply nth_error_Some. congruence.
Qed.

Lemma getitem_Raise {A : Type} (a : list A) (i : nat) (e : exn) :
  getitem a i = Raise e -> e = IndexError.
Proof. unfold getitem. destruct (nth_error a i); congruence. Qed.

Lemma take_Raise {A : Type} (a : list A) (idx : list nat) (e : exn) :
  take a idx = Raise e -> e = IndexError.
Proof.
  unfold take. induction idx as [|i idx IH]; simpl; [discriminate |].
  destruct (getitem a i) eqn:E; simpl.
  - destruct (mapM (getitem a) idx); simpl; [discriminate |].
    intros H. apply IH. congruence.
  - intros H. apply (getitem_Raise a i). congruence.
Qed.

Lemma values_squeeze (a : list R) : values (squeeze_if_single a) = a.
Proof. destruct a as [|x [|y a]]; reflexivity. Qed.

(** ** np.argmin returns a position of the minimum *)

Lemma argmin_from_spec (a : list R) :
  forall best besti i,
    (argmin_from best besti a i = besti /\ forall v, In v a -> best <= v)
    \/ (exists n v, argmin_from best besti a i = (i + n)%nat
                    /\ nth_error a n = Some v /\ v < best
                    /\ forall u, In u a -> v <= u).
Proof.
  induction a as [|x xs IH]; intros best besti i; simpl.
  - left. split; [reflexivity | intros v []].
  - destruct (Rltb x best) eqn:Hx.
    + apply Rltb_true_iff in Hx. right.
      destruct (IH x i (S i)) as [(-> & Hmin) | (n & v & -> & Hn & Hv & Hmin)].
      * exists 0%nat, x. repeat split; auto; try (f_equal; lia).
        intros u [<- | Hu]; [lra | auto].
      * exists (S n), v. repeat split; auto; try lia; try lra.
        intros u [<- | Hu]; [lra | auto].
    + apply Rltb_false_iff in Hx.
      destruct (IH best besti (S i)) as [(-> & Hmin) | (n & v & -> & Hn & Hv & Hmin)].
      * left. split; auto. intros u [<- | Hu]; [lra | auto].
      * right. exists (S n), v. repeat split; auto; try lia.
        intros u [<- | Hu]; [lra | auto].
Qed.

Lemma np_argmin_spec (a : list R) (i : nat) :
  np_argmin a = Ok i ->
  exists v, nth_error a i = Some v /\ forall u, In u a -> v <= u.
Proof.
  destruct a as [|x xs]; simpl; intros H; [discriminate |].
  injection H as <-.
  destruct (argmin_from_spec xs x 0%nat 1%nat)
    as [(-> & Hmin) | (n & v & -> & Hn & Hv & Hmin)].
  - exists x. split; auto. intros u [<- | Hu]; [lra | auto].
  - exists v. split; auto. intros u [<- | Hu]; [lra | auto].
Qed.

Lemma np_argmin_nonempty (a : list R) :
  a <> [] -> exists i, np_argmin a = Ok i.
Proof. destruct a; [congruence | simpl; eauto]. Qed.

(** ** interp_extrema *)

Lemma trimmed_extrema_None (self : eccDefinition) (ty : string) :
  num_orbits_to_exclude_before_merger (extra_kwargs self) = None ->
  trimmed_extrema self ty = Ok (find_extrema self ty).
Proof. unfold trimmed_extrema. intros ->. reflexivity. Qed.

Lemma interp_extrema_Ok_inv (self : eccDefinition) (ty : string)
    (spline : R -> R) (idx : list nat) :
  interp_extrema self ty = Ok (spline, idx) ->
  exists t_ext omega22_ext,
    trimmed_extrema self ty = Ok idx /\ (2 <= length idx)%nat
    /\ take (t self) idx = Ok t_ext /\ take (omega22 self) idx = Ok omega22_ext
    /\ spline = InterpolatedUnivariateSpline t_ext omega22_ext (spline_kwargs self)
    /\ InterpolatedUnivariateSpline_raises t_ext omega22_ext (spline_kwargs self)
       = false.
Proof.
  unfold interp_extrema, construct_spline. intros H. bind_inv H.
  destruct (Nat.leb 2 (length a)) eqn:Hlen; [| discriminate].
  apply Nat.leb_le in Hlen.
  bind_inv H. bind_inv H.
  destruct (InterpolatedUnivariateSpline_raises _ _ _) eqn:Hr; [discriminate |].
  cbn [bind] in H. injection H as <- <-.
  eauto 10.
Qed.



(** ** get_fref_out *)

Lemma filter_nil_iff {A : Type} (p : A -> bool) (l : list A) :
  filter p l = [] <-> forall x, In x l -> p x = false.
Proof.
  induction l as [|x l IH]; simpl.
  - split; [intros _ y [] | reflexivity].
  - destruct (p x) eqn:Hx; split.
    + discriminate.
    + intros H. specialize (H x (or_introl eq_refl)). congruence.
    + intros H y [<- | Hy]; [assumption | apply IH; assumption].
    + intros H. apply IH. intros y Hy. apply H. right. assumption.
Qed.

Lemma length_zero_eqb {A : Type} (l : list A) :
  Nat.eqb (length l) 0 = true <-> l = [].
Proof. destruct l; simpl; split; congruence. Qed.

Lemma first_item_In {A : Type} (l : list A) (x : A) :
  first_item l = Ok x -> In x l.
Proof.
  unfold first_item, getitem. destruct l; simpl; intros H; [discriminate |].
  injection H as <-. now left.
Qed.

Lemma last_In {A : Type} (l : list A) (d : A) : In (last l d) (d :: l).
Proof.
  destruct l as [|x l]; [now left |].
  right. generalize dependent x.
  induction l as [|y l IH]; intros x; [now left |].
  right. apply (IH y).
Qed.

Lemma last_item_In {A : Type} (l : list A) (x : A) :
  last_item l = Ok x -> In x l.
Proof.
  destruct l as [|y l]; simpl; intros H; [discriminate |].
  injection H as <-. apply last_In.
Qed.

Lemma first_item_nonempty {A : Type} (l : list A) :
  l <> [] -> exists x, first_item l = Ok x.
Proof. unfold first_item, getitem. destruct l; [congruence | simpl; eauto]. Qed.

Lemma last_item_nonempty {A : Type} (l : list A) :
  l <> [] -> exists x, last_item l = Ok x.
Proof. destruct l; [congruence | simpl; eauto]. Qed.


Lemma frequencies_in_range_In (fmin fmax : R) (fref_in : list R) (f : R) :
  In f (frequencies_in_range fmin fmax fref_in)
  <-> In f fref_in /\ fmin <= f < fmax.
Proof.
  clear_unused_variables.
  unfold frequencies_in_range.
  rewrite filter_In, andb_true_iff, Rleb_true_iff, Rltb_true_iff. tauto.
Qed.

(** C9: with [fmin] and [fmax] the first and last values of the
    average-frequency curve divided by 2*pi, [get_fref_out] returns exactly
    the elements [f] of [fref_in] with [fmin <= f < fmax] when there is one;
    when none of the given frequencies survives it raises the exception that
    cites the lower bound (first input below [fmin]), the one that cites the
    upper bound (last input above [fmax]), or the one that reports
    insufficient periastrons/apastrons; it never returns an empty array. *)
Theorem get_fref_out_spec
    (omega22_average fref_in : list R) (om_first om_last : R) :
  first_item omega22_average = Ok om_first ->
  last_item omega22_average = Ok om_last ->
  (forall kept, get_fref_out omega22_average fref_in = Ok kept ->
     kept <> []
     /\ kept = frequencies_in_range (om_first / (2 * PI)) (om_last / (2 * PI)) fref_in
     /\ forall f, In f kept <->
          In f fref_in /\ om_first / (2 * PI) <= f < om_last / (2 * PI))
  /\ (frequencies_in_range (om_first / (2 * PI)) (om_last / (2 * PI)) fref_in <> [] ->
      get_fref_out omega22_average fref_in
      = Ok (frequencies_in_range (om_first / (2 * PI)) (om_last / (2 * PI)) fref_in))
  /\ (frequencies_in_range (om_first / (2 * PI)) (om_last / (2 * PI)) fref_in = [] ->
      fref_in <> [] ->
      exists f_first f_last,
        first_item fref_in = Ok f_first /\ last_item fref_in = Ok f_last
        /\ ((get_fref_out omega22_average fref_in
             = Raise Exception_fref_in_earlier_than_minimum
             /\ f_first < om_first / (2 * PI))
            \/ (get_fref_out omega22_average fref_in
                = Raise Exception_fref_in_later_than_maximum
                /\ om_last / (2 * PI) < f_last)
            \/ (get_fref_out omega22_average fref_in
                = Raise Exception_fref_out_empty
                /\ om_first / (2 * PI) <= f_first
                /\ f_last <= om_last / (2 * PI)))).
Proof.
  intros Hfirst Hlast.
  unfold get_fref_out. rewrite Hfirst, Hlast. cbn [bind].
  unfold boolean_index.
  fold (frequencies_in_range (om_first / (2 * PI)) (om_last / (2 * PI)) fref_in).
  set (kept := frequencies_in_range _ _ fref_in).
  destruct (Nat.eqb (length kept) 0) eqn:Hlen.
  - apply length_zero_eqb in Hlen. split; [| split].
    + intros out H. exfalso.
      destruct (first_item fref_in); cbn [bind] in H; [| discriminate].
      destruct (Rltb _ _); [discriminate |].
      destruct (last_item fref_in); cbn [bind] in H; [| discriminate].
      destruct (Rltb _ _); discriminate.
    + congruence.
    + intros _ Hne.
      destruct (first_item_nonempty fref_in Hne) as (f_first & Hf).
      destruct (last_item_nonempty fref_in Hne) as (f_last & Hl).
      exists f_first, f_last. rewrite Hf, Hl. cbn [bind].
      split; [reflexivity |]. split; [reflexivity |].
      destruct (Rltb f_first _) eqn:H1.
      * left. apply Rltb_true_iff in H1. auto.
      * apply Rltb_false_iff in H1.
        destruct (Rltb _ f_last) eqn:H2.
        -- right. left. apply Rltb_true_iff in H2. auto.
        -- right. right. apply Rltb_false_iff in H2. auto.
  - assert (Hne : kept <> []).
    { intros H. apply length_zero_eqb in H. congruence. }
    split; [| split].
    + intros out H. injection H as <-. split; [assumption |].
      split; [reflexivity |]. intros f. apply frequencies_in_range_In.
    + reflexivity.
    + congruence.
Qed.

(** ** measure_ecc: what a returning call has computed *)

Lemma mapM_Ok_Forall2 {A B : Type} (f : A -> result B) (l : list A) (r : list B) :
  mapM f l = Ok r -> Forall2 (fun x y => f x = Ok y) l r.
Proof.
  revert r. induction l as [|x l IH]; simpl; intros r H.
  - injection H as <-. constructor.
  - bind_inv H. bind_inv H. injection H as <-. constructor; auto.
Qed.

Lemma vectorize_Ok {A : Type} (f : A -> result R) (a : list A) (r : list R) :
  vectorize f a = Ok r -> a <> [] /\ mapM f a = Ok r.
Proof. destruct a; simpl; intros H; [discriminate |]. split; [discriminate | exact H]. Qed.

(** The attributes of a returning call, spelled out step by step. *)
Lemma measure_ecc_Ok_inv (self : eccDefinition)
    (tref_in fref_in : option float_or_array) (m : measurement) :
  measure_ecc self tref_in fref_in = Ok m ->
  exists t_peaks t_troughs t_peaks_last t_troughs_last t_peaks_first t_troughs_first
         tref_in1 fref_out1 mean_ano,
    interp_extrema self "maxima" = Ok (omega22_peaks_interp m, peaks_location m)
    /\ interp_extrema self "minima" = Ok (omega22_troughs_interp m, troughs_location m)
    /\ take (t self) (peaks_location m) = Ok t_peaks
    /\ take (t self) (troughs_location m) = Ok t_troughs
    /\ last_item t_peaks = Ok t_peaks_last
    /\ last_item t_troughs = Ok t_troughs_last
    /\ first_item t_peaks = Ok t_peaks_first
    /\ first_item t_troughs = Ok t_troughs_first
    /\ t_max m = Rmin t_peaks_last t_troughs_last
    /\ t_min m = Rmax t_peaks_first t_troughs_first
    /\ reference_input self (peaks_location m) (troughs_location m)
         (omega22_peaks_interp m) (omega22_troughs_interp m)
         (t_min m) (t_max m) tref_in fref_in = Ok (tref_in1, fref_out1)
    /\ values (tref_out m) = boolean_index (in_window (t_min m) (t_max m)) tref_in1
    /\ values (tref_out m) <> []
    /\ omega22_peak_at_tref_out m = map (omega22_peaks_interp m) (values (tref_out m))
    /\ omega22_trough_at_tref_out m = map (omega22_troughs_interp m) (values (tref_out m))
    /\ values (ecc_ref m)
       = zip_with ecc_formula (omega22_peak_at_tref_out m) (omega22_trough_at_tref_out m)
    /\ mapM (compute_mean_ano t_peaks) (values (tref_out m)) = Ok mean_ano
    /\ values (mean_ano_ref m) = mean_ano
    /\ snd (fst (returned m)) = ecc_ref m
    /\ snd (returned m) = mean_ano_ref m
    /\ (fref_out1 = None -> fst (fst (returned m)) = tref_out m)
    /\ (forall fo, fref_out1 = Some fo ->
          values (fst (fst (returned m))) = fo /\ length fo = length (values (tref_out m))).
Proof.
  unfold measure_ecc. intros H.
  bind_inv H. destruct a as (peaks_interp, peaks_loc).
  bind_inv H. destruct a as (troughs_interp, troughs_loc).
  bind_inv H. rename a into t_peaks.
  bind_inv H. rename a into t_troughs.
  bind_inv H. rename a into t_peaks_last.
  bind_inv H. rename a into t_troughs_last.
  bind_inv H. rename a into t_peaks_first.
  bind_inv H. rename a into t_troughs_first.
  bind_inv H. destruct a as (tref_in1, fref_out1).
  bind_inv H. destruct a.
  bind_inv H. destruct a.
  bind_inv H. destruct a as (diff_peaks, ratio_peaks).
  bind_inv H. destruct a as (diff_troughs, ratio_troughs).
  bind_inv H. rename a into tref_out_first.
  destruct (Rltb tref_out_first t_peaks_first) eqn:Hlo; [discriminate |].
  bind_inv H. rename a into tref_out_last.
  destruct (Rleb t_peaks_last tref_out_last) eqn:Hhi; [discriminate |].
  bind_inv H. rename a into mean_ano.
  apply vectorize_Ok in E14. destruct E14 as (Hne & Hmean).
  bind_inv H. destruct a.
  injection H as <-. cbn [omega22_peaks_interp peaks_location omega22_troughs_interp
    troughs_location t_max t_min tref_out omega22_peak_at_tref_out
    omega22_trough_at_tref_out ecc_ref mean_ano_ref returned fst snd].
  rewrite !values_squeeze.
  exists t_peaks, t_troughs, t_peaks_last, t_troughs_last, t_peaks_first,
    t_troughs_first, tref_in1, fref_out1, mean_ano.
  repeat (split; [first [assumption | reflexivity] |]).
  split.
  - intros ->. reflexivity.
  - intros fo ->. rewrite values_squeeze. split; [reflexivity |].
    cbn in E8. destruct (Nat.eqb (length fo) _) eqn:Hl; [| discriminate].
    apply Nat.eqb_eq in Hl. exact Hl.
Qed.

Lemma zip_with_map_map {A B C D : Type} (f : B -> C -> D) (g : A -> B) (h : A -> C)
    (l : list A) :
  zip_with f (map g l) (map h l) = map (fun x => f (g x) (h x)) l.
Proof. induction l as [|x l IH]; simpl; [reflexivity | now rewrite IH]. Qed.

Lemma Forall2_map_r {A B : Type} (f : A -> B) (l : list A) :
  Forall2 (fun x y => y = f x) l (map f l).
Proof. induction l; simpl; constructor; auto. Qed.

Lemma in_window_iff (tmin tmax x : R) :
  in_window tmin tmax x = true <-> tmin <= x < tmax.
Proof.
  clear_unused_variables.
  unfold in_window. rewrite andb_true_iff, Rltb_true_iff, Rleb_true_iff. tauto.
Qed.

Lemma reference_input_tref (self : eccDefinition) (pl tl : list nat)
    (pki tri : R -> R) (tmin tmax : R) (v : float_or_array)
    (fref_in : option float_or_array) (tref_in1 : list R) (fo : option (list R)) :
  reference_input self pl tl pki tri tmin tmax (Some v) fref_in = Ok (tref_in1, fo) ->
  fref_in = None /\ tref_in1 = np_atleast_1d v /\ fo = None.
Proof.
  unfold reference_input. destruct fref_in; simpl; intros H; [discriminate |].
  injection H as <- <-. auto.
Qed.

(** C3: for every reference time retained by [measure_ecc], the returned
    eccentricity is (sqrt(omega_p) - sqrt(omega_a)) / (sqrt(omega_p) +
    sqrt(omega_a)), with omega_p and omega_a the values at that reference
    time of the periastron and apastron interpolants, which are the splines
    of [interp_extrema] through the trimmed maxima and minima. *)
Theorem measure_ecc_eccentricity (self : eccDefinition)
    (tref_in fref_in : option float_or_array) (m : measurement) :
  measure_ecc self tref_in fref_in = Ok m ->
  interp_extrema self "maxima" = Ok (omega22_peaks_interp m, peaks_location m)
  /\ interp_extrema self "minima" = Ok (omega22_troughs_interp m, troughs_location m)
  /\ snd (fst (returned m)) = ecc_ref m
  /\ Forall2
       (fun tref ecc =>
          ecc = (sqrt (omega22_peaks_interp m tref) - sqrt (omega22_troughs_interp m tref))
                / (sqrt (omega22_peaks_interp m tref) + sqrt (omega22_troughs_interp m tref)))
       (values (tref_out m)) (values (ecc_ref m)).
Proof.
  intros H. apply measure_ecc_Ok_inv in H.
  destruct H as (t_peaks & t_troughs & tpl & ttl & tpf & ttf & tref_in1 & fo & ma
                 & Hpk & Htr & _ & _ & _ & _ & _ & _ & _ & _ & _ & _ & _
                 & Hp & Ha & Hecc & _ & _ & Hret & _).
  repeat (split; [assumption |]).
  rewrite Hecc, Hp, Ha, zip_with_map_map.
  apply (Forall2_map_r
           (fun x => ecc_formula (omega22_peaks_interp m x) (omega22_troughs_interp m x))).
Qed.

(** C6: the retained reference times [tref_out] are exactly the elements
    [x] of [tref_in] with [t_min <= x < t_max], in their order, where
    [t_min] is the larger of the first periastron and first apastron times
    and [t_max] the smaller of the last periastron and last apastron times,
    taken over the trimmed extrema; a reference time equal to [t_max] is
    never retained.  ([tref_in] is the given array, or the one computed
    from [fref_in].) *)
Theorem measure_ecc_tref_out (self : eccDefinition)
    (tref_in fref_in : option float_or_array) (m : measurement) :
  measure_ecc self tref_in fref_in = Ok m ->
  exists t_peaks t_troughs t_peaks_first t_peaks_last t_troughs_first t_troughs_last
         tref_in1 fref_out1,
    trimmed_extrema self "maxima" = Ok (peaks_location m)
    /\ trimmed_extrema self "minima" = Ok (troughs_location m)
    /\ take (t self) (peaks_location m) = Ok t_peaks
    /\ take (t self) (troughs_location m) = Ok t_troughs
    /\ first_item t_peaks = Ok t_peaks_first /\ last_item t_peaks = Ok t_peaks_last
    /\ first_item t_troughs = Ok t_troughs_first
    /\ last_item t_troughs = Ok t_troughs_last
    /\ t_min m = Rmax t_peaks_first t_troughs_first
    /\ t_max m = Rmin t_peaks_last t_troughs_last
    /\ reference_input self (peaks_location m) (troughs_location m)
         (omega22_peaks_interp m) (omega22_troughs_interp m)
         (t_min m) (t_max m) tref_in fref_in = Ok (tref_in1, fref_out1)
    /\ (forall v, tref_in = Some v -> tref_in1 = np_atleast_1d v)
    /\ values (tref_out m)
       = filter (fun x => Rltb x (t_max m) && Rleb (t_min m) x) tref_in1
    /\ (forall x, In x (values (tref_out m)) <->
                  In x tref_in1 /\ t_min m <= x < t_max m)
    /\ ~ In (t_max m) (values (tref_out m)).
Proof.
  clear_unused_variables.
  intros H. apply measure_ecc_Ok_inv in H.
  destruct H as (t_peaks & t_troughs & tpl & ttl & tpf & ttf & tref_in1 & fo & ma
                 & Hpk & Htr & Htp & Htt & Hpl & Htl & Hpf & Htf & Hmax & Hmin
                 & Href & Hout & _).
  exists t_peaks, t_troughs, tpf, tpl, ttf, ttl, tref_in1, fo.
  destruct (interp_extrema_Ok_inv _ _ _ _ Hpk) as (? & ? & Hpk' & _).
  destruct (interp_extrema_Ok_inv _ _ _ _ Htr) as (? & ? & Htr' & _).
  repeat (split; [assumption |]).
  assert (Hin : forall x, In x (values (tref_out m)) <->
                          In x tref_in1 /\ t_min m <= x < t_max m).
  { intros z. rewrite Hout. unfold boolean_index.
    rewrite filter_In, in_window_iff. tauto. }
  split; [| split; [| split]].
  - intros v ->. apply reference_input_tref in Href. tauto.
  - exact Hout.
  - exact Hin.
  - intros Hc. apply Hin in Hc. lra.
Qed.

(** ** compute_mean_ano: the periastron lookups *)

Lemma last_cons_default {A : Type} (l : list A) (a z : A) :
  last (a :: l) z = last l a.
Proof.
  revert a z. induction l as [|b l IH]; intros a z; [reflexivity |].
  change (last (a :: b :: l) z) with (last (b :: l) z).
  rewrite IH. symmetry. apply IH.
Qed.

Lemma last_item_cons {A : Type} (l : list A) (z r : A) :
  last_item l = Ok r -> last_item (z :: l) = Ok r.
Proof.
  destruct l as [|a l]; simpl; intros H; [discriminate |].
  injection H as <-. f_equal. apply last_cons_default.
Qed.

Lemma last_item_nth_error {A : Type} (l : list A) (r : A) :
  last_item l = Ok r -> nth_error l (length l - 1) = Some r.
Proof.
  destruct l as [|a l]; simpl; intros H; [discriminate |].
  injection H as <-. rewrite Nat.sub_0_r.
  revert a. induction l as [|b l IH]; intros a; [reflexivity |].
  simpl length. change (nth_error (a :: b :: l) (S (length l)))
    with (nth_error (b :: l) (length l)).
  rewrite (IH b). f_equal. symmetry. apply last_cons_default.
Qed.

Lemma first_item_nth_error {A : Type} (l : list A) (r : A) :
  first_item l = Ok r <-> nth_error l 0 = Some r.
Proof. apply getitem_Ok. Qed.

(** The last position at which the test holds. *)
Lemma np_where_from_last (p : R -> bool) (a : list R) :
  forall i,
    (np_where_from p a i = [] /\ forall v, In v a -> p v = false)
    \/ exists n v,
         last_item (np_where_from p a i) = Ok (i + n)%nat
         /\ nth_error a n = Some v /\ p v = true
         /\ forall j u, (n < j)%nat -> nth_error a j = Some u -> p u = false.
Proof.
  induction a as [|x xs IH]; intros i; simpl.
  - left. split; [reflexivity | intros v []].
  - destruct (IH (S i)) as [(Hnil & Hall) | (n & v & Hlast & Hn & Hv & Hafter)].
    + rewrite Hnil. destruct (p x) eqn:Hx.
      * right. exists 0%nat, x. simpl. rewrite Nat.add_0_r.
        repeat split; auto.
        intros j u Hj Hu. destruct j as [|j]; [lia |]. simpl in Hu.
        apply Hall. eapply nth_error_In. exact Hu.
      * left. split; [reflexivity |]. intros v [<- | Hv]; auto.
    + right. exists (S n), v.
      replace (i + S n)%nat with (S i + n)%nat by lia.
      split; [| split; [exact Hn | split; [exact Hv |]]].
      * destruct (p x); [apply last_item_cons |]; exact Hlast.
      * intros j u Hj Hu. destruct j as [|j]; [lia |]. simpl in Hu.
        apply (Hafter j); [lia | exact Hu].
Qed.

(** Between the first and the last periastron time the two lookups of
    [compute_mean_ano] are within bounds, whatever the order of the
    periastron times. *)
Lemma last_peak_lookup (t_peaks : list R) (tp_first tp_last time : R) :
  first_item t_peaks = Ok tp_first ->
  last_item t_peaks = Ok tp_last ->
  tp_first <= time < tp_last ->
  exists idx t_at_last_peak t_at_next_peak,
    last_item (np_where (fun p => Rleb p time) t_peaks) = Ok idx
    /\ (idx + 1 < length t_peaks)%nat
    /\ nth_error t_peaks idx = Some t_at_last_peak
    /\ nth_error t_peaks (idx + 1) = Some t_at_next_peak
    /\ t_at_last_peak <= time < t_at_next_peak
    /\ forall j u, (idx < j)%nat -> nth_error t_peaks j = Some u -> time < u.
Proof.
  intros Hfirst Hlast Hrange. unfold np_where.
  destruct (np_where_from_last (fun p => Rleb p time) t_peaks 0%nat)
    as [(_ & Hall) | (n & v & Hl & Hn & Hv & Hafter)].
  - exfalso. apply first_item_In in Hfirst. apply Hall in Hfirst.
    apply Rleb_false_iff in Hfirst. lra.
  - simpl in Hl. apply Rleb_true_iff in Hv.
    assert (Hafter' : forall j u, (n < j)%nat -> nth_error t_peaks j = Some u -> time < u).
    { intros j u Hj Hu. apply Rleb_false_iff. eapply Hafter; eauto. }
    apply last_item_nth_error in Hlast.
    assert (Hlen : (n < length t_peaks)%nat).
    { apply nth_error_Some. congruence. }
    assert (Hn1 : (n + 1 < length t_peaks)%nat).
    { destruct (Nat.eq_dec n (length t_peaks - 1)) as [-> | Hne]; [| lia].
      rewrite Hlast in Hn. injection Hn as <-. lra. }
    destruct (nth_error t_peaks (n + 1)) as [tn|] eqn:Hnext.
    2:{ apply nth_error_None in Hnext. lia. }
    exists n, v, tn. repeat split; auto.
    apply (Hafter' (n + 1)%nat); [lia | exact Hnext].
Qed.

Lemma compute_mean_ano_lookup (t_peaks : list R) (time : R)
    (idx : nat) (t_at_last_peak t_at_next_peak : R) :
  last_item (np_where (fun p => Rleb p time) t_peaks) = Ok idx ->
  nth_error t_peaks idx = Some t_at_last_peak ->
  nth_error t_peaks (idx + 1) = Some t_at_next_peak ->
  compute_mean_ano t_peaks time
  = Ok (2 * PI * (time - t_at_last_peak) / (t_at_next_peak - t_at_last_peak)).
Proof.
  intros Hl H0 H1. unfold compute_mean_ano. rewrite Hl. cbn [bind].
  apply getitem_Ok in H0, H1. rewrite H0. cbn [bind]. rewrite H1. reflexivity.
Qed.

(** Every retained reference time lies between the first and the last
    periastron time. *)
Lemma in_window_between_peaks (tp_first tt_first tp_last tt_last x : R) :
  in_window (Rmax tp_first tt_first) (Rmin tp_last tt_last) x = true ->
  tp_first <= x < tp_last.
Proof.
  rewrite in_window_iff.
  pose proof (Rmax_l tp_first tt_first). pose proof (Rmin_l tp_last tt_last). lra.
Qed.

(** ** Which exceptions a method can raise *)



Lemma raises_only_Ok {A : Type} (P : exn -> Prop) (a : A) : raises_only P (Ok a).
Proof. intros e H. discriminate. Qed.

Lemma raises_only_Raise {A : Type} (P : exn -> Prop) (e : exn) :
  P e -> raises_only P (@Raise A e).
Proof. intros H e' [= <-]. exact H. Qed.

Lemma raises_only_bind {A B : Type} (P : exn -> Prop) (m : result A)
    (f : A -> result B) :
  raises_only P m -> (forall a, m = Ok a -> raises_only P (f a)) ->
  raises_only P (bind m f).
Proof.
  intros Hm Hf e. destruct m as [a | e0]; simpl; intros H.
  - apply (Hf a eq_refl). exact H.
  - apply Hm. congruence.
Qed.

Lemma bind_Raise {A B : Type} (m : result A) (f : A -> result B) (e : exn) :
  bind m f = Raise e -> m = Raise e \/ exists a, m = Ok a /\ f a = Raise e.
Proof.
  destruct m as [a | e0]; simpl; intros H.
  - right. eauto.
  - left. congruence.
Qed.

Lemma getitem_raises {A : Type} (a : list A) (i : nat) :
  raises_only from_callee (getitem a i).
Proof. intros e H. apply getitem_Raise in H. subst. exact I. Qed.

Lemma first_item_raises {A : Type} (a : list A) :
  raises_only from_callee (first_item a).
Proof. apply getitem_raises. Qed.

Lemma last_item_raises {A : Type} (a : list A) :
  raises_only from_callee (last_item a).
Proof. destruct a; intros e H; simpl in H; [| discriminate]. injection H as <-. exact I. Qed.

Lemma take_raises {A : Type} (a : list A) (idx : list nat) :
  raises_only from_callee (take a idx).
Proof. intros e H. apply take_Raise in H. subst. exact I. Qed.

Lemma np_argmin_raises (a : list R) : raises_only from_callee (np_argmin a).
Proof. destruct a; intros e H; simpl in H; [| discriminate]. injection H as <-. exact I. Qed.

Lemma mapM_raises {A B : Type} (P : exn -> Prop) (f : A -> result B) (l : list A) :
  (forall x, raises_only P (f x)) -> raises_only P (mapM f l).
Proof.
  intros Hf. induction l as [|x l IH]; simpl.
  - apply raises_only_Ok.
  - apply raises_only_bind; [apply Hf | intros y _].
    apply raises_only_bind; [exact IH | intros ys _]. apply raises_only_Ok.
Qed.

Lemma vectorize_raises {A : Type} (f : A -> result R) (l : list A) :
  (forall x, raises_only from_callee (f x)) -> raises_only from_callee (vectorize f l).
Proof.
  intros Hf. destruct l as [|x l].
  - apply raises_only_Raise. exact I.
  - apply (mapM_raises from_callee f (x :: l) Hf).
Qed.

Lemma construct_spline_raises (x y : list R) (kw : spline_kwargs_t) :
  raises_only from_callee (construct_spline x y kw).
Proof.
  unfold construct_spline. intros e H.
  destruct (InterpolatedUnivariateSpline_raises x y kw); [| discriminate].
  injection H as <-. exact I.
Qed.

Create HintDb raises.
#[local] Hint Resolve raises_only_Ok getitem_raises first_item_raises
  last_item_raises take_raises np_argmin_raises construct_spline_raises : raises.

(** One step of a proof that a sequence of statements raises only
    exceptions of its callees. *)
Ltac raises_step :=
  match goal with
  | |- raises_only _ (bind _ _) => apply raises_only_bind; [| intros ? ?]
  | |- raises_only _ (Raise _) => apply raises_only_Raise; exact I
  | |- raises_only _ (if ?c then _ else _) => destruct c
  | |- raises_only _ (match ?x with _ => _ end) => destruct x
  | |- raises_only _ _ => solve [auto with raises]
  end.

Lemma trimmed_extrema_raises (self : eccDefinition) (ty : string) :
  raises_only from_callee (trimmed_extrema self ty).
Proof.
  unfold trimmed_extrema, idx_num_orbit_earlier_than_merger. repeat raises_step.
Qed.

Lemma interp_extrema_raises (self : eccDefinition) (ty : string) :
  raises_only from_callee (interp_extrema self ty).
Proof.
  unfold interp_extrema.
  apply raises_only_bind; [apply trimmed_extrema_raises | intros idx _].
  repeat raises_step.
Qed.

Lemma check_extrema_separation_raises (self : eccDefinition) (loc : list nat) :
  raises_only from_callee (check_extrema_separation self loc).
Proof. unfold check_extrema_separation. repeat raises_step. Qed.

Lemma compute_mean_ano_raises (t_peaks : list R) (time : R) :
  raises_only from_callee (compute_mean_ano t_peaks time).
Proof. unfold compute_mean_ano. repeat raises_step. Qed.

Lemma orbital_averaged_omega22_at_extrema_raises (self : eccDefinition)
    (loc : list nat) (n : nat) :
  raises_only from_callee (orbital_averaged_omega22_at_extrema self loc n).
Proof. unfold orbital_averaged_omega22_at_extrema. repeat raises_step. Qed.

Lemma get_fref_out_raises (omega22_average fref_in : list R) :
  raises_only from_callee (get_fref_out omega22_average fref_in).
Proof. unfold get_fref_out. repeat raises_step. Qed.

Lemma compute_orbital_averaged_raises (self : eccDefinition) (pl tl : list nat) :
  raises_only from_callee (compute_orbital_averaged_omega22_at_extrema self pl tl).
Proof.
  unfold compute_orbital_averaged_omega22_at_extrema.
  repeat first
    [ apply vectorize_raises; intros; apply orbital_averaged_omega22_at_extrema_raises
    | raises_step ].
Qed.

Lemma compute_tref_in_and_fref_out_raises (self : eccDefinition) (pl tl : list nat)
    (pki tri : R -> R) (tmin tmax : R) (fref_in : list R) :
  raises_only from_callee
    (compute_tref_in_and_fref_out_from_fref_in self pl tl pki tri tmin tmax fref_in).
Proof.
  unfold compute_tref_in_and_fref_out_from_fref_in.
  apply raises_only_bind.
  - destruct (String.eqb _ _).
    + unfold compute_omega22_average_between_extrema. repeat raises_step.
    + destruct (String.eqb _ _); [apply compute_orbital_averaged_raises |].
      destruct (String.eqb _ _).
      * unfold compute_omega22_zeroecc. repeat raises_step.
      * apply raises_only_Raise. exact I.
  - intros (tavg, omavg) _.
    apply raises_only_bind; [apply get_fref_out_raises | intros fo _].
    repeat raises_step.
Qed.

(** ** measure_ecc: the test on the two inputs and the bracketing test *)


Lemma reference_input_Raise (self : eccDefinition) (pl tl : list nat)
    (pki tri : R -> R) (tmin tmax : R) (tref_in fref_in : option float_or_array)
    (e : exn) :
  reference_input self pl tl pki tri tmin tmax tref_in fref_in = Raise e ->
  (e = KeyError_exactly_one /\ ~ exactly_one_given tref_in fref_in)
  \/ (from_callee e /\ exactly_one_given tref_in fref_in).
Proof.
  unfold reference_input, exactly_one_given.
  destruct tref_in as [tr|], fref_in as [fr|]; simpl; intros H.
  - left. split; [congruence |]. intros [(_ & ?) | (? & _)]; discriminate.
  - discriminate.
  - right. split; [| right; split; congruence].
    apply bind_Raise in H. destruct H as [H | ((a1 & a2) & _ & H)]; [| discriminate].
    eapply compute_tref_in_and_fref_out_raises. exact H.
  - left. split; [congruence |]. intros [(? & _) | (_ & ?)]; congruence.
Qed.

Lemma first_item_filter_In (p : R -> bool) (l : list R) (x : R) :
  first_item (filter p l) = Ok x -> p x = true.
Proof. clear_unused_variables. intros H. apply first_item_In in H. apply filter_In in H. tauto. Qed.

Lemma last_item_filter_In (p : R -> bool) (l : list R) (x : R) :
  last_item (filter p l) = Ok x -> p x = true.
Proof. clear_unused_variables. intros H. apply last_item_In in H. apply filter_In in H. tauto. Qed.

(** Every way in which [measure_ecc] can raise. *)
Lemma measure_ecc_Raise_cases (self : eccDefinition)
    (tref_in fref_in : option float_or_array) (e : exn) :
  measure_ecc self tref_in fref_in = Raise e ->
  from_callee e
  \/ (e = KeyError_exactly_one /\ ~ exactly_one_given tref_in fref_in)
  \/ ((e = Exception_length_mismatch \/ e = Exception_tref_in_later_than_t_max
       \/ e = Exception_tref_in_earlier_than_t_min \/ e = Exception_tref_out_empty)
      /\ exactly_one_given tref_in fref_in).
Proof.
  clear_unused_variables.
  unfold measure_ecc. intros H.
  apply bind_Raise in H. destruct H as [H | ((pki & pl) & Epk & H)].
  { left. eapply interp_extrema_raises. exact H. }
  apply bind_Raise in H. destruct H as [H | ((tri & tl) & Etr & H)].
  { left. eapply interp_extrema_raises. exact H. }
  apply bind_Raise in H. destruct H as [H | (t_peaks & Etp & H)].
  { left. eapply take_raises. exact H. }
  apply bind_Raise in H. destruct H as [H | (t_troughs & Ett & H)].
  { left. eapply take_raises. exact H. }
  apply bind_Raise in H. destruct H as [H | (tp_last & Epl & H)].
  { left. eapply last_item_raises. exact H. }
  apply bind_Raise in H. destruct H as [H | (tt_last & Etl & H)].
  { left. eapply last_item_raises. exact H. }
  apply bind_Raise in H. destruct H as [H | (tp_first & Epf & H)].
  { left. eapply first_item_raises. exact H. }
  apply bind_Raise in H. destruct H as [H | (tt_first & Etf & H)].
  { left. eapply first_item_raises. exact H. }
  apply bind_Raise in H. destruct H as [H | ((tref_in1 & fo) & Eref & H)].
  { apply reference_input_Raise in H. tauto. }
  assert (Hone : exactly_one_given tref_in fref_in).
  { unfold reference_input, exactly_one_given in *.
    destruct tref_in, fref_in; simpl in Eref; try discriminate;
      [left | right]; split; congruence. }
  apply bind_Raise in H. destruct H as [H | ([] & _ & H)].
  { right. right. split; [| exact Hone]. destruct fo as [fo|]; [| discriminate].
    destruct (negb _); [| discriminate]. left. congruence. }
  apply bind_Raise in H. destruct H as [H | ([] & Eempty & H)].
  { destruct (Nat.eqb _ 0); [| discriminate].
    apply bind_Raise in H. destruct H as [H | (x & _ & H)].
    { left. eapply last_item_raises. exact H. }
    destruct (Rltb _ _); [right; right; split; [| exact Hone]; right; left; congruence |].
    apply bind_Raise in H. destruct H as [H | (y & _ & H)].
    { left. eapply first_item_raises. exact H. }
    right. right. split; [| exact Hone].
    destruct (Rltb _ _); [right; right; left | right; right; right]; congruence. }
  apply bind_Raise in H. destruct H as [H | ((dp & rp) & _ & H)].
  { left. eapply check_extrema_separation_raises. exact H. }
  apply bind_Raise in H. destruct H as [H | ((dt & rt) & _ & H)].
  { left. eapply check_extrema_separation_raises. exact H. }
  apply bind_Raise in H. destruct H as [H | (x_first & Ef & H)].
  { left. eapply first_item_raises. exact H. }
  apply first_item_filter_In, in_window_between_peaks in Ef.
  destruct (Rltb x_first tp_first) eqn:Hlo.
  { apply Rltb_true_iff in Hlo. lra. }
  apply bind_Raise in H. destruct H as [H | (x_last & El & H)].
  { left. eapply last_item_raises. exact H. }
  apply last_item_filter_In, in_window_between_peaks in El.
  destruct (Rleb tp_last x_last) eqn:Hhi.
  { apply Rleb_true_iff in Hhi. lra. }
  apply bind_Raise in H. destruct H as [H | (ma & _ & H)].
  { left. eapply vectorize_raises; [| exact H].
    intros x. apply compute_mean_ano_raises. }
  apply bind_Raise in H. destruct H as [H | ([] & _ & H)]; [| discriminate].
  left. destruct (Nat.ltb 1 _); [| discriminate].
  unfold check_monotonicity_and_convexity in H.
  apply bind_Raise in H. destruct H as [H | (f & _ & H)]; [| discriminate].
  eapply construct_spline_raises. exact H.
Qed.

(** C10: a call of [measure_ecc] never raises "Reference time must be
    within two peaks."; and for every reference time in the window
    [t_min <= time < t_max] the lookups of the mean-anomaly computation are
    within the bounds of the periastron time array: there is a last
    periastron position [idx] with time at or before [time], and [idx + 1]
    is a position of the array as well. *)
Theorem bracketing_failure_unreachable (self : eccDefinition)
    (tref_in fref_in : option float_or_array) :
  measure_ecc self tref_in fref_in <> Raise Exception_not_within_two_peaks
  /\ forall t_peaks tp_first tp_last tt_first tt_last tref_in1 time,
       first_item t_peaks = Ok tp_first ->
       last_item t_peaks = Ok tp_last ->
       In time (boolean_index (in_window (Rmax tp_first tt_first) (Rmin tp_last tt_last))
                  tref_in1) ->
       tp_first <= time < tp_last
       /\ exists idx t_at_last_peak t_at_next_peak,
            last_item (np_where (fun p => Rleb p time) t_peaks) = Ok idx
            /\ (idx + 1 < length t_peaks)%nat
            /\ getitem t_peaks idx = Ok t_at_last_peak
            /\ getitem t_peaks (idx + 1) = Ok t_at_next_peak
            /\ compute_mean_ano t_peaks time
               = Ok (2 * PI * (time - t_at_last_peak)
                     / (t_at_next_peak - t_at_last_peak)).
Proof.
  split.
  - intros H. apply measure_ecc_Raise_cases in H.
    destruct H as [H | [(H & _) | ([H | [H | [H | H]]] & _)]];
      solve [exact H | discriminate H].
  - intros t_peaks tp_first tp_last tt_first tt_last tref_in1 time Hf Hl Hin.
    apply filter_In in Hin. destruct Hin as (_ & Hin).
    apply in_window_between_peaks in Hin. split; [exact Hin |].
    destruct (last_peak_lookup t_peaks tp_first tp_last time Hf Hl Hin)
      as (idx & tl & tn & Hidx & Hlen & H0 & H1 & _).
    exists idx, tl, tn. rewrite !getitem_Ok.
    repeat split; auto. apply (compute_mean_ano_lookup _ _ idx); assumption.
Qed.

Lemma take_nonempty {A : Type} (a : list A) (idx : list nat) (l : list A) :
  take a idx = Ok l -> (2 <= length idx)%nat ->
  exists x y, first_item l = Ok x /\ last_item l = Ok y.
Proof.
  intros H Hlen. apply take_Ok_length in H.
  destruct l as [|x l]; [simpl in H; lia |].
  exists x, (last l x). split; reflexivity.
Qed.

(** C5, as the code has it: [measure_ecc] builds the two extrema
    interpolants before it looks at its inputs, so when one of them cannot
    be built the call raises that failure whatever the inputs are, an
    ambiguous call like a valid one.  Once both interpolants exist, the
    call raises the KeyError "Exactly one of tref_in and fref_in should be
    specified." exactly when both inputs are given or neither is; with
    exactly one input it goes on with the given reference times, or with
    the reference times computed from the given frequencies.  A call with
    both or neither input always raises. *)
Theorem measure_ecc_input_check (self : eccDefinition)
    (tref_in fref_in : option float_or_array) :
  (forall e, interp_extrema self "maxima" = Raise e ->
             measure_ecc self tref_in fref_in = Raise e)
  /\ (forall peaks e,
        interp_extrema self "maxima" = Ok peaks ->
        interp_extrema self "minima" = Raise e ->
        measure_ecc self tref_in fref_in = Raise e)
  /\ (forall peaks troughs,
        interp_extrema self "maxima" = Ok peaks ->
        interp_extrema self "minima" = Ok troughs ->
        (measure_ecc self tref_in fref_in = Raise KeyError_exactly_one
         <-> ~ exactly_one_given tref_in fref_in))
  /\ (~ exactly_one_given tref_in fref_in ->
      exists e, measure_ecc self tref_in fref_in = Raise e)
  /\ (exactly_one_given tref_in fref_in ->
      measure_ecc self tref_in fref_in <> Raise KeyError_exactly_one
      /\ forall pl tl pki tri tmin tmax,
           (forall v, tref_in = Some v ->
              reference_input self pl tl pki tri tmin tmax tref_in fref_in
              = Ok (np_atleast_1d v, None))
           /\ (forall v, fref_in = Some v ->
                 reference_input self pl tl pki tri tmin tmax tref_in fref_in
                 = ('(tref_in1, fref_out1) <-
                      compute_tref_in_and_fref_out_from_fref_in self pl tl pki tri
                        tmin tmax (np_atleast_1d v) ;;
                    Ok (tref_in1, Some fref_out1))))
  /\ measure_ecc self tref_in fref_in <> Raise KeyError_atleast_one.
Proof.
  assert (Hmax : forall e, interp_extrema self "maxima" = Raise e ->
                           measure_ecc self tref_in fref_in = Raise e).
  { intros e Hpk. unfold measure_ecc. rewrite Hpk. reflexivity. }
  assert (Hmin : forall peaks e,
            interp_extrema self "maxima" = Ok peaks ->
            interp_extrema self "minima" = Raise e ->
            measure_ecc self tref_in fref_in = Raise e).
  { intros (pki, pl) e Hpk Htr. unfold measure_ecc. rewrite Hpk. cbn [bind].
    rewrite Htr. reflexivity. }
  assert (Hnever : exactly_one_given tref_in fref_in ->
            measure_ecc self tref_in fref_in <> Raise KeyError_exactly_one).
  { intros Hone H. apply measure_ecc_Raise_cases in H.
    destruct H as [H | [(_ & H) | ([H | [H | [H | H]]] & _)]];
      solve [exact H | discriminate H | exact (H Hone)]. }
  assert (Hboth : ~ exactly_one_given tref_in fref_in ->
            forall peaks troughs,
              interp_extrema self "maxima" = Ok peaks ->
              interp_extrema self "minima" = Ok troughs ->
              measure_ecc self tref_in fref_in = Raise KeyError_exactly_one).
  { intros Hnot (pki, pl) (tri, tl) Hpk Htr.
    destruct (interp_extrema_Ok_inv _ _ _ _ Hpk) as (tp & op & _ & Hlp & Htp & _).
    destruct (interp_extrema_Ok_inv _ _ _ _ Htr) as (tt & ot & _ & Hlt & Htt & _).
    destruct (take_nonempty _ _ _ Htp Hlp) as (tpf & tpl & Hpf & Hpl).
    destruct (take_nonempty _ _ _ Htt Hlt) as (ttf & ttl & Htf & Htl).
    unfold measure_ecc. rewrite Hpk, Htr. cbn [bind].
    rewrite Htp, Htt. cbn [bind]. rewrite Hpl, Htl. cbn [bind].
    rewrite Hpf, Htf. cbn [bind].
    unfold reference_input, exactly_one_given in *.
    destruct tref_in, fref_in; simpl; try reflexivity; exfalso; apply Hnot;
      [left | right]; split; congruence. }
  split; [exact Hmax |]. split; [exact Hmin |]. split; [| split; [| split]].
  - intros peaks troughs Hpk Htr. split.
    + intros H Hone. exact (Hnever Hone H).
    + intros Hnot. exact (Hboth Hnot peaks troughs Hpk Htr).
  - intros Hnot.
    destruct (interp_extrema self "maxima") as [peaks | e1] eqn:Hpk.
    2:{ exists e1. exact (Hmax e1 eq_refl). }
    destruct (interp_extrema self "minima") as [troughs | e2] eqn:Htr.
    2:{ exists e2. exact (Hmin peaks e2 eq_refl eq_refl). }
    exists KeyError_exactly_one. exact (Hboth Hnot peaks troughs eq_refl eq_refl).
  - intros Hone. split; [exact (Hnever Hone) |].
    intros pl tl pki tri tmin tmax. unfold reference_input, exactly_one_given in *.
    split; intros v ->.
    * destruct fref_in; [| reflexivity].
      exfalso. destruct Hone as [(_ & ?) | (? & _)]; discriminate.
    * destruct tref_in; [| reflexivity].
      exfalso. destruct Hone as [(_ & ?) | (? & _)]; discriminate.
  - intros H. apply measure_ecc_Raise_cases in H.
    destruct H as [H | [(H & _) | ([H | [H | [H | H]]] & _)]];
      solve [exact H | discriminate H].
Qed.

(** ** Mean anomaly between consecutive periastrons *)

Lemma StronglySorted_nth_error {A : Type} (lt_ : A -> A -> Prop) (l : list A) :
  StronglySorted lt_ l ->
  forall i j x y, (i < j)%nat -> nth_error l i = Some x -> nth_error l j = Some y ->
                  lt_ x y.
Proof.
  induction 1 as [|a l Hs IH Hall]; intros i j x y Hij Hi Hj.
  - destruct i; discriminate.
  - destruct j as [|j]; [lia |]. simpl in Hj. destruct i as [|i]; simpl in Hi.
    + injection Hi as <-. rewrite Forall_forall in Hall. apply Hall.
      eapply nth_error_In. exact Hj.
    + apply (IH i j); [lia | assumption | assumption].
Qed.

Lemma StronglySorted_filter {A : Type} (lt_ : A -> A -> Prop) (p : A -> bool)
    (l : list A) :
  StronglySorted lt_ l -> StronglySorted lt_ (filter p l).
Proof.
  induction 1 as [|a l Hs IH Hall]; simpl; [constructor |].
  destruct (p a); [| exact IH]. constructor; [exact IH |].
  rewrite Forall_forall in *. intros x Hx. apply filter_In in Hx. apply Hall. tauto.
Qed.

Lemma take_In {A : Type} (a : list A) (idx : list nat) (l : list A) (y : A) :
  take a idx = Ok l -> In y l -> exists j, In j idx /\ nth_error a j = Some y.
Proof.
  unfold take. revert l. induction idx as [|i idx IH]; simpl; intros l H Hy.
  - injection H as <-. destruct Hy.
  - bind_inv H. bind_inv H. injection H as <-. destruct Hy as [<- | Hy].
    + exists i. split; [now left | now apply getitem_Ok].
    + destruct (IH _ E0 Hy) as (j & Hj & Hnth). exists j. split; [now right | exact Hnth].
Qed.

(** Increasing positions of an increasing array select increasing values. *)
Lemma take_increasing (a : list R) (idx : list nat) (l : list R) :
  StronglySorted Rlt a -> StronglySorted lt idx -> take a idx = Ok l ->
  StronglySorted Rlt l.
Proof.
  intros Ha Hidx. revert l. induction Hidx as [|i idx Hs IH Hall]; intros l H.
  - injection H as <-. constructor.
  - unfold take in H. simpl in H. bind_inv H. bind_inv H. injection H as <-.
    constructor; [apply IH; exact E0 |].
    rewrite Forall_forall in *. intros y Hy.
    destruct (take_In a idx _ y E0 Hy) as (j & Hj & Hnth).
    apply getitem_Ok in E.
    apply (StronglySorted_nth_error Rlt a Ha i j); auto.
Qed.

Lemma trimmed_extrema_increasing (self : eccDefinition) (ty : string) (idx : list nat) :
  StronglySorted lt (find_extrema self ty) ->
  trimmed_extrema self ty = Ok idx -> StronglySorted lt idx.
Proof.
  unfold trimmed_extrema. intros Hs H.
  destruct (num_orbits_to_exclude_before_merger (extra_kwargs self)).
  - bind_inv H. injection H as <-. apply StronglySorted_filter. exact Hs.
  - injection H as <-. exact Hs.
Qed.

(** The mean anomaly at a time between the first and the last of a strictly
    increasing sequence of periastron times. *)
Lemma compute_mean_ano_spec (t_peaks : list R) (tp_first tp_last time mean_ano : R) :
  StronglySorted Rlt t_peaks ->
  first_item t_peaks = Ok tp_first ->
  last_item t_peaks = Ok tp_last ->
  tp_first <= time < tp_last ->
  compute_mean_ano t_peaks time = Ok mean_ano ->
  mean_anomaly_between_periastrons t_peaks time mean_ano
  /\ 0 <= mean_ano < 2 * PI
  /\ (mean_ano = 0 <-> In time t_peaks).
Proof.
  intros Hs Hf Hl Hrange Hc.
  destruct (last_peak_lookup t_peaks tp_first tp_last time Hf Hl Hrange)
    as (idx & t0 & t1 & Hidx & Hlen & H0 & H1 & (Hle & Hlt) & Hafter).
  rewrite (compute_mean_ano_lookup _ _ idx t0 t1 Hidx H0 H1) in Hc.
  injection Hc as <-.
  assert (Hmono := StronglySorted_nth_error Rlt t_peaks Hs).
  assert (H01 : t0 < t1) by (apply (Hmono idx (idx + 1)%nat); auto; lia).
  assert (Hpos : 0 < t1 - t0) by lra.
  assert (Hpi := PI_RGT_0).
  assert (Hbefore : forall p, In p t_peaks -> p <= time -> p <= t0).
  { intros p Hp Hpt. apply In_nth_error in Hp. destruct Hp as (j & Hj).
    destruct (Nat.lt_trichotomy j idx) as [Hji | [-> | Hji]].
    - left. apply (Hmono j idx); auto.
    - rewrite H0 in Hj. injection Hj as <-. lra.
    - specialize (Hafter j p Hji Hj). lra. }
  assert (Hnext : forall p, In p t_peaks -> t0 < p -> t1 <= p).
  { intros p Hp Hpt. apply In_nth_error in Hp. destruct Hp as (j & Hj).
    destruct (Nat.lt_trichotomy j (idx + 1)) as [Hji | [-> | Hji]].
    - exfalso. destruct (Nat.eq_dec j idx) as [-> | Hne].
      + rewrite H0 in Hj. injection Hj as <-. lra.
      + assert (p < t0) by (apply (Hmono j idx); auto; lia). lra.
    - rewrite H1 in Hj. injection Hj as <-. lra.
    - left. apply (Hmono (idx + 1)%nat j); auto. }
  split.
  { exists t0, t1.
    split; [eapply nth_error_In; exact H0 |]. split; [exact Hle |].
    split; [exact Hbefore |]. split; [eapply nth_error_In; exact H1 |].
    split; [exact H01 |]. split; [exact Hnext |]. reflexivity. }
  assert (Hfrac : 0 <= (time - t0) / (t1 - t0) < 1).
  { split.
    - apply Rmult_le_pos; [lra | left; apply Rinv_0_lt_compat; exact Hpos].
    - apply (Rmult_lt_reg_r (t1 - t0)); [exact Hpos |].
      unfold Rdiv. rewrite Rmult_assoc, Rinv_l by lra. lra. }
  replace (2 * PI * (time - t0) / (t1 - t0))
    with (2 * PI * ((time - t0) / (t1 - t0))) by (unfold Rdiv; ring).
  split; [split; nra |]. split.
  - intros Hz. assert (Hq : (time - t0) / (t1 - t0) = 0) by nra.
    assert (Ht : time - t0 = 0).
    { replace (time - t0) with ((time - t0) / (t1 - t0) * (t1 - t0))
        by (field; lra). rewrite Hq. ring. }
    replace time with t0 by lra. eapply nth_error_In. exact H0.
  - intros Hin. specialize (Hbefore time Hin (Rle_refl time)).
    replace time with t0 by lra. unfold Rdiv. ring.
Qed.

Lemma Forall2_impl_In_l {A B : Type} (P Q : A -> B -> Prop) (l : list A) (r : list B) :
  (forall x y, In x l -> P x y -> Q x y) -> Forall2 P l r -> Forall2 Q l r.
Proof.
  intros H HF. induction HF as [|x y l r Hxy HF IH]; constructor.
  - apply H; [now left | exact Hxy].
  - apply IH. intros x' y' Hx'. apply H. now right.
Qed.

(** C4: with a strictly increasing time array and strictly increasing
    periastron positions, the mean anomaly returned for every retained
    reference time [tref] is 2*pi*(tref - t_p0)/(t_p1 - t_p0), where [t_p0]
    is the latest periastron time at or before [tref] and [t_p1] the first
    periastron time after [t_p0]; it lies in [0, 2*pi) and is 0 exactly
    when [tref] is a periastron time. *)
Theorem measure_ecc_mean_anomaly (self : eccDefinition)
    (tref_in fref_in : option float_or_array) (m : measurement) :
  StronglySorted Rlt (t self) ->
  StronglySorted lt (find_extrema self "maxima") ->
  measure_ecc self tref_in fref_in = Ok m ->
  exists t_peaks,
    take (t self) (peaks_location m) = Ok t_peaks
    /\ snd (returned m) = mean_ano_ref m
    /\ Forall2
         (fun tref mean_ano =>
            mean_anomaly_between_periastrons t_peaks tref mean_ano
            /\ 0 <= mean_ano < 2 * PI
            /\ (mean_ano = 0 <-> In tref t_peaks))
         (values (tref_out m)) (values (mean_ano_ref m)).
Proof.
  intros Ht Hidx H. apply measure_ecc_Ok_inv in H.
  destruct H as (t_peaks & t_troughs & tpl & ttl & tpf & ttf & tref_in1 & fo & ma
                 & Hpk & _ & Htp & _ & Hpl & _ & Hpf & _ & Hmax & Hmin
                 & _ & Hout & _ & _ & _ & _ & Hmean & Hma & _ & Hret & _).
  exists t_peaks. split; [exact Htp |]. split; [exact Hret |].
  destruct (interp_extrema_Ok_inv _ _ _ _ Hpk) as (? & ? & Htrim & _).
  assert (Hsorted : StronglySorted Rlt t_peaks).
  { apply (take_increasing (t self) (peaks_location m)); auto.
    apply (trimmed_extrema_increasing self "maxima"); assumption. }
  rewrite Hma. apply mapM_Ok_Forall2 in Hmean.
  apply (Forall2_impl_In_l (fun x y => compute_mean_ano t_peaks x = Ok y)); [| exact Hmean].
  intros tref mean_ano Hin Hc.
  rewrite Hout, Hmin, Hmax in Hin. apply filter_In in Hin. destruct Hin as (_ & Hin).
  apply in_window_between_peaks in Hin.
  apply (compute_mean_ano_spec t_peaks tpf tpl); assumption.
Qed.

(** ** The orbital_average_at_extrema method *)



Lemma midpoints_pair_midpoints (x : list R) : midpoints x = pair_midpoints x.
Proof.
  unfold midpoints. induction x as [|a x IH]; [reflexivity |].
  destruct x as [|b x]; [reflexivity |].
  change (tl (a :: b :: x)) with (b :: x).
  change (removelast (a :: b :: x)) with (a :: removelast (b :: x)).
  change (pair_midpoints (a :: b :: x))
    with ((a + b) / 2 :: pair_midpoints (b :: x)).
  cbn [zip_with]. f_equal.
  - unfold Rdiv. ring.
  - exact IH.
Qed.

Lemma pair_midpoints_length (x : list R) :
  length (pair_midpoints x) = (length x - 1)%nat.
Proof.
  induction x as [|a x IH]; [reflexivity |].
  destruct x as [|b x]; [reflexivity |].
  change (pair_midpoints (a :: b :: x))
    with ((a + b) / 2 :: pair_midpoints (b :: x)).
  cbn [length] in *. rewrite IH. lia.
Qed.

Lemma orbit_averages_length (ts ps : list R) :
  length ts = length ps -> length (orbit_averages ts ps) = (length ts - 1)%nat.
Proof.
  revert ps. induction ts as [|a ts IH]; intros ps Hlen; [reflexivity |].
  destruct ps as [|p ps]; [discriminate |].
  destruct ts as [|b ts]; [reflexivity |].
  destruct ps as [|q ps]; [discriminate |].
  change (orbit_averages (a :: b :: ts) (p :: q :: ps))
    with ((q - p) / (b - a) :: orbit_averages (b :: ts) (q :: ps)).
  cbn [length] in *. rewrite (IH (q :: ps)) by (cbn [length]; lia). cbn [length]. lia.
Qed.

Lemma take_cons_inv {A : Type} (a : list A) (i : nat) (idx : list nat) (l : list A) :
  take a (i :: idx) = Ok l ->
  exists x l', l = x :: l' /\ nth_error a i = Some x /\ take a idx = Ok l'.
Proof.
  unfold take. simpl. intros H. bind_inv H. bind_inv H. injection H as <-.
  apply getitem_Ok in E. eauto.
Qed.

(** The vectorized call over [np.arange(len(locations) - 1)] computes the
    average of every pair of consecutive extrema. *)
Lemma mapM_orbital_averaged (self : eccDefinition) (rest : list nat) :
  forall (pre : list nat) (ts ps : list R),
    take (t self) rest = Ok ts ->
    take (phase22 self) rest = Ok ps ->
    mapM (orbital_averaged_omega22_at_extrema self (pre ++ rest))
         (seq (length pre) (length rest - 1))
    = Ok (orbit_averages ts ps).
Proof.
  induction rest as [|i rest IH]; intros pre ts ps Hts Hps.
  - injection Hts as <-. reflexivity.
  - apply take_cons_inv in Hts. destruct Hts as (x0 & ts' & -> & Hx0 & Hts).
    apply take_cons_inv in Hps. destruct Hps as (p0 & ps' & -> & Hp0 & Hps).
    destruct rest as [|j rest].
    + injection Hts as <-. reflexivity.
    + specialize (IH (pre ++ [i]) ts' ps' Hts Hps).
      rewrite <- app_assoc in IH. rewrite length_app in IH. simpl in IH.
      rewrite Nat.sub_0_r, Nat.add_1_r in IH.
      destruct (take_cons_inv _ _ _ _ Hts) as (x1 & ts'' & -> & Hx1 & _).
      destruct (take_cons_inv _ _ _ _ Hps) as (p1 & ps'' & -> & Hp1 & _).
      change (length (i :: j :: rest) - 1)%nat with (S (length rest)).
      cbn [seq mapM]. rewrite IH.
      unfold orbital_averaged_omega22_at_extrema at 1.
      assert (Hi : getitem (pre ++ i :: j :: rest) (length pre) = Ok i).
      { apply getitem_Ok. rewrite nth_error_app2 by lia.
        rewrite Nat.sub_diag. reflexivity. }
      assert (Hj : getitem (pre ++ i :: j :: rest) (length pre + 1) = Ok j).
      { apply getitem_Ok. rewrite nth_error_app2 by lia.
        replace (length pre + 1 - length pre)%nat with 1%nat by lia. reflexivity. }
      rewrite Hi, Hj. cbn [bind].
      apply getitem_Ok in Hx0, Hx1, Hp0, Hp1.
      rewrite Hp1. cbn [bind]. rewrite Hp0. cbn [bind].
      rewrite Hx1. cbn [bind]. rewrite Hx0. cbn [bind]. reflexivity.
Qed.

Lemma vectorize_orbital_averaged (self : eccDefinition) (locations : list nat)
    (ts ps : list R) :
  (2 <= length locations)%nat ->
  take (t self) locations = Ok ts ->
  take (phase22 self) locations = Ok ps ->
  vectorize (orbital_averaged_omega22_at_extrema self locations)
            (seq 0 (length locations - 1))
  = Ok (orbit_averages ts ps).
Proof.
  intros Hlen Hts Hps. unfold vectorize.
  destruct (seq 0 (length locations - 1)) eqn:Hseq.
  - apply (f_equal (@length nat)) in Hseq. rewrite length_seq in Hseq. simpl in Hseq. lia.
  - rewrite <- Hseq. apply (mapM_orbital_averaged self locations []); assumption.
Qed.

(** [any(np.diff(x) <= 0)] is false exactly for a strictly increasing [x]. *)
Lemma any_nonpositive_diff_false (x : list R) :
  any_nonpositive (np_diff x) = false <-> StronglySorted Rlt x.
Proof.
  unfold any_nonpositive. split.
  - intros H. apply Sorted_StronglySorted; [intros a b c; apply Rlt_trans |].
    induction x as [|a x IH]; [constructor |].
    destruct x as [|b x]; [repeat constructor |].
    cbn [np_diff existsb] in H. apply orb_false_iff in H. destruct H as (Hab & H).
    apply Rleb_false_iff in Hab. constructor; [apply IH; exact H |].
    constructor. lra.
  - intros H. apply StronglySorted_Sorted in H.
    induction x as [|a x IH]; [reflexivity |].
    destruct x as [|b x]; [reflexivity |].
    cbn [np_diff existsb]. apply orb_false_iff.
    inversion H as [|? ? Hs Hhd]; subst. inversion Hhd; subst. split.
    + apply Rleb_false_iff. lra.
    + apply IH. exact Hs.
Qed.

(** *** np.argsort *)

Lemma insert_key_perm (x : R * nat) (l : list (R * nat)) :
  Permutation (insert_key x l) (x :: l).
Proof.
  induction l as [|y l IH]; simpl; [reflexivity |].
  destruct (Rleb (fst x) (fst y)); [reflexivity |].
  rewrite IH. apply perm_swap.
Qed.

Lemma sort_keys_perm (l : list (R * nat)) : Permutation (sort_keys l) l.
Proof.
  induction l as [|x l IH]; simpl; [reflexivity |].
  rewrite insert_key_perm. now constructor.
Qed.


Lemma insert_key_sorted (x : R * nat) (l : list (R * nat)) :
  StronglySorted key_le l -> StronglySorted key_le (insert_key x l).
Proof.
  induction 1 as [|y l Hs IH Hall]; simpl; [repeat constructor |].
  destruct (Rleb (fst x) (fst y)) eqn:Hxy.
  - apply Rleb_true_iff in Hxy. constructor; [constructor; assumption |].
    constructor; [exact Hxy |].
    rewrite Forall_forall in *. intros z Hz. specialize (Hall z Hz).
    unfold key_le in *. lra.
  - apply Rleb_false_iff in Hxy. constructor; [exact IH |].
    rewrite Forall_forall in *. intros z Hz.
    apply (Permutation_in _ (insert_key_perm x l)) in Hz.
    destruct Hz as [<- | Hz]; [unfold key_le; lra | auto].
Qed.

Lemma sort_keys_sorted (l : list (R * nat)) : StronglySorted key_le (sort_keys l).
Proof.
  induction l as [|x l IH]; simpl; [constructor | apply insert_key_sorted; exact IH].
Qed.

Lemma StronglySorted_map_fst (l : list (R * nat)) :
  StronglySorted key_le l -> StronglySorted Rle (map fst l).
Proof.
  induction 1 as [|y l Hs IH Hall]; simpl; constructor; [exact IH |].
  rewrite Forall_forall in *. intros z Hz. apply in_map_iff in Hz.
  destruct Hz as (w & <- & Hw). apply Hall. exact Hw.
Qed.

Lemma in_combine_seq (a : list R) :
  forall k v i, In (v, i) (combine a (seq k (length a))) ->
                (k <= i)%nat /\ nth_error a (i - k) = Some v.
Proof.
  induction a as [|x a IH]; intros k v i H; simpl in H; [destruct H |].
  destruct H as [H | H].
  - injection H as <- <-. rewrite Nat.sub_diag. split; [lia | reflexivity].
  - apply IH in H. destruct H as (Hk & Hn). split; [lia |].
    replace (i - k)%nat with (S (i - S k)) by lia. exact Hn.
Qed.

Lemma in_enumerate (a : list R) (v : R) (i : nat) :
  In (v, i) (enumerate a) -> nth_error a i = Some v.
Proof.
  clear_unused_variables.
  intros H. apply in_combine_seq in H. rewrite Nat.sub_0_r in H. tauto.
Qed.

(** Indexing the sorted array itself with the sorting positions. *)
Lemma take_map_snd (a : list R) (l : list (R * nat)) :
  (forall v i, In (v, i) l -> nth_error a i = Some v) ->
  take a (map snd l) = Ok (map fst l).
Proof.
  unfold take. induction l as [|(v, i) l IH]; intros H; simpl; [reflexivity |].
  assert (Hi : getitem a i = Ok v) by (apply getitem_Ok, H; now left).
  rewrite Hi. cbn [bind]. rewrite IH by (intros; apply H; now right). reflexivity.
Qed.

(** Indexing a second array of the same length with the sorting positions. *)
Lemma take_map_snd_other (b : list R) (l : list (R * nat)) :
  (forall v i, In (v, i) l -> (i < length b)%nat) ->
  take b (map snd l) = Ok (map (fun vi => nth (snd vi) b 0) l).
Proof.
  unfold take. induction l as [|(v, i) l IH]; intros H; simpl; [reflexivity |].
  assert (Hi : getitem b i = Ok (nth i b 0)).
  { apply getitem_Ok, nth_error_nth'. apply (H v). now left. }
  rewrite Hi. cbn [bind]. rewrite IH by (intros; eapply H; right; eassumption).
  reflexivity.
Qed.

Lemma map_combine_seq (a : list R) :
  forall (b pre : list R),
    length a = length b ->
    map (fun vi : R * nat => (fst vi, nth (snd vi) (pre ++ b) 0))
        (combine a (seq (length pre) (length a)))
    = combine a b.
Proof.
  induction a as [|x a IH]; intros b pre Hlen; [reflexivity |].
  destruct b as [|y b]; [discriminate |].
  cbn [length seq combine map fst snd]. f_equal.
  - rewrite app_nth2 by lia. rewrite Nat.sub_diag. reflexivity.
  - specialize (IH b (pre ++ [y])). rewrite <- app_assoc, length_app in IH.
    simpl in IH. rewrite Nat.add_1_r in IH. apply IH. simpl in Hlen. lia.
Qed.

Lemma combine_map_fst {A B C : Type} (f : A -> B) (g : A -> C) (l : list A) :
  combine (map f l) (map g l) = map (fun x => (f x, g x)) l.
Proof. induction l as [|x l IH]; simpl; [reflexivity | now rewrite IH]. Qed.

(** Sorting an array and permuting a second one by [np.argsort] of the
    first: the pairs are kept and the first array comes out ascending. *)
Lemma argsort_take (a b : list R) :
  length a = length b ->
  exists a_sorted b_sorted,
    take a (np_argsort a) = Ok a_sorted
    /\ take b (np_argsort a) = Ok b_sorted
    /\ length a_sorted = length b_sorted
    /\ StronglySorted Rle a_sorted
    /\ Permutation (combine a_sorted b_sorted) (combine a b).
Proof.
  intros Hlen. unfold np_argsort.
  assert (Hin : forall v i, In (v, i) (sort_keys (enumerate a)) ->
                            nth_error a i = Some v).
  { intros v i H. apply in_enumerate.
    apply (Permutation_in _ (sort_keys_perm (enumerate a))). exact H. }
  exists (map fst (sort_keys (enumerate a))),
         (map (fun vi => nth (snd vi) b 0) (sort_keys (enumerate a))).
  split; [apply take_map_snd; exact Hin |].
  split.
  { apply take_map_snd_other. intros v i H. rewrite <- Hlen.
    apply nth_error_Some. rewrite (Hin v i H). discriminate. }
  split; [now rewrite !length_map |].
  split; [apply StronglySorted_map_fst, sort_keys_sorted |].
  rewrite combine_map_fst.
  rewrite <- (map_combine_seq a b [] Hlen). simpl.
  apply Permutation_map. apply sort_keys_perm.
Qed.

(** C8: the orbital_average_at_extrema method computes, for every pair of
    consecutive periastrons and of consecutive apastrons, the phase22
    difference over the time difference, stamped at the midpoint of the
    pair.  It raises when the periastron averages, or else the apastron
    averages, are not strictly increasing; otherwise it returns the two
    series merged and sorted by time, each averaged frequency staying with
    its time stamp. *)
Theorem orbital_average_at_extrema_spec (self : eccDefinition)
    (peaks_loc troughs_loc : list nat)
    (t_peaks phase22_peaks t_troughs phase22_troughs : list R) :
  (2 <= length peaks_loc)%nat ->
  (2 <= length troughs_loc)%nat ->
  take (t self) peaks_loc = Ok t_peaks ->
  take (phase22 self) peaks_loc = Ok phase22_peaks ->
  take (t self) troughs_loc = Ok t_troughs ->
  take (phase22 self) troughs_loc = Ok phase22_troughs ->
  (~ StronglySorted Rlt (orbit_averages t_peaks phase22_peaks) ->
   compute_orbital_averaged_omega22_at_extrema self peaks_loc troughs_loc
   = Raise Exception_peaks_not_monotonic)
  /\ (StronglySorted Rlt (orbit_averages t_peaks phase22_peaks) ->
      ~ StronglySorted Rlt (orbit_averages t_troughs phase22_troughs) ->
      compute_orbital_averaged_omega22_at_extrema self peaks_loc troughs_loc
      = Raise Exception_troughs_not_monotonic)
  /\ (StronglySorted Rlt (orbit_averages t_peaks phase22_peaks) ->
      StronglySorted Rlt (orbit_averages t_troughs phase22_troughs) ->
      exists t_average omega22_average,
        compute_orbital_averaged_omega22_at_extrema self peaks_loc troughs_loc
        = Ok (t_average, omega22_average)
        /\ length t_average = length omega22_average
        /\ StronglySorted Rle t_average
        /\ Permutation
             (combine t_average omega22_average)
             (combine (pair_midpoints t_troughs ++ pair_midpoints t_peaks)
                      (orbit_averages t_troughs phase22_troughs
                       ++ orbit_averages t_peaks phase22_peaks))).
Proof.
  intros Hlp Hlt Htp Hpp Htt Hpt.
  assert (Hlen : length (pair_midpoints t_troughs ++ pair_midpoints t_peaks)
                 = length (orbit_averages t_troughs phase22_troughs
                           ++ orbit_averages t_peaks phase22_peaks)).
  { rewrite !length_app, !pair_midpoints_length.
    rewrite !orbit_averages_length; [reflexivity | |].
    - rewrite (take_Ok_length _ _ _ Htp), (take_Ok_length _ _ _ Hpp). reflexivity.
    - rewrite (take_Ok_length _ _ _ Htt), (take_Ok_length _ _ _ Hpt). reflexivity. }
  destruct (argsort_take _ _ Hlen)
    as (t_average & omega22_average & Hta & Hoa & Hl & Hsorted & Hperm).
  unfold compute_orbital_averaged_omega22_at_extrema.
  rewrite Htp. cbn [bind].
  rewrite (vectorize_orbital_averaged self peaks_loc _ _ Hlp Htp Hpp). cbn [bind].
  rewrite Htt. cbn [bind].
  rewrite (vectorize_orbital_averaged self troughs_loc _ _ Hlt Htt Hpt). cbn [bind].
  rewrite !midpoints_pair_midpoints. rewrite Hta. cbn [bind].
  destruct (any_nonpositive (np_diff (orbit_averages t_peaks phase22_peaks))) eqn:Hp.
  - assert (Hns : ~ StronglySorted Rlt (orbit_averages t_peaks phase22_peaks)).
    { intros Hs. apply any_nonpositive_diff_false in Hs. congruence. }
    split; [reflexivity |]. split; intros Hs; contradiction.
  - apply any_nonpositive_diff_false in Hp.
    split; [intros Hns; contradiction |].
    destruct (any_nonpositive (np_diff (orbit_averages t_troughs phase22_troughs)))
      eqn:Ht.
    + assert (Hns : ~ StronglySorted Rlt (orbit_averages t_troughs phase22_troughs)).
      { intros Hs. apply any_nonpositive_diff_false in Hs. congruence. }
      split; [reflexivity |]. intros _ Hs. contradiction.
    + apply any_nonpositive_diff_false in Ht.
      split; [intros _ Hns; contradiction |]. intros _ _.
      exists t_average, omega22_average. rewrite Hoa. cbn [bind]. auto.
Qed.

(** ** __init__: the time shift *)

(** C1, as the code has it: the time array of the constructed object is the
    input time array shifted by the quadratic-fit peak time of the
    amplitude of the (2,2) mode alone, [np.abs(hlm[(2, 2)])]; the other
    supplied modes do not enter the shift. *)
Theorem init_shifts_by_amp22_peak (dataDict : dataDict_t)
    (spline_kw : spline_kwargs_t) (extra_kw : extra_kwargs_t) (self : eccDefinition) :
  init dataDict spline_kw extra_kw = Ok self ->
  exists h22_ peak,
    mode_lookup (dd_hlm dataDict) 2 2 = Some h22_
    /\ amp22 self = map np_abs h22_
    /\ get_peak_via_quadratic_fit (dd_t dataDict) (amp22 self) = Ok peak
    /\ t self = map (fun x => x - fst peak) (dd_t dataDict).
Proof.
  unfold init. intros H.
  destruct (mode_lookup (dd_hlm dataDict) 2 2) as [h|] eqn:Hh; [| discriminate].
  cbn [bind] in H. bind_inv H. rename a into peak. bind_inv H.
  exists h, peak.
  destruct (num_orbits_to_exclude_before_merger extra_kw) as [n|].
  - destruct (Rltb n 0); [discriminate |]. injection H as <-. cbn. auto.
  - injection H as <-. cbn. auto.
Qed.

(** * Further properties *)

(** ** __init__: what a constructed object satisfies *)

Lemma init_Ok_inv (dataDict : dataDict_t)
    (spline_kw : spline_kwargs_t) (extra_kw : extra_kwargs_t) (self : eccDefinition) :
  init dataDict spline_kw extra_kw = Ok self ->
  exists h22_ peak,
    mode_lookup (dd_hlm dataDict) 2 2 = Some h22_
    /\ get_peak_via_quadratic_fit (dd_t dataDict) (map np_abs h22_) = Ok peak
    /\ t self = map (fun x => x - fst peak) (dd_t dataDict)
    /\ amp22 self = map np_abs h22_
    /\ omega22 self = np_gradient (phase22 self) (t self)
    /\ spline_kwargs self = spline_kw
    /\ extra_kwargs self = extra_kw
    /\ (forall n, num_orbits_to_exclude_before_merger extra_kw = Some n -> 0 <= n)
    /\ match dd_hlm_zeroecc dataDict with
       | Some hz =>
           exists z, zeroecc self = Some z
                     /\ compute_res_amp_and_omega22 dataDict (t self) (amp22 self)
                          (omega22 self) hz = Ok z
       | None => zeroecc self = None
       end.
Proof.
  unfold init. intros H.
  destruct (mode_lookup (dd_hlm dataDict) 2 2) as [h|] eqn:Hh; [| discriminate].
  cbn [bind] in H. bind_inv H. rename a into peak. bind_inv H. rename a into zo.
  exists h, peak.
  assert (Hz : match dd_hlm_zeroecc dataDict with
               | Some hz =>
                   exists z, zo = Some z
                     /\ compute_res_amp_and_omega22 dataDict
                          (map (fun x => x - fst peak) (dd_t dataDict))
                          (map np_abs h)
                          (np_gradient (map Ropp (np_unwrap (map np_angle h)))
                             (map (fun x => x - fst peak) (dd_t dataDict)))
                          hz = Ok z
               | None => zo = None
               end).
  { destruct (dd_hlm_zeroecc dataDict) as [hz|].
    - bind_inv E0. injection E0 as <-. eauto.
    - injection E0 as <-. reflexivity. }
  destruct (num_orbits_to_exclude_before_merger extra_kw) as [n|] eqn:Hn.
  - destruct (Rltb n 0) eqn:Hneg; [discriminate |].
    apply Rltb_false_iff in Hneg. injection H as <-. cbn.
    repeat (split; [first [assumption | reflexivity] |]).
    split; [intros n' [= <-]; exact Hneg | exact Hz].
  - injection H as <-. cbn.
    repeat (split; [first [assumption | reflexivity] |]).
    split; [intros n' [=] | exact Hz].
Qed.

(** X1: an object that [__init__] has built never carries a negative
    [num_orbits_to_exclude_before_merger]: the option is either None or a
    non-negative number, and the keyword dictionaries are stored as given. *)
Theorem init_num_orbits_nonnegative (dataDict : dataDict_t)
    (spline_kw : spline_kwargs_t) (extra_kw : extra_kwargs_t) (self : eccDefinition) :
  init dataDict spline_kw extra_kw = Ok self ->
  spline_kwargs self = spline_kw
  /\ extra_kwargs self = extra_kw
  /\ forall n, num_orbits_to_exclude_before_merger (extra_kwargs self) = Some n ->
               0 <= n.
Proof.
  intros H. apply init_Ok_inv in H.
  destruct H as (h & peak & _ & _ & _ & _ & _ & Hs & He & Hn & _).
  rewrite He. auto.
Qed.

Lemma np_diff_shift (c : R) (l : list R) :
  np_diff (map (fun x => x - c) l) = np_diff l.
Proof.
  clear_unused_variables.
  induction l as [|a l IH]; [reflexivity |].
  destruct l as [|b l]; [reflexivity |].
  change (np_diff (map (fun x => x - c) (a :: b :: l)))
    with ((b - c - (a - c)) :: np_diff (map (fun x => x - c) (b :: l))).
  change (np_diff (a :: b :: l)) with ((b - a) :: np_diff (b :: l)).
  rewrite IH. f_equal. ring.
Qed.

Lemma StronglySorted_shift (c : R) (l : list R) :
  StronglySorted Rlt l -> StronglySorted Rlt (map (fun x => x - c) l).
Proof.
  clear_unused_variables.
  induction 1 as [|a l Hs IH Hall]; simpl; constructor; [exact IH |].
  rewrite Forall_forall in *. intros y Hy. apply in_map_iff in Hy.
  destruct Hy as (x & <- & Hx). specialize (Hall x Hx). lra.
Qed.

(** X2: the time shift of [__init__] keeps the sampling: the new time array
    has the length and the successive differences of the input one, and a
    strictly increasing input stays strictly increasing. *)
Theorem init_keeps_time_steps (dataDict : dataDict_t)
    (spline_kw : spline_kwargs_t) (extra_kw : extra_kwargs_t) (self : eccDefinition) :
  init dataDict spline_kw extra_kw = Ok self ->
  length (t self) = length (dd_t dataDict)
  /\ np_diff (t self) = np_diff (dd_t dataDict)
  /\ (StronglySorted Rlt (dd_t dataDict) -> StronglySorted Rlt (t self)).
Proof.
  intros H. apply init_Ok_inv in H.
  destruct H as (h & peak & _ & _ & Ht & _).
  rewrite Ht. split; [apply length_map |]. split; [apply np_diff_shift |].
  apply StronglySorted_shift.
Qed.

(** X3: when zero-eccentricity data is supplied, a constructed object has a
    zero-eccentricity time array that starts at or before the eccentric
    one, each on its own merger-aligned axis (the constructor raises
    otherwise); without it the object has no zero-eccentricity attributes. *)
Theorem init_zeroecc_starts_first (dataDict : dataDict_t)
    (spline_kw : spline_kwargs_t) (extra_kw : extra_kwargs_t) (self : eccDefinition) :
  init dataDict spline_kw extra_kw = Ok self ->
  (dd_hlm_zeroecc dataDict = None <-> zeroecc self = None)
  /\ forall z, zeroecc self = Some z ->
       exists t_zeroecc_first t_first,
         first_item (t_zeroecc z) = Ok t_zeroecc_first
         /\ first_item (t self) = Ok t_first
         /\ t_zeroecc_first <= t_first.
Proof.
  clear_unused_variables.
  intros H. apply init_Ok_inv in H.
  destruct H as (h & peak & _ & _ & _ & _ & _ & _ & _ & _ & Hz).
  destruct (dd_hlm_zeroecc dataDict) as [hz|].
  - destruct Hz as (z & Hzs & Hc). split.
    + split; intros Hn; [discriminate | congruence].
    + intros z' Hz'. rewrite Hzs in Hz'. injection Hz' as <-.
      unfold compute_res_amp_and_omega22 in Hc.
      bind_inv Hc. bind_inv Hc. bind_inv Hc. bind_inv Hc. bind_inv Hc.
      destruct (Rltb a3 a2) eqn:Hlt; [discriminate |].
      apply Rltb_false_iff in Hlt. bind_inv Hc. bind_inv Hc.
      injection Hc as <-. cbn [t_zeroecc omega22_zeroecc].
      exists a2, a3. repeat split; auto.
  - split; [tauto |]. intros z Hz'. congruence.
Qed.

(** ** measure_ecc: the returned arrays *)

Lemma squeeze_values_squeeze (a : list R) :
  squeeze_if_single (values (squeeze_if_single a)) = squeeze_if_single a.
Proof. rewrite values_squeeze. reflexivity. Qed.

Lemma squeeze_Float_iff (a : list R) :
  (exists x, squeeze_if_single a = Float x) <-> length a = 1%nat.
Proof.
  destruct a as [|x [|y a]]; simpl; split; intros H;
    try discriminate; try reflexivity; try (destruct H; discriminate).
  exists x. reflexivity.
Qed.

Lemma zip_with_length_same {A B C : Type} (f : A -> B -> C) (a : list A) (b : list B) :
  length a = length b -> length (zip_with f a b) = length a.
Proof.
  revert b. induction a as [|x a IH]; intros [|y b] H; simpl in *;
    try reflexivity; try discriminate.
  f_equal. apply IH. lia.
Qed.

Lemma mapM_Ok_length {A B : Type} (f : A -> result B) (l : list A) (r : list B) :
  mapM f l = Ok r -> length r = length l.
Proof.
  intros H. apply mapM_Ok_Forall2 in H. symmetry.
  induction H; simpl; congruence.
Qed.

(** Each array attribute of a returning call is squeezed from a list. *)
Lemma measure_ecc_Ok_squeezed (self : eccDefinition)
    (tref_in fref_in : option float_or_array) (m : measurement) :
  measure_ecc self tref_in fref_in = Ok m ->
  tref_out m = squeeze_if_single (values (tref_out m))
  /\ ecc_ref m = squeeze_if_single (values (ecc_ref m))
  /\ mean_ano_ref m = squeeze_if_single (values (mean_ano_ref m))
  /\ fst (fst (returned m)) = squeeze_if_single (values (fst (fst (returned m))))
  /\ match fref_out m with
     | Some fo => fst (fst (returned m)) = fo /\ fref_in <> None
     | None => fst (fst (returned m)) = tref_out m /\ fref_in = None
     end.
Proof.
  clear_unused_variables.
  unfold measure_ecc. intros H.
  bind_inv H. destruct a as (peaks_interp, peaks_loc).
  bind_inv H. destruct a as (troughs_interp, troughs_loc).
  bind_inv H. bind_inv H. bind_inv H. bind_inv H. bind_inv H. bind_inv H.
  bind_inv H. destruct a5 as (tref_in1, fref_out1).
  bind_inv H. destruct a5.
  bind_inv H. destruct a5.
  bind_inv H. destruct a5 as (diff_peaks, ratio_peaks).
  bind_inv H. destruct a5 as (diff_troughs, ratio_troughs).
  bind_inv H.
  destruct (Rltb a5 a3); [discriminate |].
  bind_inv H.
  destruct (Rleb a1 a6); [discriminate |].
  bind_inv H. bind_inv H.
  injection H as <-. cbn [tref_out ecc_ref mean_ano_ref returned fref_out fst snd].
  rewrite !squeeze_values_squeeze.
  repeat (split; [reflexivity |]).
  assert (Hf : fref_out1 = None <-> fref_in = None).
  { unfold reference_input in E7. destruct tref_in, fref_in; simpl in E7;
      try discriminate.
    - injection E7 as _ <-. tauto.
    - bind_inv E7.
      match type of E7 with (let (_, _) := ?x in _) = _ => destruct x end.
      injection E7 as _ <-. split; discriminate. }
  destruct fref_out1 as [fo|].
  - rewrite squeeze_values_squeeze. split; [reflexivity |].
    split; [reflexivity |]. intros Hn. apply Hf in Hn. discriminate.
  - rewrite squeeze_values_squeeze. split; [reflexivity |].
    split; [reflexivity |]. apply Hf. reflexivity.
Qed.

(** X4: a returning call of [measure_ecc] gives three arrays of one common,
    non-zero length (reference instants, eccentricities, mean anomalies),
    and each of them is a bare float exactly when that length is 1. *)
Theorem measure_ecc_output_shape (self : eccDefinition)
    (tref_in fref_in : option float_or_array) (m : measurement) :
  measure_ecc self tref_in fref_in = Ok m ->
  (1 <= length (values (tref_out m)))%nat
  /\ length (values (fst (fst (returned m)))) = length (values (tref_out m))
  /\ length (values (snd (fst (returned m)))) = length (values (tref_out m))
  /\ length (values (snd (returned m))) = length (values (tref_out m))
  /\ ((exists x, fst (fst (returned m)) = Float x)
      <-> length (values (tref_out m)) = 1%nat)
  /\ ((exists x, snd (fst (returned m)) = Float x)
      <-> length (values (tref_out m)) = 1%nat)
  /\ ((exists x, snd (returned m) = Float x)
      <-> length (values (tref_out m)) = 1%nat).
Proof.
  intros H. pose proof (measure_ecc_Ok_squeezed _ _ _ _ H)
    as (Hsq_t & Hsq_e & Hsq_m & Hsq_r & Hfo).
  apply measure_ecc_Ok_inv in H.
  destruct H as (t_peaks & t_troughs & tpl & ttl & tpf & ttf & tref_in1 & fo & ma
                 & _ & _ & _ & _ & _ & _ & _ & _ & _ & _ & _ & _ & Hne
                 & Hp & Ha & Hecc & Hmean & Hma & Hre & Hrm & Hrt & Hrf).
  assert (Hle : length (values (ecc_ref m)) = length (values (tref_out m))).
  { rewrite Hecc, Hp, Ha, zip_with_length_same; rewrite !length_map; reflexivity. }
  assert (Hlm : length (values (mean_ano_ref m)) = length (values (tref_out m))).
  { rewrite Hma. apply (mapM_Ok_length _ _ _ Hmean). }
  assert (Hlr : length (values (fst (fst (returned m))))
                = length (values (tref_out m))).
  { destruct fo as [fo|].
    - destruct (Hrf fo eq_refl) as (-> & Hl). exact Hl.
    - rewrite (Hrt eq_refl). reflexivity. }
  rewrite Hre, Hrm.
  split; [destruct (values (tref_out m)); [congruence | simpl; lia] |].
  split; [exact Hlr |]. split; [exact Hle |]. split; [exact Hlm |].
  split; [rewrite Hsq_r, <- Hlr; apply squeeze_Float_iff |].
  split; [rewrite Hsq_e, <- Hle | rewrite Hsq_m, <- Hlm]; apply squeeze_Float_iff.
Qed.

(** X5: the eccentricity is never extrapolated: every retained reference
    time, where the two interpolants are evaluated, lies between the first
    and the last periastron time and between the first and the last
    apastron time, the extrema the interpolants were fitted on. *)
Theorem measure_ecc_no_extrapolation (self : eccDefinition)
    (tref_in fref_in : option float_or_array) (m : measurement) :
  measure_ecc self tref_in fref_in = Ok m ->
  exists t_peaks t_troughs t_peaks_first t_peaks_last t_troughs_first t_troughs_last
         omega22_peaks omega22_troughs,
    take (t self) (peaks_location m) = Ok t_peaks
    /\ take (omega22 self) (peaks_location m) = Ok omega22_peaks
    /\ omega22_peaks_interp m
       = InterpolatedUnivariateSpline t_peaks omega22_peaks (spline_kwargs self)
    /\ take (t self) (troughs_location m) = Ok t_troughs
    /\ take (omega22 self) (troughs_location m) = Ok omega22_troughs
    /\ omega22_troughs_interp m
       = InterpolatedUnivariateSpline t_troughs omega22_troughs (spline_kwargs self)
    /\ first_item t_peaks = Ok t_peaks_first /\ last_item t_peaks = Ok t_peaks_last
    /\ first_item t_troughs = Ok t_troughs_first
    /\ last_item t_troughs = Ok t_troughs_last
    /\ forall x, In x (values (tref_out m)) ->
         t_peaks_first <= x < t_peaks_last
         /\ t_troughs_first <= x < t_troughs_last.
Proof.
  intros H. apply measure_ecc_Ok_inv in H.
  destruct H as (t_peaks & t_troughs & tpl & ttl & tpf & ttf & tref_in1 & fo & ma
                 & Hpk & Htr & Htp & Htt & Hpl & Htl & Hpf & Htf & Hmax & Hmin
                 & _ & Hout & _).
  destruct (interp_extrema_Ok_inv _ _ _ _ Hpk)
    as (tp' & op & _ & _ & Htp' & Hop & Hsp & _).
  destruct (interp_extrema_Ok_inv _ _ _ _ Htr)
    as (tt' & ot & _ & _ & Htt' & Hot & Hst & _).
  assert (tp' = t_peaks) by congruence. assert (tt' = t_troughs) by congruence.
  subst tp' tt'.
  exists t_peaks, t_troughs, tpf, tpl, ttf, ttl, op, ot.
  repeat (split; [assumption |]).
  intros x Hx. rewrite Hout in Hx. apply filter_In in Hx. destruct Hx as (_ & Hx).
  apply in_window_iff in Hx. rewrite Hmin, Hmax in Hx.
  pose proof (Rmax_l tpf ttf). pose proof (Rmax_r tpf ttf).
  pose proof (Rmin_l tpl ttl). pose proof (Rmin_r tpl ttl). lra.
Qed.

(** ** measure_ecc from reference frequencies *)

Lemma filter_length_eq {A : Type} (p : A -> bool) (l : list A) :
  length (filter p l) = length l -> filter p l = l.
Proof.
  induction l as [|x l IH]; simpl; [reflexivity |].
  destruct (p x); simpl; intros H.
  - f_equal. apply IH. lia.
  - pose proof (filter_length_le p l). lia.
Qed.

Lemma compute_tref_in_and_fref_out_Ok_length (self : eccDefinition) (pl tl : list nat)
    (pki tri : R -> R) (tmin tmax : R) (fref_in tref_in1 fref_out1 : list R) :
  compute_tref_in_and_fref_out_from_fref_in self pl tl pki tri tmin tmax fref_in
  = Ok (tref_in1, fref_out1) ->
  length tref_in1 = length fref_out1
  /\ fref_out1 <> []
  /\ forall f, In f fref_out1 -> In f fref_in.
Proof.
  clear_unused_variables.
  unfold compute_tref_in_and_fref_out_from_fref_in. intros H.
  bind_inv H. destruct a as (tavg, omavg). bind_inv H. bind_inv H.
  injection H as <- <-.
  split; [apply length_map |].
  unfold get_fref_out in E0. bind_inv E0. bind_inv E0.
  destruct (Nat.eqb _ 0) eqn:Hlen.
  - bind_inv E0. destruct (Rltb _ _); [discriminate |]. bind_inv E0.
    destruct (Rltb _ _); discriminate.
  - injection E0 as <-. split.
    + intros Hn. rewrite Hn in Hlen. discriminate.
    + intros f Hf. apply filter_In in Hf. tauto.
Qed.

(** X6: when [measure_ecc] returns for a frequency input, the first
    returned array is [fref_out], a non-empty selection of the given
    frequencies, and every time mapped from a retained frequency has been
    retained too: [tref_out] is the whole mapped array, all of it inside
    [t_min <= x < t_max], one time per returned frequency. *)
Theorem measure_ecc_from_frequencies (self : eccDefinition)
    (fref : float_or_array) (m : measurement) :
  measure_ecc self None (Some fref) = Ok m ->
  exists tref_in1 fref_out1,
    compute_tref_in_and_fref_out_from_fref_in self
      (peaks_location m) (troughs_location m)
      (omega22_peaks_interp m) (omega22_troughs_interp m) (t_min m) (t_max m)
      (np_atleast_1d fref) = Ok (tref_in1, fref_out1)
    /\ values (fst (fst (returned m))) = fref_out1
    /\ (forall f, In f fref_out1 -> In f (np_atleast_1d fref))
    /\ values (tref_out m) = tref_in1
    /\ length fref_out1 = length tref_in1
    /\ Forall (fun x => t_min m <= x < t_max m) tref_in1.
Proof.
  clear_unused_variables.
  intros H. apply measure_ecc_Ok_inv in H.
  destruct H as (t_peaks & t_troughs & tpl & ttl & tpf & ttf & tref_in1 & fo & ma
                 & _ & _ & _ & _ & _ & _ & _ & _ & _ & _ & Href & Hout & _
                 & _ & _ & _ & _ & _ & _ & _ & _ & Hrf).
  unfold reference_input in Href. cbn in Href.
  bind_inv Href. destruct a as (tr1, fo1). injection Href as <- <-.
  destruct (compute_tref_in_and_fref_out_Ok_length _ _ _ _ _ _ _ _ _ _ E)
    as (Hlen & _ & Hsub).
  destruct (Hrf fo1 eq_refl) as (Hret & Hl).
  assert (Hall : values (tref_out m) = tr1).
  { rewrite Hout. apply filter_length_eq. unfold boolean_index in Hout.
    rewrite <- Hout. lia. }
  exists tr1, fo1. repeat (split; [first [assumption | lia] |]).
  apply Forall_forall. intros x Hx. rewrite <- Hall, Hout in Hx.
  apply filter_In in Hx. apply in_window_iff. tauto.
Qed.

(** ** measure_ecc: no reference time in the window *)

(** X7: when reference times are given and none of them lies in
    [t_min <= x < t_max], [measure_ecc] raises before computing anything
    else: "later than t_max" when the last given time exceeds [t_max],
    else "earlier than t_min" when the first is below [t_min], else the
    generic "tref_out is empty" (for instance for the single time
    [t_max]). *)
Theorem measure_ecc_empty_window (self : eccDefinition) (tref : float_or_array)
    (peaks troughs : (R -> R) * list nat) (t_peaks t_troughs : list R)
    (t_peaks_first t_peaks_last t_troughs_first t_troughs_last : R) :
  interp_extrema self "maxima" = Ok peaks ->
  interp_extrema self "minima" = Ok troughs ->
  take (t self) (snd peaks) = Ok t_peaks ->
  take (t self) (snd troughs) = Ok t_troughs ->
  first_item t_peaks = Ok t_peaks_first ->
  last_item t_peaks = Ok t_peaks_last ->
  first_item t_troughs = Ok t_troughs_first ->
  last_item t_troughs = Ok t_troughs_last ->
  np_atleast_1d tref <> [] ->
  (forall x, In x (np_atleast_1d tref) ->
     ~ (Rmax t_peaks_first t_troughs_first <= x < Rmin t_peaks_last t_troughs_last)) ->
  exists tref_first tref_last,
    first_item (np_atleast_1d tref) = Ok tref_first
    /\ last_item (np_atleast_1d tref) = Ok tref_last
    /\ ((measure_ecc self (Some tref) None = Raise Exception_tref_in_later_than_t_max
         /\ Rmin t_peaks_last t_troughs_last < tref_last)
        \/ (measure_ecc self (Some tref) None = Raise Exception_tref_in_earlier_than_t_min
            /\ tref_last <= Rmin t_peaks_last t_troughs_last
            /\ tref_first < Rmax t_peaks_first t_troughs_first)
        \/ (measure_ecc self (Some tref) None = Raise Exception_tref_out_empty
            /\ tref_last <= Rmin t_peaks_last t_troughs_last
            /\ Rmax t_peaks_first t_troughs_first <= tref_first)).
Proof.
  intros Hpk Htr Htp Htt Hpf Hpl Htf Htl Hne Hnone.
  destruct peaks as (pki, pl). destruct troughs as (tri, tl). cbn [snd] in *.
  destruct (first_item_nonempty _ Hne) as (x0 & Hx0).
  destruct (last_item_nonempty _ Hne) as (xn & Hxn).
  exists x0, xn. split; [exact Hx0 |]. split; [exact Hxn |].
  assert (Hempty : boolean_index
                     (in_window (Rmax t_peaks_first t_troughs_first)
                        (Rmin t_peaks_last t_troughs_last)) (np_atleast_1d tref) = []).
  { apply filter_nil_iff. intros x Hx. specialize (Hnone x Hx).
    destruct (in_window _ _ x) eqn:Hw; [| reflexivity].
    apply in_window_iff in Hw. contradiction. }
  unfold measure_ecc. rewrite Hpk, Htr. cbn [bind].
  rewrite Htp, Htt. cbn [bind]. rewrite Hpl, Htl. cbn [bind].
  rewrite Hpf, Htf. cbn [bind].
  unfold reference_input. cbn [is_not_None Nat.add Nat.eqb negb bind].
  rewrite Hempty. cbn [length Nat.eqb bind]. rewrite Hxn. cbn [bind].
  destruct (Rltb _ xn) eqn:H1.
  - apply Rltb_true_iff in H1. left. auto.
  - apply Rltb_false_iff in H1. rewrite Hx0. cbn [bind].
    destruct (Rltb x0 _) eqn:H2.
    + apply Rltb_true_iff in H2. right. left. auto.
    + apply Rltb_false_iff in H2. right. right. auto.
Qed.

(** ** The eccentricity formula *)

Lemma ecc_formula_bounds (omega_p omega_a : R) :
  0 < omega_a <= omega_p ->
  0 <= ecc_formula omega_p omega_a < 1
  /\ (ecc_formula omega_p omega_a = 0 <-> omega_p = omega_a).
Proof.
  clear_unused_variables.
  intros (Ha & Hap). unfold ecc_formula.
  assert (Hsa : 0 < sqrt omega_a) by (apply sqrt_lt_R0; exact Ha).
  assert (Hsp : sqrt omega_a <= sqrt omega_p) by (apply sqrt_le_1; lra).
  set (a := sqrt omega_a) in *. set (p := sqrt omega_p) in *.
  assert (Hpos : 0 < p + a) by lra.
  assert (Hinv : 0 < / (p + a)) by (apply Rinv_0_lt_compat; exact Hpos).
  split; [split |].
  - apply Rmult_le_pos; lra.
  - apply (Rmult_lt_reg_r (p + a)); [exact Hpos |].
    unfold Rdiv. rewrite Rmult_assoc, Rinv_l by lra. lra.
  - split.
    + intros Hz. apply (f_equal (fun x => x * (p + a))) in Hz.
      unfold Rdiv in Hz. rewrite Rmult_assoc, Rinv_l in Hz by lra.
      assert (Heq : p = a) by lra.
      apply (f_equal (fun x => x * x)) in Heq. unfold p, a in Heq.
      rewrite !sqrt_sqrt in Heq by lra. exact Heq.
    + intros Heq. unfold p, a. rewrite Heq. unfold Rdiv. ring.
Qed.

(** X8: where the periastron interpolant is at least the apastron
    interpolant and the latter is positive, the returned eccentricity lies
    in [0, 1), and it is 0 exactly where the two interpolants meet. *)
Theorem measure_ecc_eccentricity_range (self : eccDefinition)
    (tref_in fref_in : option float_or_array) (m : measurement) :
  measure_ecc self tref_in fref_in = Ok m ->
  (forall x, In x (values (tref_out m)) ->
     0 < omega22_troughs_interp m x <= omega22_peaks_interp m x) ->
  Forall2
    (fun tref ecc =>
       0 <= ecc < 1
       /\ (ecc = 0 <-> omega22_peaks_interp m tref = omega22_troughs_interp m tref))
    (values (tref_out m)) (values (snd (fst (returned m)))).
Proof.
  intros H Hord. apply measure_ecc_Ok_inv in H.
  destruct H as (t_peaks & t_troughs & tpl & ttl & tpf & ttf & tref_in1 & fo & ma
                 & _ & _ & _ & _ & _ & _ & _ & _ & _ & _ & _ & _ & _
                 & Hp & Ha & Hecc & _ & _ & Hret & _).
  rewrite Hret, Hecc, Hp, Ha, zip_with_map_map.
  apply (Forall2_impl_In_l
           (fun x y => y = ecc_formula (omega22_peaks_interp m x)
                                       (omega22_troughs_interp m x))).
  - intros x y Hx ->. apply ecc_formula_bounds. apply Hord. exact Hx.
  - apply (Forall2_map_r
             (fun x => ecc_formula (omega22_peaks_interp m x)
                                   (omega22_troughs_interp m x))).
Qed.

(** ** Mean anomaly within one orbit *)

(** X9: between two consecutive periastron times [a] and [b] of a strictly
    increasing periastron array, the mean anomaly at [time] is
    2*pi*(time - a)/(b - a): it grows linearly from 0 at [a] towards 2*pi
    at [b]. *)
Theorem compute_mean_ano_between (t_peaks : list R) (i : nat) (a b time : R) :
  StronglySorted Rlt t_peaks ->
  nth_error t_peaks i = Some a ->
  nth_error t_peaks (i + 1) = Some b ->
  a <= time < b ->
  compute_mean_ano t_peaks time = Ok (2 * PI * (time - a) / (b - a)).
Proof.
  clear_unused_variables.
  intros Hs Ha Hb Hrange.
  assert (Hmono := StronglySorted_nth_error Rlt t_peaks Hs).
  unfold compute_mean_ano, np_where.
  destruct (np_where_from_last (fun p => Rleb p time) t_peaks 0%nat)
    as [(_ & Hall) | (n & v & Hl & Hn & Hv & Hafter)].
  - exfalso. apply nth_error_In in Ha. apply Hall in Ha.
    apply Rleb_false_iff in Ha. lra.
  - simpl in Hl. apply Rleb_true_iff in Hv.
    assert (n = i) as ->.
    { destruct (Nat.lt_trichotomy n i) as [Hlt | [Heq | Hgt]]; [| exact Heq |].
      - specialize (Hafter i a Hlt Ha). apply Rleb_false_iff in Hafter. lra.
      - exfalso. destruct (Nat.eq_dec n (i + 1)) as [-> | Hne].
        + rewrite Hb in Hn. injection Hn as <-. lra.
        + assert (b < v) by (apply (Hmono (i + 1)%nat n); auto; lia). lra. }
    rewrite Hl. cbn [bind].
    apply getitem_Ok in Ha, Hb. rewrite Ha. cbn [bind]. rewrite Hb. reflexivity.
Qed.

(** ** interp_extrema: what the merger-proximity trimming removes *)

Lemma Rabs_nearer_right (p q thr : R) :
  p < q -> Rabs (p - thr) <= Rabs (q - thr) -> 2 * thr <= p + q.
Proof.
  clear_unused_variables.
  intros Hpq. unfold Rabs.
  destruct (Rcase_abs (p - thr)), (Rcase_abs (q - thr)); lra.
Qed.

Lemma Rabs_nearer_left (p q thr : R) :
  p < q -> Rabs (q - thr) <= Rabs (p - thr) -> p + q <= 2 * thr.
Proof.
  clear_unused_variables.
  intros Hpq. unfold Rabs.
  destruct (Rcase_abs (p - thr)), (Rcase_abs (q - thr)); lra.
Qed.

(** The position nearest to a phase threshold, for a strictly increasing
    phase: it does not move to the right when the threshold decreases. *)
Lemma nearest_phase_antitone (phase : list R) (thr1 thr2 : R) (i1 i2 : nat) :
  StronglySorted Rlt phase ->
  thr2 <= thr1 ->
  np_argmin (map (fun p => Rabs (p - thr1)) phase) = Ok i1 ->
  np_argmin (map (fun p => Rabs (p - thr2)) phase) = Ok i2 ->
  (i2 <= i1)%nat.
Proof.
  clear_unused_variables.
  intros Hs Hthr H1 H2.
  destruct (np_argmin_spec _ _ H1) as (v1 & Hv1 & Hmin1).
  destruct (np_argmin_spec _ _ H2) as (v2 & Hv2 & Hmin2).
  rewrite nth_error_map in Hv1, Hv2.
  destruct (nth_error phase i1) as [p1|] eqn:Hp1; [| discriminate].
  destruct (nth_error phase i2) as [p2|] eqn:Hp2; [| discriminate].
  cbn in Hv1, Hv2. injection Hv1 as <-. injection Hv2 as <-.
  destruct (Nat.le_gt_cases i2 i1) as [Hle | Hgt]; [exact Hle | exfalso].
  assert (Hlt : p1 < p2) by (apply (StronglySorted_nth_error Rlt phase Hs i1 i2); auto).
  assert (Ha : 2 * thr1 <= p1 + p2).
  { apply Rabs_nearer_right; [exact Hlt |]. apply Hmin1.
    apply (in_map (fun p => Rabs (p - thr1))). eapply nth_error_In. exact Hp2. }
  assert (Hb : p1 + p2 <= 2 * thr2).
  { apply Rabs_nearer_left; [exact Hlt |]. apply Hmin2.
    apply (in_map (fun p => Rabs (p - thr2))). eapply nth_error_In. exact Hp1. }
  assert (Heq : thr1 = thr2) by lra. subst thr2.
  rewrite H1 in H2. injection H2 as ->. lia.
Qed.

(** X10: with a non-negative number of excluded orbits and a strictly
    increasing phase22, the threshold position is at or before the merger
    sample, so no retained extremum lies after the merger sample. *)
Theorem trimmed_extrema_before_merger
    (self : eccDefinition) (ty : string) (n : R) (kept : list nat) :
  num_orbits_to_exclude_before_merger (extra_kwargs self) = Some n ->
  0 <= n ->
  StronglySorted Rlt (phase22 self) ->
  trimmed_extrema self ty = Ok kept ->
  exists merger_idx idx,
    np_argmin (map Rabs (t self)) = Ok merger_idx
    /\ idx_num_orbit_earlier_than_merger self n = Ok idx
    /\ (idx <= merger_idx)%nat
    /\ Forall (fun i => (i <= merger_idx)%nat) kept.
Proof.
  clear_unused_variables.
  unfold trimmed_extrema. intros -> Hn Hs H. bind_inv H. injection H as <-.
  rename a into idx. pose proof E as Hidx.
  unfold idx_num_orbit_earlier_than_merger in E.
  bind_inv E. rename a into merger_idx. bind_inv E. rename a into ph.
  apply getitem_Ok in E1.
  assert (Hle : (idx <= merger_idx)%nat).
  { destruct (np_argmin_spec _ _ E) as (v & Hv & Hmin).
    rewrite nth_error_map in Hv.
    destruct (nth_error (phase22 self) idx) as [p|] eqn:Hp; [| discriminate].
    cbn in Hv. injection Hv as <-.
    destruct (Nat.le_gt_cases idx merger_idx) as [Hle | Hgt]; [exact Hle | exfalso].
    assert (Hlt : ph < p)
      by (apply (StronglySorted_nth_error Rlt _ Hs merger_idx idx); auto).
    assert (Hpi := PI_RGT_0).
    assert (Hthr : ph - 4 * PI * n <= ph) by nra.
    assert (Hb : ph + p <= 2 * (ph - 4 * PI * n)).
    { apply Rabs_nearer_left; [exact Hlt |]. apply Hmin.
      apply (in_map (fun q => Rabs (q - (ph - 4 * PI * n)))).
      eapply nth_error_In. exact E1. }
    lra. }
  exists merger_idx, idx. split; [exact E0 |]. split; [exact Hidx |].
  split; [exact Hle |].
  apply Forall_forall. intros i Hi. apply filter_In in Hi. destruct Hi as (_ & Hi).
  apply Nat.leb_le in Hi. lia.
Qed.

(** X11: for a strictly increasing phase22, excluding more orbits before
    the merger never moves the threshold position to the right, so the
    extrema retained for the larger number are among those retained for
    the smaller one. *)
Theorem idx_num_orbit_earlier_than_merger_antitone
    (self : eccDefinition) (n1 n2 : R) (i1 i2 : nat) :
  StronglySorted Rlt (phase22 self) ->
  n1 <= n2 ->
  idx_num_orbit_earlier_than_merger self n1 = Ok i1 ->
  idx_num_orbit_earlier_than_merger self n2 = Ok i2 ->
  (i2 <= i1)%nat
  /\ forall extrema_idx i,
       In i (filter (fun i => Nat.leb i i2) extrema_idx) ->
       In i (filter (fun i => Nat.leb i i1) extrema_idx).
Proof.
  clear_unused_variables.
  unfold idx_num_orbit_earlier_than_merger. intros Hs Hn H1 H2.
  bind_inv H1. rename a into merger_idx. rewrite E in H2. cbn [bind] in H2.
  bind_inv H1. rename a into ph. rewrite E0 in H2. cbn [bind] in H2.
  assert (Hpi := PI_RGT_0).
  assert (Hle : (i2 <= i1)%nat).
  { apply (nearest_phase_antitone (phase22 self)
             (ph - 4 * PI * n1) (ph - 4 * PI * n2)); auto. nra. }
  split; [exact Hle |].
  intros extrema_idx i Hi. apply filter_In in Hi. destruct Hi as (Hin & Hi).
  apply filter_In. split; [exact Hin |].
  apply Nat.leb_le in Hi. apply Nat.leb_le. lia.
Qed.

Lemma filter_leb_prefix (idx : nat) (l : list nat) :
  StronglySorted lt l ->
  exists dropped,
    l = filter (fun i => Nat.leb i idx) l ++ dropped
    /\ Forall (fun j => (idx < j)%nat) dropped.
Proof.
  clear_unused_variables.
  induction 1 as [|a l Hs IH Hall]; [exists []; split; [reflexivity | constructor] |].
  simpl. destruct (Nat.leb a idx) eqn:Ha.
  - destruct IH as (dropped & Heq & Hd). exists dropped. split; [| exact Hd].
    simpl. f_equal. exact Heq.
  - apply Nat.leb_gt in Ha. exists (a :: l).
    assert (Hnone : filter (fun i => Nat.leb i idx) l = []).
    { apply filter_nil_iff. intros x Hx. rewrite Forall_forall in Hall.
      specialize (Hall x Hx). apply Nat.leb_gt. lia. }
    rewrite Hnone. split; [reflexivity |].
    constructor; [exact Ha |]. rewrite Forall_forall in *. intros x Hx.
    specialize (Hall x Hx). lia.
Qed.

(** X12: when [find_extrema] reports increasing positions, the trimming
    removes extrema only from the end: the retained positions are an
    initial segment of the reported ones, so the first extremum, and with
    it the start of the interpolation range, is never changed. *)
Theorem trimmed_extrema_is_prefix
    (self : eccDefinition) (ty : string) (kept : list nat) :
  StronglySorted lt (find_extrema self ty) ->
  trimmed_extrema self ty = Ok kept ->
  exists dropped,
    find_extrema self ty = kept ++ dropped
    /\ forall i j, In i kept -> In j dropped -> (i < j)%nat.
Proof.
  clear_unused_variables.
  unfold trimmed_extrema. intros Hs H.
  destruct (num_orbits_to_exclude_before_merger (extra_kwargs self)) as [n|].
  - bind_inv H. injection H as <-. rename a into idx.
    destruct (filter_leb_prefix idx _ Hs) as (dropped & Heq & Hd).
    exists dropped. split; [exact Heq |].
    intros i j Hi Hj. apply filter_In in Hi. destruct Hi as (_ & Hi).
    apply Nat.leb_le in Hi. rewrite Forall_forall in Hd. specialize (Hd j Hj). lia.
  - injection H as <-. exists []. split; [symmetry; apply app_nil_r |].
    intros i j _ [].
Qed.

(** ** check_extrema_separation: the warnings *)

Lemma closer_to_pi_iff (d : R) :
  Rabs (d - PI) < Rabs (d - 2 * PI) <-> d < 3 * PI / 2.
Proof.
  clear_unused_variables.
  assert (Hpi := PI_RGT_0). unfold Rabs.
  destruct (Rcase_abs (d - PI)), (Rcase_abs (d - 2 * PI)); split; lra.
Qed.

Lemma np_where_from_range (p : R -> bool) (a : list R) (i : nat) :
  Forall (fun j => (i <= j < i + length a)%nat) (np_where_from p a i).
Proof.
  clear_unused_variables.
  revert i. induction a as [|x a IH]; intros i; simpl; [constructor |].
  assert (Hrest : Forall (fun j => (i <= j < i + S (length a))%nat)
                    (np_where_from p a (S i))).
  { eapply Forall_impl; [| apply IH]. intros j Hj. simpl in Hj. lia. }
  destruct (p x); [constructor; [lia | exact Hrest] | exact Hrest].
Qed.

Lemma np_where_in_range (p : R -> bool) (a : list R) :
  Forall (fun j => (j < length a)%nat) (np_where p a).
Proof.
  eapply Forall_impl; [| apply (np_where_from_range p a 0)].
  intros j Hj. simpl in Hj. lia.
Qed.

Lemma np_diff_length (a : list R) : length (np_diff a) = (length a - 1)%nat.
Proof.
  clear_unused_variables.
  induction a as [|x a IH]; [reflexivity |].
  destruct a as [|y a]; [reflexivity |].
  change (np_diff (x :: y :: a)) with ((y - x) :: np_diff (y :: a)).
  simpl length in *. lia.
Qed.

Lemma tl_length {A : Type} (l : list A) : length (tl l) = (length l - 1)%nat.
Proof. destruct l; simpl; lia. Qed.

(** The parts of a returning [check_extrema_separation_warnings]. *)
Lemma check_extrema_separation_warnings_inv (self : eccDefinition)
    (loc : list nat) (factor min_diff : R)
    (orb_phase_diff ratio : list R) (ws : list separation_warning) :
  check_extrema_separation self loc = Ok (orb_phase_diff, ratio) ->
  check_extrema_separation_warnings self loc factor min_diff = Ok ws ->
  exists too_close too_far,
    ws = too_close
         ++ (if existsb (fun d => Rltb (Rabs (d - PI)) (Rabs (d - 2 * PI)))
                  orb_phase_diff
             then [Warning_phase_shift_closer_to_pi] else [])
         ++ too_far
    /\ (if existsb (fun d => Rltb d min_diff) orb_phase_diff
        then exists smallest times, too_close = [Warning_too_close smallest times]
        else too_close = [])
    /\ (if existsb (fun r => Rltb factor r) ratio
        then exists largest times, too_far = [Warning_too_far largest times]
        else too_far = []).
Proof.
  unfold check_extrema_separation, check_extrema_separation_warnings.
  intros H1 H2. bind_inv H1. rewrite E in H2. cbn [bind] in H2.
  bind_inv H1. rewrite E0 in H2. cbn [bind] in H2.
  injection H1 as <- <-.
  bind_inv H2. rename a1 into too_close. bind_inv H2. rename a1 into too_far.
  injection H2 as <-.
  exists too_close, too_far. split; [reflexivity |]. split.
  - destruct (existsb (fun d => Rltb d min_diff) _).
    + bind_inv E1. bind_inv E1. injection E1 as <-. eauto.
    + injection E1 as <-. reflexivity.
  - destruct (existsb (fun r => Rltb factor r) _).
    + bind_inv E2. bind_inv E2. injection E2 as <-. eauto.
    + injection E2 as <-. reflexivity.
Qed.

(** X13: [check_extrema_separation] warns "Phase shift closer to pi than
    2 pi detected." exactly when some orbital phase difference between
    successive extrema is below 3*pi/2, and warns that a pair is too close
    exactly when some difference is below [min_orb_phase_diff]; with
    [min_orb_phase_diff] at most 3*pi/2 (the default is pi) every
    "too close" warning therefore comes with the "closer to pi" one. *)
Theorem check_extrema_separation_closer_to_pi (self : eccDefinition)
    (loc : list nat) (factor min_diff : R)
    (orb_phase_diff ratio : list R) (ws : list separation_warning) :
  check_extrema_separation self loc = Ok (orb_phase_diff, ratio) ->
  check_extrema_separation_warnings self loc factor min_diff = Ok ws ->
  (In Warning_phase_shift_closer_to_pi ws
   <-> exists d, In d orb_phase_diff /\ d < 3 * PI / 2)
  /\ ((exists smallest times, In (Warning_too_close smallest times) ws)
      <-> exists d, In d orb_phase_diff /\ d < min_diff)
  /\ (min_diff <= 3 * PI / 2 ->
      (exists smallest times, In (Warning_too_close smallest times) ws) ->
      In Warning_phase_shift_closer_to_pi ws).
Proof.
  intros H1 H2.
  destruct (check_extrema_separation_warnings_inv _ _ _ _ _ _ _ H1 H2)
    as (too_close & too_far & -> & Hclose & Hfar).
  assert (Hpi_iff :
    In Warning_phase_shift_closer_to_pi
       (too_close
        ++ (if existsb (fun d => Rltb (Rabs (d - PI)) (Rabs (d - 2 * PI)))
                 orb_phase_diff
            then [Warning_phase_shift_closer_to_pi] else [])
        ++ too_far)
    <-> exists d, In d orb_phase_diff /\ d < 3 * PI / 2).
  { destruct (existsb (fun d => Rltb (Rabs (d - PI)) (Rabs (d - 2 * PI)))
                orb_phase_diff) eqn:Hex.
    - split; [intros _ | intros _; apply in_or_app; right; now left].
      apply existsb_exists in Hex. destruct Hex as (d & Hd & Hlt).
      exists d. split; [exact Hd |]. apply closer_to_pi_iff.
      apply Rltb_true_iff. exact Hlt.
    - split.
      + intros Hin. exfalso. apply in_app_or in Hin. destruct Hin as [Hin | Hin].
        * destruct (existsb (fun d => Rltb d min_diff) orb_phase_diff).
          -- destruct Hclose as (s & ts & ->). destruct Hin as [Hin | []]. discriminate.
          -- subst too_close. destruct Hin.
        * simpl in Hin.
          destruct (existsb (fun r => Rltb factor r) ratio).
          -- destruct Hfar as (s & ts & ->). destruct Hin as [Hin | []]. discriminate.
          -- subst too_far. destruct Hin.
      + intros (d & Hd & Hlt). exfalso.
        assert (Htrue : existsb (fun d => Rltb (Rabs (d - PI)) (Rabs (d - 2 * PI)))
                          orb_phase_diff = true).
        { apply existsb_exists. exists d. split; [exact Hd |].
          apply Rltb_true_iff. apply closer_to_pi_iff. exact Hlt. }
        congruence. }
  assert (Hclose_iff :
    (exists smallest times,
       In (Warning_too_close smallest times)
          (too_close
           ++ (if existsb (fun d => Rltb (Rabs (d - PI)) (Rabs (d - 2 * PI)))
                    orb_phase_diff
               then [Warning_phase_shift_closer_to_pi] else [])
           ++ too_far))
    <-> exists d, In d orb_phase_diff /\ d < min_diff).
  { destruct (existsb (fun d => Rltb d min_diff) orb_phase_diff) eqn:Hex.
    - destruct Hclose as (s & ts & ->). split.
      + intros _. apply existsb_exists in Hex. destruct Hex as (d & Hd & Hlt).
        exists d. split; [exact Hd |]. apply Rltb_true_iff. exact Hlt.
      + intros _. exists s, ts. now left.
    - subst too_close. split.
      + intros (s & ts & Hin). exfalso. simpl in Hin.
        apply in_app_or in Hin. destruct Hin as [Hin | Hin].
        * destruct (existsb _ orb_phase_diff); [| destruct Hin].
          destruct Hin as [Hin | []]. discriminate.
        * destruct (existsb (fun r => Rltb factor r) ratio).
          -- destruct Hfar as (s' & ts' & ->). destruct Hin as [Hin | []]. discriminate.
          -- subst too_far. destruct Hin.
      + intros (d & Hd & Hlt). exfalso.
        assert (Htrue : existsb (fun d => Rltb d min_diff) orb_phase_diff = true).
        { apply existsb_exists. exists d. split; [exact Hd |].
          apply Rltb_true_iff. exact Hlt. }
        congruence. }
  split; [exact Hpi_iff |]. split; [exact Hclose_iff |].
  intros Hmin Hin. apply Hpi_iff. apply Hclose_iff in Hin.
  destruct Hin as (d & Hd & Hlt). exists d. split; [exact Hd | lra].
Qed.

(** X14: building the warnings cannot fail.  Whenever
    [check_extrema_separation] returns its two arrays and the factor
    [max_orb_phase_diff_factor] is not negative (the default is 1.5), the
    positions it looks up for the "too close" and "too far" messages are
    inside the array of extrema times and the minimum and maximum are
    taken of a non-empty array; at most three warnings are emitted. *)
Theorem check_extrema_separation_warnings_return (self : eccDefinition)
    (loc : list nat) (factor min_diff : R) (r : list R * list R) :
  0 <= factor ->
  check_extrema_separation self loc = Ok r ->
  exists ws,
    check_extrema_separation_warnings self loc factor min_diff = Ok ws
    /\ (length ws <= 3)%nat.
Proof.
  clear_unused_variables.
  unfold check_extrema_separation, check_extrema_separation_warnings.
  intros Hfactor H. bind_inv H. rename a into ph. bind_inv H. rename a into t_at.
  clear H. rewrite E. cbn [bind]. rewrite E0. cbn [bind].
  set (d := np_diff (map (fun p => p / 2) ph)).
  assert (Hlen : length d = length (tl t_at)).
  { unfold d. rewrite np_diff_length, length_map, tl_length.
    apply take_Ok_length in E, E0. congruence. }
  assert (Hclose : exists too_close,
             (if existsb (fun x => Rltb x min_diff) d
              then too_close_times <-
                     take (tl t_at) (np_where (fun x => Rltb x min_diff) d) ;;
                   smallest <- py_min d ;;
                   Ok [Warning_too_close smallest too_close_times]
              else Ok []) = Ok too_close
             /\ (length too_close <= 1)%nat).
  { destruct (existsb (fun x => Rltb x min_diff) d) eqn:Hex;
      [| exists []; split; [reflexivity | simpl; lia]].
    destruct (take_in_range (tl t_at) (np_where (fun x => Rltb x min_diff) d))
      as (times & Htimes).
    { rewrite <- Hlen. apply np_where_in_range. }
    rewrite Htimes. cbn [bind].
    destruct d as [|x xs]; [discriminate |]. cbn [py_min bind].
    eexists. split; [reflexivity | simpl; lia]. }
  destruct Hclose as (too_close & -> & Hlc). cbn [bind].
  set (ratio := 0 :: zip_with Rdiv (tl d) (removelast d)).
  assert (Hfar : exists too_far,
             (if existsb (fun x => Rltb factor x) ratio
              then too_far_times <-
                     take (tl t_at) (np_where (fun x => Rltb factor x) ratio) ;;
                   largest <- py_max d ;;
                   Ok [Warning_too_far largest too_far_times]
              else Ok []) = Ok too_far
             /\ (length too_far <= 1)%nat).
  { destruct (existsb (fun x => Rltb factor x) ratio) eqn:Hex;
      [| exists []; split; [reflexivity | simpl; lia]].
    destruct d as [|x xs] eqn:Hd.
    - exfalso. unfold ratio in Hex. simpl in Hex.
      rewrite (proj2 (Rltb_false_iff factor 0)) in Hex by lra. discriminate.
    - assert (Hr : length ratio = length (tl t_at)).
      { unfold ratio. rewrite <- Hlen. cbn [length]. f_equal.
        rewrite zip_with_length_same; [reflexivity |].
        rewrite removelast_firstn_len, length_firstn. cbn [tl length Nat.pred]. lia. }
      destruct (take_in_range (tl t_at) (np_where (fun x => Rltb factor x) ratio))
        as (times & Htimes).
      { rewrite <- Hr. apply np_where_in_range. }
      rewrite Htimes. cbn [bind py_max].
      eexists. split; [reflexivity | simpl; lia]. }
  destruct Hfar as (too_far & -> & Hlf). cbn [bind].
  eexists. split; [reflexivity |].
  rewrite !length_app.
  destruct (existsb (fun x => Rltb (Rabs (x - PI)) (Rabs (x - 2 * PI))) d);
    simpl; lia.
Qed.

(** ** measure_ecc from reference frequencies: the averaging method *)

(** The steps of [measure_ecc] before the reference input is looked at. *)
Lemma measure_ecc_until_reference_input (self : eccDefinition)
    (peaks troughs : (R -> R) * list nat) :
  interp_extrema self "maxima" = Ok peaks ->
  interp_extrema self "minima" = Ok troughs ->
  exists t_peaks t_troughs t_peaks_last t_troughs_last t_peaks_first t_troughs_first,
    take (t self) (snd peaks) = Ok t_peaks
    /\ take (t self) (snd troughs) = Ok t_troughs
    /\ last_item t_peaks = Ok t_peaks_last
    /\ last_item t_troughs = Ok t_troughs_last
    /\ first_item t_peaks = Ok t_peaks_first
    /\ first_item t_troughs = Ok t_troughs_first.
Proof.
  intros Hpk Htr. destruct peaks as (pki, pl). destruct troughs as (tri, tl).
  destruct (interp_extrema_Ok_inv _ _ _ _ Hpk) as (tp & op & _ & Hlp & Htp & _ & _).
  destruct (interp_extrema_Ok_inv _ _ _ _ Htr) as (tt & ot & _ & Hlt & Htt & _ & _).
  destruct (take_nonempty _ _ _ Htp Hlp) as (tpf & tpl & Hpf & Hpl).
  destruct (take_nonempty _ _ _ Htt Hlt) as (ttf & ttl & Htf & Htl).
  exists tp, tt, tpl, ttl, tpf, ttf. cbn [snd]. auto 10.
Qed.

(** X15: with a frequency input and an [omega22_averaging_method] that is
    none of the three available ones, [measure_ecc] raises the KeyError
    naming the method as soon as the two extrema interpolants exist,
    whatever the frequencies. *)
Theorem measure_ecc_unknown_averaging_method (self : eccDefinition)
    (fref : float_or_array) (peaks troughs : (R -> R) * list nat) :
  interp_extrema self "maxima" = Ok peaks ->
  interp_extrema self "minima" = Ok troughs ->
  omega22_averaging_method (extra_kwargs self)
  <> "average_between_extrema"%string ->
  omega22_averaging_method (extra_kwargs self)
  <> "orbital_average_at_extrema"%string ->
  omega22_averaging_method (extra_kwargs self) <> "omega22_zeroecc"%string ->
  measure_ecc self None (Some fref)
  = Raise (KeyError_averaging_method (omega22_averaging_method (extra_kwargs self))).
Proof.
  intros Hpk Htr H1 H2 H3.
  destruct (measure_ecc_until_reference_input _ _ _ Hpk Htr)
    as (tp & tt & tpl & ttl & tpf & ttf & Htp & Htt & Hpl & Htl & Hpf & Htf).
  destruct peaks as (pki, pl). destruct troughs as (tri, tl). cbn [snd] in *.
  unfold measure_ecc. rewrite Hpk, Htr. cbn [bind].
  rewrite Htp, Htt. cbn [bind]. rewrite Hpl, Htl. cbn [bind].
  rewrite Hpf, Htf. cbn [bind].
  unfold reference_input. cbn [is_not_None Nat.add Nat.eqb negb].
  unfold compute_tref_in_and_fref_out_from_fref_in.
  apply String.eqb_neq in H1, H2, H3. rewrite H1, H2, H3. reflexivity.
Qed.

(** X16: with a frequency input and the method "omega22_zeroecc" on an
    object built without zero-eccentricity data, [measure_ecc] fails on the
    missing attribute [t_zeroecc] as soon as the two extrema interpolants
    exist and the waveform has two samples. *)
Theorem measure_ecc_omega22_zeroecc_without_data (self : eccDefinition)
    (fref : float_or_array) (peaks troughs : (R -> R) * list nat) :
  interp_extrema self "maxima" = Ok peaks ->
  interp_extrema self "minima" = Ok troughs ->
  omega22_averaging_method (extra_kwargs self) = "omega22_zeroecc"%string ->
  zeroecc self = None ->
  (2 <= length (t self))%nat ->
  measure_ecc self None (Some fref) = Raise AttributeError_zeroecc.
Proof.
  intros Hpk Htr Hm Hz Hlen.
  destruct (measure_ecc_until_reference_input _ _ _ Hpk Htr)
    as (tp & tt & tpl & ttl & tpf & ttf & Htp & Htt & Hpl & Htl & Hpf & Htf).
  destruct peaks as (pki, pl). destruct troughs as (tri, tl). cbn [snd] in *.
  unfold measure_ecc. rewrite Hpk, Htr. cbn [bind].
  rewrite Htp, Htt. cbn [bind]. rewrite Hpl, Htl. cbn [bind].
  rewrite Hpf, Htf. cbn [bind].
  unfold reference_input. cbn [is_not_None Nat.add Nat.eqb negb].
  unfold compute_tref_in_and_fref_out_from_fref_in. rewrite Hm.
  change (String.eqb "omega22_zeroecc" "average_between_extrema") with false.
  change (String.eqb "omega22_zeroecc" "orbital_average_at_extrema") with false.
  change (String.eqb "omega22_zeroecc" "omega22_zeroecc") with true.
  cbn iota. unfold compute_omega22_zeroecc.
  destruct (getitem_lt (t self) 1) as (t1 & Ht1); [lia |].
  destruct (getitem_lt (t self) 0) as (t0 & Ht0); [lia |].
  rewrite Ht1. cbn [bind]. rewrite Ht0. cbn [bind]. rewrite Hz. reflexivity.
Qed.

(** ** get_fref_out and the average between the extrema *)

Lemma filter_filter_same {A : Type} (p : A -> bool) (l : list A) :
  filter p (filter p l) = filter p l.
Proof.
  induction l as [|x l IH]; simpl; [reflexivity |].
  destruct (p x) eqn:Hx; simpl; [rewrite Hx, IH; reflexivity | exact IH].
Qed.

(** X17: the frequencies that [get_fref_out] returns are accepted
    unchanged when given back to it: on its own output it returns that
    output. *)
Theorem get_fref_out_idempotent (omega22_average fref_in fref_out1 : list R) :
  get_fref_out omega22_average fref_in = Ok fref_out1 ->
  get_fref_out omega22_average fref_out1 = Ok fref_out1.
Proof.
  clear_unused_variables.
  unfold get_fref_out. intros H.
  destruct (first_item omega22_average) as [om_first|] eqn:E1; [| discriminate].
  destruct (last_item omega22_average) as [om_last|] eqn:E2; [| discriminate].
  cbn [bind] in *. unfold boolean_index in *.
  destruct (Nat.eqb (length (filter _ fref_in)) 0) eqn:Hlen.
  - bind_inv H. destruct (Rltb _ _); [discriminate |]. bind_inv H.
    destruct (Rltb _ _); discriminate.
  - injection H as <-. rewrite filter_filter_same, Hlen. reflexivity.
Qed.

(** X18: the method "average_between_extrema" needs the first two samples
    of the time array, whose difference is the step of its grid, and fails
    with an IndexError without them; each averaged frequency lies between
    the values of the two interpolants at its grid time. *)
Theorem compute_omega22_average_between_extrema_spec (self : eccDefinition)
    (omega22_peaks_interp1 omega22_troughs_interp1 : R -> R) (tmin tmax : R) :
  ((length (t self) < 2)%nat ->
   compute_omega22_average_between_extrema self
     omega22_peaks_interp1 omega22_troughs_interp1 tmin tmax = Raise IndexError)
  /\ forall grid omega22_average,
       compute_omega22_average_between_extrema self
         omega22_peaks_interp1 omega22_troughs_interp1 tmin tmax
       = Ok (grid, omega22_average) ->
       (2 <= length (t self))%nat
       /\ (exists t0 t1, nth_error (t self) 0 = Some t0
                         /\ nth_error (t self) 1 = Some t1
                         /\ grid = np_arange tmin tmax (t1 - t0))
       /\ Forall2
            (fun x om =>
               Rmin (omega22_troughs_interp1 x) (omega22_peaks_interp1 x) <= om
               <= Rmax (omega22_troughs_interp1 x) (omega22_peaks_interp1 x))
            grid omega22_average.
Proof.
  unfold compute_omega22_average_between_extrema. split.
  - intros Hlen. unfold getitem.
    destruct (nth_error (t self) 1) eqn:E; [| reflexivity].
    assert (Hlt : (1 < length (t self))%nat)
      by (apply nth_error_Some; congruence).
    lia.
  - intros grid avg H. bind_inv H. rename a into t1. bind_inv H. rename a into t0.
    injection H as <- <-. apply getitem_Ok in E, E0.
    split.
    { assert (Hlt : (1 < length (t self))%nat)
        by (apply nth_error_Some; congruence).
      lia. }
    split; [exists t0, t1; auto |].
    generalize (np_arange tmin tmax (t1 - t0)). clear.
    intros grid. induction grid as [|x grid IH]; simpl; constructor; [| exact IH].
    unfold Rmin, Rmax.
    destruct (Rle_dec (omega22_troughs_interp1 x) (omega22_peaks_interp1 x)); lra.
Qed.

(** ** measure_ecc: one reference time at a time *)

Lemma np_atleast_1d_squeeze (a : list R) : np_atleast_1d (squeeze_if_single a) = a.
Proof. exact (values_squeeze a). Qed.

(** X19: measuring again at the reference times that a call has retained
    gives the same measurement: [measure_ecc] called with the [tref_out]
    of a returning call returns the same attributes and the same triple. *)
Theorem measure_ecc_at_tref_out (self : eccDefinition)
    (tref : float_or_array) (m : measurement) :
  measure_ecc self (Some tref) None = Ok m ->
  measure_ecc self (Some (tref_out m)) None = Ok m.
Proof.
  clear_unused_variables.
  unfold measure_ecc. intros H.
  destruct (interp_extrema self "maxima") as [(pki, pl)|] eqn:E1; [| discriminate].
  destruct (interp_extrema self "minima") as [(tri, tl)|] eqn:E2; [| discriminate].
  cbn [bind] in *.
  destruct (take (t self) pl) as [t_peaks|] eqn:E3; [| discriminate].
  destruct (take (t self) tl) as [t_troughs|] eqn:E4; [| discriminate].
  cbn [bind] in *.
  destruct (last_item t_peaks) as [tpl|] eqn:E5; [| discriminate].
  destruct (last_item t_troughs) as [ttl|] eqn:E6; [| discriminate].
  cbn [bind] in *.
  destruct (first_item t_peaks) as [tpf|] eqn:E7; [| discriminate].
  destruct (first_item t_troughs) as [ttf|] eqn:E8; [| discriminate].
  cbn [bind] in *.
  unfold reference_input in *. cbn [is_not_None Nat.add Nat.eqb negb bind] in *.
  set (w := in_window (Rmax tpf ttf) (Rmin tpl ttl)) in *.
  set (kept := boolean_index w (np_atleast_1d tref)) in *.
  destruct (Nat.eqb (length kept) 0) eqn:Hlen.
  { exfalso. destruct (last_item (np_atleast_1d tref)); [| discriminate].
    cbn [bind] in H. destruct (Rltb _ _); [discriminate |].
    destruct (first_item (np_atleast_1d tref)); [| discriminate].
    cbn [bind] in H. destruct (Rltb _ _); discriminate. }
  cbn [bind] in H.
  destruct (check_extrema_separation self pl) as [(dp, rp)|] eqn:E9; [| discriminate].
  destruct (check_extrema_separation self tl) as [(dt, rt)|] eqn:E10; [| discriminate].
  cbn [bind] in H.
  destruct (first_item kept) as [k_first|] eqn:E11; [| discriminate].
  cbn [bind] in H.
  destruct (Rltb k_first tpf) eqn:Hlo; [discriminate |].
  destruct (last_item kept) as [k_last|] eqn:E12; [| discriminate].
  cbn [bind] in H.
  destruct (Rleb tpl k_last) eqn:Hhi; [discriminate |].
  destruct (vectorize (compute_mean_ano t_peaks) kept) as [mean_ano|] eqn:E13;
    [| discriminate].
  cbn [bind] in H.
  match type of H with
  | bind ?c _ = _ => destruct c as [[]|] eqn:E14; [| discriminate]
  end.
  cbn [bind] in H. injection H as <-. cbn [tref_out].
  rewrite np_atleast_1d_squeeze.
  assert (Hsame : boolean_index w kept = kept)
    by (unfold kept, boolean_index; apply filter_filter_same).
  rewrite Hsame, Hlen. cbn [bind]. rewrite E11. cbn [bind]. rewrite Hlo, E12.
  cbn [bind]. rewrite Hhi, E13. cbn [bind]. rewrite E14. reflexivity.
Qed.

Lemma Forall2_nth_error_l {A B : Type} (P : A -> B -> Prop) (l : list A) (r : list B)
    (i : nat) (x : A) :
  Forall2 P l r -> nth_error l i = Some x ->
  exists y, nth_error r i = Some y /\ P x y.
Proof.
  intros H. revert i. induction H as [|a b l r Hab _ IH]; intros i Hi.
  - destruct i; discriminate.
  - destruct i as [|i]; simpl in *.
    + injection Hi as <-. eauto.
    + apply IH. exact Hi.
Qed.

(** X20: measuring at an array of reference times gives, at each retained
    time, the eccentricity and the mean anomaly that measuring at that time
    alone gives: the call with the single time returns, as three floats,
    the time and the entries of the two arrays at its position. *)
Theorem measure_ecc_pointwise (self : eccDefinition)
    (tref : float_or_array) (m : measurement) (i : nat) (x : R) :
  measure_ecc self (Some tref) None = Ok m ->
  nth_error (values (tref_out m)) i = Some x ->
  exists ecc mean_ano m1,
    nth_error (values (ecc_ref m)) i = Some ecc
    /\ nth_error (values (mean_ano_ref m)) i = Some mean_ano
    /\ measure_ecc self (Some (Float x)) None = Ok m1
    /\ returned m1 = (Float x, Float ecc, Float mean_ano).
Proof.
  clear_unused_variables.
  intros H Hx. pose proof (measure_ecc_Ok_inv _ _ _ _ H)
    as (t_peaks & t_troughs & tpl & ttl & tpf & ttf & tref_in1 & fo & ma
        & Hpk & Htr & Htp & Htt & Hpl & Htl & Hpf & Htf & Hmax & Hmin
        & _ & Hout & _ & Hp & Ha & Hecc & Hmean & Hma & _).
  assert (Hin : In x (values (tref_out m))) by (eapply nth_error_In; exact Hx).
  assert (Hw : in_window (Rmax tpf ttf) (Rmin tpl ttl) x = true).
  { rewrite Hout in Hin. apply filter_In in Hin. rewrite <- Hmin, <- Hmax. tauto. }
  pose proof Hw as Hrange. apply in_window_iff in Hrange.
  assert (Hlo : Rltb x tpf = false)
    by (apply Rltb_false_iff; pose proof (Rmax_l tpf ttf); lra).
  assert (Hhi : Rleb tpl x = false)
    by (apply Rleb_false_iff; pose proof (Rmin_l tpl ttl); lra).
  destruct (Forall2_nth_error_l _ _ _ i x (mapM_Ok_Forall2 _ _ _ Hmean) Hx)
    as (mean_ano & Hnth_ma & Hcomp).
  exists (ecc_formula (omega22_peaks_interp m x) (omega22_troughs_interp m x)), mean_ano.
  assert (Hsep : exists sp st, check_extrema_separation self (peaks_location m) = Ok sp
                               /\ check_extrema_separation self (troughs_location m)
                                  = Ok st).
  { unfold measure_ecc in H. rewrite Hpk, Htr in H. cbn [bind] in H.
    rewrite Htp, Htt in H. cbn [bind] in H. rewrite Hpl, Htl in H. cbn [bind] in H.
    rewrite Hpf, Htf in H. cbn [bind] in H.
    bind_inv H. destruct a as (tr1, fo1). bind_inv H. bind_inv H.
    destruct (check_extrema_separation self (peaks_location m))
      as [(dp, rp)|]; [| discriminate].
    cbn [bind] in H.
    destruct (check_extrema_separation self (troughs_location m))
      as [(dt, rt)|]; [| discriminate].
    eauto. }
  destruct Hsep as ((dp, rp) & (dt, rt) & Hsp & Hst).
  eexists. split; [| split; [| split]].
  - rewrite Hecc, Hp, Ha, zip_with_map_map, nth_error_map, Hx. reflexivity.
  - rewrite Hma. exact Hnth_ma.
  - unfold measure_ecc. rewrite Hpk, Htr. cbn [bind].
    rewrite Htp, Htt. cbn [bind]. rewrite Hpl, Htl. cbn [bind].
    rewrite Hpf, Htf. cbn [bind].
    unfold reference_input.
    cbn [is_not_None Nat.add Nat.eqb negb bind np_atleast_1d boolean_index filter].
    rewrite Hw. cbn [length Nat.eqb bind]. rewrite Hsp, Hst. cbn [bind].
    unfold first_item, getitem. cbn [nth_error bind]. rewrite Hlo.
    cbn [last_item last bind]. rewrite Hhi.
    cbn [vectorize mapM bind]. rewrite Hcomp. cbn [bind]. reflexivity.
  - reflexivity.
Qed.

(** ** load_data.reomve_junk_from_nr_data *)

Lemma mode_lookup_map_skipn (modes_dict : modeDict) (n : nat) (l m : Z) :
  mode_lookup (map (fun kv => (fst kv, skipn n (snd kv))) modes_dict) l m
  = option_map (skipn n) (mode_lookup modes_dict l m).
Proof.
  clear_unused_variables.
  induction modes_dict as [|((l', m'), h) rest IH]; [reflexivity |].
  simpl. destruct (Z.eqb l l' && Z.eqb m m')%bool; [reflexivity | exact IH].
Qed.

Lemma mode_lookup_In (modes_dict : modeDict) (l m : Z) (h : list complex) :
  mode_lookup modes_dict l m = Some h -> exists key, In (key, h) modes_dict.
Proof.
  clear_unused_variables.
  induction modes_dict as [|((l', m'), h') rest IH]; [discriminate |].
  cbn [mode_lookup]. destruct (Z.eqb l l' && Z.eqb m m')%bool.
  - intros [= <-]. exists (l', m'). now left.
  - intros H. destruct (IH H) as (key & Hkey). exists key. now right.
Qed.

Lemma np_argmin_lt_length (a : list R) (i : nat) :
  np_argmin a = Ok i -> (i < length a)%nat.
Proof.
  clear_unused_variables.
  intros H. destruct (np_argmin_spec _ _ H) as (v & Hv & _).
  apply nth_error_Some. congruence.
Qed.

(** X21: [reomve_junk_from_nr_data] cuts the time array and every mode at
    one common position, found on the (2,2) phase and inside the (2,2)
    mode: the keys are kept, data of one common length stay of one common
    length, and when the phase has one value per sample the cleaned arrays
    are not empty. *)
Theorem reomve_junk_from_nr_data_aligned (time : list R) (modes_dict : modeDict)
    (num_orbits_to_remove_as_junk : R) (t_clean : list R) (modes_dict_clean : modeDict) :
  reomve_junk_from_nr_data time modes_dict num_orbits_to_remove_as_junk
  = Ok (t_clean, modes_dict_clean) ->
  exists h22_ idx_junk,
    mode_lookup modes_dict 2 2 = Some h22_
    /\ (idx_junk < length (np_unwrap (map np_angle h22_)))%nat
    /\ t_clean = skipn idx_junk time
    /\ map fst modes_dict_clean = map fst modes_dict
    /\ (forall l m, mode_lookup modes_dict_clean l m
                    = option_map (skipn idx_junk) (mode_lookup modes_dict l m))
    /\ (Forall (fun kv => length (snd kv) = length time) modes_dict ->
        Forall (fun kv => length (snd kv) = length t_clean) modes_dict_clean
        /\ (length (np_unwrap (map np_angle h22_)) = length h22_ ->
            t_clean <> [])).
Proof.
  unfold reomve_junk_from_nr_data. intros H.
  destruct (mode_lookup modes_dict 2 2) as [h|] eqn:Hh; [| discriminate].
  cbn [bind] in H. bind_inv H. rename a into p0. bind_inv H. rename a into idx.
  injection H as <- <-.
  apply np_argmin_lt_length in E0. rewrite !length_map in E0.
  exists h, idx. split; [reflexivity |]. split; [exact E0 |].
  split; [reflexivity |]. split; [| split].
  - rewrite map_map. reflexivity.
  - intros l m. apply mode_lookup_map_skipn.
  - intros Hall. split.
    + apply Forall_forall. intros kv Hkv. apply in_map_iff in Hkv.
      destruct Hkv as (kv0 & <- & Hin). rewrite Forall_forall in Hall.
      cbn [snd]. rewrite !length_skipn, (Hall kv0 Hin). reflexivity.
    + intros Hsame Hnil.
      assert (Hlen : length h = length time).
      { rewrite Forall_forall in Hall.
        destruct (mode_lookup_In _ _ _ _ Hh) as (key & Hkey).
        apply (Hall (key, h) Hkey). }
      apply (f_equal (@length R)) in Hnil. rewrite length_skipn in Hnil.
      simpl in Hnil. lia.
Qed.

(** X22: removing zero orbits removes nothing: with
    [num_orbits_to_remove_as_junk = 0] the first sample is already the
    nearest to the phase threshold, and the time array and every mode are
    returned as they were given. *)
Theorem reomve_junk_from_nr_data_zero_orbits (time : list R) (modes_dict : modeDict)
    (t_clean : list R) (modes_dict_clean : modeDict) :
  reomve_junk_from_nr_data time modes_dict 0 = Ok (t_clean, modes_dict_clean) ->
  t_clean = time /\ modes_dict_clean = modes_dict.
Proof.
  unfold reomve_junk_from_nr_data. intros H.
  destruct (mode_lookup modes_dict 2 2) as [h|] eqn:Hh; [| discriminate].
  cbn [bind] in H. bind_inv H. rename a into p0. bind_inv H. rename a into idx.
  injection H as <- <-.
  assert (Hidx : idx = 0%nat).
  { destruct (map Ropp (np_unwrap (map np_angle h))) as [|p ps];
      [discriminate |].
    unfold first_item, getitem in E. simpl in E. injection E as <-.
    simpl in E0. injection E0 as <-.
    assert (Hzero : Rabs (p - (p + 0 * 4 * PI)) = 0).
    { replace (p - (p + 0 * 4 * PI)) with 0 by ring. apply Rabs_R0. }
    rewrite Hzero.
    destruct (argmin_from_spec
                (map (fun q => Rabs (q - (p + 0 * 4 * PI))) ps) 0 0%nat 1%nat)
      as [(Heq & _) | (n & v & _ & Hn & Hv & _)]; [exact Heq | exfalso].
    apply nth_error_In in Hn. apply in_map_iff in Hn.
    destruct Hn as (q & <- & _). pose proof (Rabs_pos (q - (p + 0 * 4 * PI))). lra. }
  subst idx. split; [reflexivity |].
  clear. induction modes_dict as [|(key, h') rest IH]; [reflexivity |].
  simpl. f_equal. exact IH.
Qed.

(** ** measure_ecc: when a call with reference times returns *)

Lemma check_extrema_separation_returns (self : eccDefinition) (loc : list nat)
    (t_at : list R) :
  take (t self) loc = Ok t_at ->
  length (phase22 self) = length (t self) ->
  exists r, check_extrema_separation self loc = Ok r.
Proof.
  intros Ht Hlen. unfold check_extrema_separation.
  pose proof (take_Ok_in_range _ _ _ Ht) as Hrange. rewrite <- Hlen in Hrange.
  destruct (take_in_range _ _ Hrange) as (ph & ->). cbn [bind].
  rewrite Ht. cbn [bind]. eauto.
Qed.

(** X25: once both extrema interpolants exist and phase22 has one value
    per time sample, a call of [measure_ecc] at a single reference time
    returns exactly when that time lies in the window [t_min <= t < t_max]
    between the first and the last extrema of both kinds; none of the
    later steps (the separation check, the test on the periastrons, the
    mean anomaly) can fail for such a time. *)
Theorem measure_ecc_single_time_returns_iff (self : eccDefinition) (x : R)
    (peaks troughs : (R -> R) * list nat) (t_peaks t_troughs : list R)
    (t_peaks_first t_peaks_last t_troughs_first t_troughs_last : R) :
  interp_extrema self "maxima" = Ok peaks ->
  interp_extrema self "minima" = Ok troughs ->
  take (t self) (snd peaks) = Ok t_peaks ->
  take (t self) (snd troughs) = Ok t_troughs ->
  first_item t_peaks = Ok t_peaks_first ->
  last_item t_peaks = Ok t_peaks_last ->
  first_item t_troughs = Ok t_troughs_first ->
  last_item t_troughs = Ok t_troughs_last ->
  length (phase22 self) = length (t self) ->
  (exists m, measure_ecc self (Some (Float x)) None = Ok m)
  <-> Rmax t_peaks_first t_troughs_first <= x < Rmin t_peaks_last t_troughs_last.
Proof.
  clear_unused_variables.
  intros Hpk Htr Htp Htt Hpf Hpl Htf Htl Hlen.
  destruct peaks as (pki, pl). destruct troughs as (tri, tl). cbn [snd] in *.
  split.
  - intros (m & H). apply measure_ecc_Ok_inv in H.
    destruct H as (tp & tt & tpl' & ttl' & tpf' & ttf' & tref_in1 & fo & ma
                   & Hpk' & Htr' & Htp' & Htt' & Hpl' & Htl' & Hpf' & Htf'
                   & Hmax & Hmin & Href & Hout & Hne & _).
    rewrite Hpk in Hpk'. injection Hpk' as Hi1 Hl1. rewrite <- Hl1 in Htp'.
    rewrite Htr in Htr'. injection Htr' as Hi2 Hl2. rewrite <- Hl2 in Htt'.
    assert (tp = t_peaks) by congruence. assert (tt = t_troughs) by congruence.
    subst tp tt.
    assert (tpl' = t_peaks_last) by congruence.
    assert (ttl' = t_troughs_last) by congruence.
    assert (tpf' = t_peaks_first) by congruence.
    assert (ttf' = t_troughs_first) by congruence.
    subst tpl' ttl' tpf' ttf'.
    apply reference_input_tref in Href. destruct Href as (_ & -> & _).
    destruct (values (tref_out m)) as [|y rest] eqn:Hv; [congruence |].
    assert (Hin : In y (boolean_index (in_window (t_min m) (t_max m))
                          (np_atleast_1d (Float x))))
      by (rewrite <- Hout; now left).
    apply filter_In in Hin. destruct Hin as ([<- | []] & Hw).
    apply in_window_iff in Hw. rewrite Hmin, Hmax in Hw. exact Hw.
  - intros Hx.
    assert (Hw : in_window (Rmax t_peaks_first t_troughs_first)
                   (Rmin t_peaks_last t_troughs_last) x = true)
      by (apply in_window_iff; exact Hx).
    destruct (check_extrema_separation_returns self pl _ Htp Hlen) as ((dp, rp) & Hsp).
    destruct (check_extrema_separation_returns self tl _ Htt Hlen) as ((dt, rt) & Hst).
    pose proof (in_window_between_peaks _ _ _ _ _ Hw) as Hbetween.
    assert (Hlo : Rltb x t_peaks_first = false) by (apply Rltb_false_iff; lra).
    assert (Hhi : Rleb t_peaks_last x = false) by (apply Rleb_false_iff; lra).
    destruct (last_peak_lookup t_peaks _ _ x Hpf Hpl Hbetween)
      as (idx & ta & tb & Hidx & _ & H0 & H1 & _).
    pose proof (compute_mean_ano_lookup _ _ idx _ _ Hidx H0 H1) as Hcomp.
    eexists. unfold measure_ecc. rewrite Hpk, Htr. cbn [bind].
    rewrite Htp, Htt. cbn [bind]. rewrite Hpl, Htl. cbn [bind].
    rewrite Hpf, Htf. cbn [bind].
    unfold reference_input.
    cbn [is_not_None Nat.add Nat.eqb negb bind np_atleast_1d boolean_index filter].
    rewrite Hw. cbn [length Nat.eqb bind]. rewrite Hsp, Hst. cbn [bind].
    unfold first_item, getitem. cbn [nth_error bind]. rewrite Hlo.
    cbn [last_item last bind]. rewrite Hhi.
    cbn [vectorize mapM bind]. rewrite Hcomp. cbn [bind]. reflexivity.
Qed.

(** ** The orbital phase differences kept by measure_ecc *)

Lemma measure_ecc_Ok_separation (self : eccDefinition)
    (tref_in fref_in : option float_or_array) (m : measurement) :
  measure_ecc self tref_in fref_in = Ok m ->
  check_extrema_separation self (peaks_location m)
  = Ok (orb_phase_diff_at_peaks m, orb_phase_diff_ratio_at_peaks m)
  /\ check_extrema_separation self (troughs_location m)
     = Ok (orb_phase_diff_at_troughs m, orb_phase_diff_ratio_at_troughs m).
Proof.
  clear_unused_variables.
  unfold measure_ecc. intros H.
  bind_inv H. destruct a as (peaks_interp, peaks_loc).
  bind_inv H. destruct a as (troughs_interp, troughs_loc).
  bind_inv H. bind_inv H. bind_inv H. bind_inv H. bind_inv H. bind_inv H.
  bind_inv H. destruct a5 as (tref_in1, fref_out1).
  bind_inv H. destruct a5.
  bind_inv H. destruct a5.
  bind_inv H. destruct a5 as (diff_peaks, ratio_peaks).
  bind_inv H. destruct a5 as (diff_troughs, ratio_troughs).
  bind_inv H.
  destruct (Rltb a5 a3); [discriminate |].
  bind_inv H.
  destruct (Rleb a1 a6); [discriminate |].
  bind_inv H. bind_inv H.
  injection H as <-. cbn. auto.
Qed.

Lemma check_extrema_separation_lengths (self : eccDefinition) (loc : list nat)
    (orb_phase_diff ratio : list R) :
  check_extrema_separation self loc = Ok (orb_phase_diff, ratio) ->
  length orb_phase_diff = (length loc - 1)%nat
  /\ ((2 <= length loc)%nat -> length ratio = length orb_phase_diff)
  /\ nth_error ratio 0 = Some 0.
Proof.
  clear_unused_variables.
  unfold check_extrema_separation. intros H. bind_inv H. rename a into ph.
  bind_inv H. injection H as <- <-.
  apply take_Ok_length in E.
  assert (Hd : length (np_diff (map (fun p => p / 2) ph)) = (length loc - 1)%nat)
    by (rewrite np_diff_length, length_map; congruence).
  split; [exact Hd |]. split; [| reflexivity].
  intros Hlen. cbn [length]. rewrite zip_with_length_same.
  - rewrite tl_length. lia.
  - rewrite tl_length, removelast_firstn_len, length_firstn. lia.
Qed.

Lemma take_tl {A : Type} (a : list A) (idx : list nat) (l : list A) :
  take a idx = Ok l -> take a (tl idx) = Ok (tl l).
Proof.
  unfold take. destruct idx as [|i idx]; simpl; intros H.
  - injection H as <-. reflexivity.
  - bind_inv H. bind_inv H. injection H as <-. exact E0.
Qed.

(** X26: after a returning [measure_ecc] the arrays of orbital phase
    differences have one entry per pair of successive extrema, the ratio
    arrays have the same length and start with the prepended 0, and the
    curves of [plot_phase_diff_ratio_between_peaks] can be drawn: their x
    and y arrays exist and have equal lengths. *)
Theorem measure_ecc_phase_diff_arrays (self : eccDefinition)
    (tref_in fref_in : option float_or_array) (m : measurement) :
  measure_ecc self tref_in fref_in = Ok m ->
  length (orb_phase_diff_at_peaks m) = (length (peaks_location m) - 1)%nat
  /\ length (orb_phase_diff_ratio_at_peaks m) = length (orb_phase_diff_at_peaks m)
  /\ nth_error (orb_phase_diff_ratio_at_peaks m) 0 = Some 0
  /\ length (orb_phase_diff_at_troughs m) = (length (troughs_location m) - 1)%nat
  /\ length (orb_phase_diff_ratio_at_troughs m) = length (orb_phase_diff_at_troughs m)
  /\ nth_error (orb_phase_diff_ratio_at_troughs m) 0 = Some 0
  /\ exists peaks_x peaks_y troughs_x troughs_y,
       plot_phase_diff_ratio_between_peaks self m
       = Ok ((peaks_x, peaks_y), (troughs_x, troughs_y))
       /\ length peaks_x = length peaks_y
       /\ length troughs_x = length troughs_y.
Proof.
  clear_unused_variables.
  intros H. destruct (measure_ecc_Ok_separation _ _ _ _ H) as (Hsp & Hst).
  apply measure_ecc_Ok_inv in H.
  destruct H as (t_peaks & t_troughs & tpl & ttl & tpf & ttf & tref_in1 & fo & ma
                 & Hpk & Htr & Htp & Htt & _).
  destruct (interp_extrema_Ok_inv _ _ _ _ Hpk) as (_ & _ & _ & Hlp & _).
  destruct (interp_extrema_Ok_inv _ _ _ _ Htr) as (_ & _ & _ & Hlt & _).
  destruct (check_extrema_separation_lengths _ _ _ _ Hsp) as (Hdp & Hrp & H0p).
  destruct (check_extrema_separation_lengths _ _ _ _ Hst) as (Hdt & Hrt & H0t).
  specialize (Hrp Hlp). specialize (Hrt Hlt).
  repeat (split; [assumption |]).
  unfold plot_phase_diff_ratio_between_peaks.
  rewrite (take_tl _ _ _ Htp). cbn [bind]. rewrite (take_tl _ _ _ Htt). cbn [bind].
  eexists _, _, _, _. split; [reflexivity |].
  apply take_Ok_length in Htp, Htt. rewrite !tl_length. lia.
Qed.

(** ** load_data.get_zeroecc_dataDict_for_lvcnr: the truncation *)

(** X27: the quasicircular data are cut ten samples before the sample
    nearest to the start of the NR waveform when there are ten samples
    before it.  When the nearest sample is one of the first ten, the start
    position is negative and counts from the end: only the last
    [10 - nearest] samples are returned, and for data of more than ten
    samples they do not contain the nearest sample. *)
Theorem truncate_zeroecc_start (t_zeroecc : list R) (hlm_zeroecc : modeDict)
    (nr_t : list R) (t_out : list R) (hlm_out : modeDict) :
  truncate_zeroecc t_zeroecc hlm_zeroecc nr_t = Ok (t_out, hlm_out) ->
  exists nr_t_first nearest,
    first_item nr_t = Ok nr_t_first
    /\ np_argmin (map (fun x => Rabs (x - nr_t_first)) t_zeroecc) = Ok nearest
    /\ (nearest < length t_zeroecc)%nat
    /\ ((10 <= nearest)%nat ->
        t_out = skipn (nearest - 10) t_zeroecc
        /\ nth_error t_out 10 = nth_error t_zeroecc nearest)
    /\ ((nearest < 10)%nat ->
        t_out = skipn (length t_zeroecc - (10 - nearest)) t_zeroecc
        /\ ((10 < length t_zeroecc)%nat ->
            length t_out = (10 - nearest)%nat
            /\ (nearest < length t_zeroecc - length t_out)%nat)).
Proof.
  clear_unused_variables.
  unfold truncate_zeroecc. intros H. bind_inv H. rename a into t0.
  bind_inv H. rename a into nearest. injection H as <- <-.
  pose proof (np_argmin_lt_length _ _ E0) as Hlt. rewrite length_map in Hlt.
  exists t0, nearest. split; [exact E |]. split; [exact E0 |].
  split; [exact Hlt |]. unfold slice_from. split.
  - intros Hge.
    assert (Hneg : (Z.of_nat nearest - 10 <? 0)%Z = false) by (apply Z.ltb_ge; lia).
    rewrite Hneg.
    replace (Z.to_nat (Z.of_nat nearest - 10)) with (nearest - 10)%nat by lia.
    split; [reflexivity |].
    rewrite nth_error_skipn. f_equal. lia.
  - intros Hsmall.
    assert (Hneg : (Z.of_nat nearest - 10 <? 0)%Z = true) by (apply Z.ltb_lt; lia).
    rewrite Hneg.
    replace (Z.to_nat (- (Z.of_nat nearest - 10))) with (10 - nearest)%nat by lia.
    split; [reflexivity |].
    intros Hlong. rewrite length_skipn. lia.
Qed.

End EccDefinition.

(** * load_data: which files load_waveform can load *)

Section LoadDataProperties.

Variable loaded_data : Type.
Variable load_LAL_waveform : kwargs_t -> load_result loaded_data.
Variable load_lvcnr_waveform : kwargs_t -> load_result loaded_data.
Variable load_EMRI_waveform : kwargs_t -> load_result loaded_data.
Variable load_EOB_EccTest_file : kwargs_t -> load_result loaded_data.
Variable load_h22_from_EOBfile : py_value -> load_result loaded_data.

Lemma check_allowed_kwargs_Loaded (kwargs : kwargs_t) :
  check_allowed_kwargs kwargs = Loaded tt
  <-> Forall (fun kv => In (fst kv) allowed_kwargs) kwargs.
Proof.
  induction kwargs as [|(kw, v) rest IH]; cbn [check_allowed_kwargs].
  - split; [constructor | reflexivity].
  - destruct (existsb (String.eqb kw) allowed_kwargs) eqn:Hex.
    + apply existsb_exists in Hex. destruct Hex as (a & Ha & Heq).
      apply String.eqb_eq in Heq. subst a.
      rewrite IH. split; intros H.
      * constructor; assumption.
      * inversion H. assumption.
    + split; [discriminate |]. intros H. inversion H as [|x l Hx Hl]; subst.
      cbn [fst] in Hx.
      assert (Htrue : existsb (String.eqb kw) allowed_kwargs = true).
      { apply existsb_exists. exists kw. split; [exact Hx | apply String.eqb_refl]. }
      congruence.
Qed.

Lemma check_allowed_kwargs_first_invalid (before after : kwargs_t)
    (kw : string) (v : py_value) :
  Forall (fun kv => In (fst kv) allowed_kwargs) before ->
  ~ In kw allowed_kwargs ->
  check_allowed_kwargs (before ++ (kw, v) :: after)
  = LoadError (KeyError_invalid_keyword kw).
Proof.
  intros Hbefore Hkw.
  induction Hbefore as [|(kw0, v0) rest Hx _ IH]; cbn [app check_allowed_kwargs].
  - destruct (existsb (String.eqb kw) allowed_kwargs) eqn:Hex; [| reflexivity].
    exfalso. apply Hkw. apply existsb_exists in Hex. destruct Hex as (a & Ha & Heq).
    apply String.eqb_eq in Heq. subst a. exact Ha.
  - cbn [fst] in Hx.
    assert (Htrue : existsb (String.eqb kw0) allowed_kwargs = true).
    { apply existsb_exists. exists kw0. split; [exact Hx | apply String.eqb_refl]. }
    rewrite Htrue. exact IH.
Qed.

(** X23: [load_waveform] with origin "EOB" refuses keyword arguments
    outside [filepath], [filepath_zero_ecc] and [include_zero_ecc]: it
    raises the KeyError naming the first such keyword, before the file
    path is looked at. *)
Theorem load_waveform_EOB_invalid_keyword (before after : kwargs_t)
    (kw : string) (v : py_value) :
  Forall (fun kv => In (fst kv) allowed_kwargs) before ->
  ~ In kw allowed_kwargs ->
  load_waveform loaded_data load_LAL_waveform load_lvcnr_waveform load_EMRI_waveform
    load_EOB_EccTest_file load_h22_from_EOBfile "EOB" (before ++ (kw, v) :: after)
  = LoadError (KeyError_invalid_keyword kw).
Proof.
  intros Hbefore Hkw. unfold load_waveform.
  change (String.eqb "EOB" "LAL") with false.
  change (String.eqb "EOB" "LVCNR") with false.
  change (String.eqb "EOB" "EOB") with true. cbn iota.
  unfold load_EOB_waveform.
  rewrite (check_allowed_kwargs_first_invalid before after kw v Hbefore Hkw).
  reflexivity.
Qed.

Lemma find_not_EOB_file (kwargs : kwargs_t) :
  kwargs <> [] ->
  Forall (fun kv => In (fst kv) allowed_kwargs) kwargs ->
  exists kw v, find (fun kv => negb (String.eqb (fst kv) "EOB_file")) kwargs
               = Some (kw, v)
               /\ In kw allowed_kwargs.
Proof.
  intros Hne Hall. destruct kwargs as [|(kw, v) rest]; [congruence |].
  inversion Hall as [|x l Hx Hl]; subst. cbn [fst] in Hx.
  exists kw, v. split; [| exact Hx]. simpl.
  destruct Hx as [<- | [<- | [<- | []]]]; reflexivity.
Qed.

Lemma kwargs_get_nonempty (kwargs : kwargs_t) (key : string) (v : py_value) :
  kwargs_get kwargs key = Some v -> kwargs <> [].
Proof. destruct kwargs; [discriminate | discriminate]. Qed.

(** X24: [load_waveform] with origin "EOB" returns data only for a file
    path that contains "EccTest", and then what [load_EOB_EccTest_file]
    returns.  A file path that contains "Case" and not "EccTest" is never
    loaded: after the keywords have passed the check, the call of
    [load_h22_from_EOBfile] with them is refused with a TypeError, because
    that function's parameter is called [EOB_file] and a keyword accepted
    by the check never is. *)
Theorem load_waveform_EOB_loads_only_EccTest (kwargs : kwargs_t) :
  (forall d,
     load_waveform loaded_data load_LAL_waveform load_lvcnr_waveform
       load_EMRI_waveform load_EOB_EccTest_file load_h22_from_EOBfile "EOB" kwargs
     = Loaded d ->
     exists filepath,
       kwargs_get kwargs "filepath" = Some (PyStr filepath)
       /\ contains "EccTest" filepath = true
       /\ Forall (fun kv => In (fst kv) allowed_kwargs) kwargs
       /\ load_EOB_EccTest_file kwargs = Loaded d)
  /\ (forall filepath,
        kwargs_get kwargs "filepath" = Some (PyStr filepath) ->
        contains "EccTest" filepath = false ->
        contains "Case" filepath = true ->
        Forall (fun kv => In (fst kv) allowed_kwargs) kwargs ->
        exists kw,
          In kw allowed_kwargs
          /\ load_waveform loaded_data load_LAL_waveform load_lvcnr_waveform
               load_EMRI_waveform load_EOB_EccTest_file load_h22_from_EOBfile
               "EOB" kwargs
             = LoadError (TypeError_unexpected_keyword kw)).
Proof.
  unfold load_waveform.
  change (String.eqb "EOB" "LAL") with false.
  change (String.eqb "EOB" "LVCNR") with false.
  change (String.eqb "EOB" "EOB") with true. cbn iota.
  unfold load_EOB_waveform. split.
  - intros d H.
    destruct (check_allowed_kwargs kwargs) as [[]|] eqn:Hcheck; [| discriminate].
    apply check_allowed_kwargs_Loaded in Hcheck.
    destruct (kwargs_get kwargs "filepath") as [[|filepath|b]|] eqn:Hget;
      try discriminate.
    exists filepath.
    destruct (contains "EccTest" filepath) eqn:Hecc; [auto |].
    exfalso. destruct (contains "Case" filepath); [| discriminate].
    unfold call_load_h22_from_EOBfile in H.
    destruct (find_not_EOB_file kwargs (kwargs_get_nonempty _ _ _ Hget) Hcheck)
      as (kw & v & Hfind & _).
    rewrite Hfind in H. discriminate.
  - intros filepath Hget Hecc Hcase Hall.
    rewrite (proj2 (check_allowed_kwargs_Loaded kwargs) Hall), Hget, Hecc, Hcase.
    unfold call_load_h22_from_EOBfile.
    destruct (find_not_EOB_file kwargs (kwargs_get_nonempty _ _ _ Hget) Hall)
      as (kw & v & Hfind & Hkw).
    rewrite Hfind. exists kw. split; [exact Hkw | reflexivity].
Qed.

End LoadDataProperties.

(** * The properties on the example waveforms *)

(** Decides the comparisons of concrete reals left in a goal. *)
Ltac Rcompare :=
  repeat match goal with
    | |- context [Rmax ?a ?b] =>
        first [ rewrite (Rmax_left a b) by lra | rewrite (Rmax_right a b) by lra ]
    | |- context [Rmin ?a ?b] =>
        first [ rewrite (Rmin_left a b) by lra | rewrite (Rmin_right a b) by lra ]
    | |- context [Rabs ?a] =>
        first [ rewrite (Rabs_pos_eq a) by lra | rewrite (Rabs_left1 a) by lra ]
    | |- context [Rltb ?a ?b] =>
        first [ rewrite (proj2 (Rltb_true_iff a b)) by lra
              | rewrite (proj2 (Rltb_false_iff a b)) by lra ]
    | |- context [Rleb ?a ?b] =>
        first [ rewrite (proj2 (Rleb_true_iff a b)) by lra
              | rewrite (proj2 (Rleb_false_iff a b)) by lra ]
    end.

(** Runs a method of the embedding on concrete data: unfolds the methods
    and the list operations, leaving the real arithmetic untouched, and
    decides the comparisons as they appear. *)
Ltac run :=
  repeat (progress
    (cbv [measure_ecc interp_extrema trimmed_extrema idx_num_orbit_earlier_than_merger
          reference_input check_extrema_separation compute_mean_ano vectorize
          check_extrema_separation_warnings py_min py_max fold_left
          compute_orbital_averaged_omega22_at_extrema midpoints
          orbital_averaged_omega22_at_extrema get_fref_out
          compute_tref_in_and_fref_out_from_fref_in
          init get_peak_via_quadratic_fit compute_res_amp_and_omega22
          get_default_extra_kwargs get_default_spline_kwargs
          construct_spline check_monotonicity_and_convexity
          example_spline_raises example_spline_kwargs scipy_spline_defaults
          threshold_self first_position_reaching hd_error
          k Nat.ltb
          example_find_extrema example_self example_spline example_spline_raises
              example_arange
          example_interp example_angle example_unwrap example_gradient
          example_tref_in example_measurement trimming_self trimming_find_extrema
          two_mode_dataDict zeroecc_dataDict frequencies_in_range
          with_averaging_method compute_omega22_average_between_extrema
          reomve_junk_from_nr_data junk_modes_dict junk_angle skipn
          long_t_zeroecc
          compute_omega22_zeroecc
          bind mapM take getitem first_item last_item boolean_index in_window
          np_where np_where_from np_argmin argmin_from np_argmax argmax_from
          np_diff any_nonpositive zip_with np_argsort sort_keys insert_key enumerate
          np_atleast_1d squeeze_if_single values is_not_None mode_lookup
          t h22 amp22 phase22 omega22 zeroecc spline_kwargs extra_kwargs
          num_orbits_to_exclude_before_merger debug omega22_averaging_method
          dd_t dd_hlm dd_t_zeroecc dd_hlm_zeroecc
          nth_error map filter length last hd tl removelast app seq combine existsb
          fst snd negb andb orb Nat.leb Nat.eqb Nat.add Nat.sub
          String.eqb Ascii.eqb Bool.eqb Z.eqb Pos.eqb];
     Rcompare)).

Lemma np_abs_real (x : R) : 0 <= x -> np_abs (x, 0) = x.
Proof.
  intros Hx. unfold np_abs. cbn [fst snd].
  replace (x * x + 0 * 0) with (x * x) by ring. apply sqrt_square. exact Hx.
Qed.

Lemma sqrt_of_square (x y : R) : 0 <= y -> x = y * y -> sqrt x = y.
Proof. intros Hy ->. apply sqrt_square. exact Hy. Qed.

(** ** measure_ecc on the seven-sample waveform *)

Lemma example_measure_ecc :
  measure_ecc example_spline example_spline_raises
      example_arange example_interp example_find_extrema
    example_self (Some example_tref_in) None
  = Ok example_measurement.
Proof. run. reflexivity. Qed.

Lemma example_interp_extrema_maxima :
  interp_extrema example_spline example_spline_raises
      example_find_extrema example_self "maxima"
  = Ok (example_spline [-6; -4; -2] [4; 5; 6] example_spline_kwargs,
        [0; 2; 4]%nat).
Proof. run. reflexivity. Qed.

Lemma example_interp_extrema_minima :
  interp_extrema example_spline example_spline_raises
      example_find_extrema example_self "minima"
  = Ok (example_spline [-5; -3; -1] [1; 2; 3] example_spline_kwargs,
        [1; 3; 5]%nat).
Proof. run. reflexivity. Qed.

Lemma example_t_increasing : StronglySorted Rlt (t example_self).
Proof. cbv [example_self t]. repeat constructor; lra. Qed.

Lemma example_maxima_increasing :
  StronglySorted lt (example_find_extrema example_self "maxima").
Proof. cbv. repeat constructor. Qed.

Lemma not_exactly_one_both (x y : float_or_array) :
  ~ exactly_one_given (Some x) (Some y).
Proof. intros [(_ & H) | (H & _)]; discriminate. Qed.

Lemma exactly_one_tref (x : float_or_array) : exactly_one_given (Some x) None.
Proof. left. split; [discriminate | reflexivity]. Qed.

(** C3 on the example: the four retained reference times and their
    eccentricities. *)
Lemma measure_ecc_eccentricity_example :
  measure_ecc example_spline example_spline_raises
      example_arange example_interp example_find_extrema
    example_self (Some example_tref_in) None = Ok example_measurement
  /\ Forall2
       (fun tref ecc =>
          ecc = (sqrt (omega22_peaks_interp example_measurement tref)
                 - sqrt (omega22_troughs_interp example_measurement tref))
                / (sqrt (omega22_peaks_interp example_measurement tref)
                   + sqrt (omega22_troughs_interp example_measurement tref)))
       (values (tref_out example_measurement))
       (values (ecc_ref example_measurement)).
Proof.
  split; [exact example_measure_ecc |].
  exact (proj2 (proj2 (proj2
    (measure_ecc_eccentricity example_spline example_spline_raises
          example_arange example_interp
       example_find_extrema example_self (Some example_tref_in) None
       example_measurement example_measure_ecc)))).
Defined.

(** C4 on the example. *)
Lemma measure_ecc_mean_anomaly_example :
  StronglySorted Rlt (t example_self)
  /\ StronglySorted lt (example_find_extrema example_self "maxima")
  /\ measure_ecc example_spline example_spline_raises
      example_arange example_interp example_find_extrema
       example_self (Some example_tref_in) None = Ok example_measurement
  /\ exists t_peaks,
       take (t example_self) (peaks_location example_measurement) = Ok t_peaks
       /\ snd (returned example_measurement) = mean_ano_ref example_measurement
       /\ Forall2
            (fun tref mean_ano =>
               mean_anomaly_between_periastrons t_peaks tref mean_ano
               /\ 0 <= mean_ano < 2 * PI
               /\ (mean_ano = 0 <-> In tref t_peaks))
            (values (tref_out example_measurement))
            (values (mean_ano_ref example_measurement)).
Proof.
  split; [exact example_t_increasing |].
  split; [exact example_maxima_increasing |].
  split; [exact example_measure_ecc |].
  exact (measure_ecc_mean_anomaly example_spline example_spline_raises
        example_arange example_interp
           example_find_extrema example_self (Some example_tref_in) None
           example_measurement example_t_increasing example_maxima_increasing
           example_measure_ecc).
Defined.

(** C5 on the example, where both interpolants exist: both inputs given,
    and only [tref_in] given. *)
Lemma measure_ecc_input_check_example :
  interp_extrema example_spline example_spline_raises example_find_extrema
    example_self "maxima"
  = Ok (example_spline [-6; -4; -2] [4; 5; 6] example_spline_kwargs, [0; 2; 4]%nat)
  /\ interp_extrema example_spline example_spline_raises example_find_extrema
       example_self "minima"
     = Ok (example_spline [-5; -3; -1] [1; 2; 3] example_spline_kwargs,
           [1; 3; 5]%nat)
  /\ ~ exactly_one_given (Some example_tref_in) (Some (Float 1))
  /\ measure_ecc example_spline example_spline_raises example_arange
       example_interp example_find_extrema
       example_self (Some example_tref_in) (Some (Float 1))
     = Raise KeyError_exactly_one
  /\ exactly_one_given (Some example_tref_in) None
  /\ measure_ecc example_spline example_spline_raises example_arange
       example_interp example_find_extrema
       example_self (Some example_tref_in) None
     <> Raise KeyError_exactly_one.
Proof.
  split; [exact example_interp_extrema_maxima |].
  split; [exact example_interp_extrema_minima |].
  split; [apply not_exactly_one_both |].
  split.
  - exact (proj2 (proj1 (proj2 (proj2
      (measure_ecc_input_check example_spline example_spline_raises example_arange
         example_interp example_find_extrema example_self
         (Some example_tref_in) (Some (Float 1)))))
      _ _ example_interp_extrema_maxima example_interp_extrema_minima)
      (not_exactly_one_both _ _)).
  - split; [apply exactly_one_tref |].
    exact (proj1 (proj1 (proj2 (proj2 (proj2 (proj2
      (measure_ecc_input_check example_spline example_spline_raises example_arange
         example_interp example_find_extrema example_self
         (Some example_tref_in) None)))))
      (exactly_one_tref _))).
Defined.

(** The claim C5 read literally does not hold: with an extrema finder that
    reports a single periastron, the call with both inputs and the call
    with neither raise "Sufficient number of maxima are not found.", the
    exception that the call with one input raises as well; the ambiguity
    of the inputs is not what is reported. *)
Lemma ambiguous_inputs_are_not_reported :
  ~ exactly_one_given (Some example_tref_in) (Some (Float 1))
  /\ ~ exactly_one_given None None
  /\ measure_ecc example_spline example_spline_raises example_arange
       example_interp (fun _ _ => [3]%nat)
       example_self (Some example_tref_in) (Some (Float 1))
     = Raise (Exception_insufficient_extrema "maxima")
  /\ measure_ecc example_spline example_spline_raises example_arange
       example_interp (fun _ _ => [3]%nat) example_self None None
     = Raise (Exception_insufficient_extrema "maxima")
  /\ measure_ecc example_spline example_spline_raises example_arange
       example_interp (fun _ _ => [3]%nat)
       example_self (Some example_tref_in) None
     = Raise (Exception_insufficient_extrema "maxima").
Proof.
  split; [apply not_exactly_one_both |].
  split; [intros [(H & _) | (_ & H)]; apply H; reflexivity |].
  split; [run; reflexivity |]. split; run; reflexivity.
Qed.

(** C6 on the example: of the six given times, those in [-5, -2) are
    retained; -2, equal to [t_max], is not. *)
Lemma measure_ecc_tref_out_example :
  measure_ecc example_spline example_spline_raises
      example_arange example_interp example_find_extrema
    example_self (Some example_tref_in) None = Ok example_measurement
  /\ exists tref_in1,
       tref_in1 = np_atleast_1d example_tref_in
       /\ values (tref_out example_measurement)
          = filter (fun x => Rltb x (t_max example_measurement)
                             && Rleb (t_min example_measurement) x) tref_in1
       /\ ~ In (t_max example_measurement) (values (tref_out example_measurement)).
Proof.
  split; [exact example_measure_ecc |].
  destruct (measure_ecc_tref_out example_spline example_spline_raises
        example_arange example_interp
              example_find_extrema example_self (Some example_tref_in) None
              example_measurement example_measure_ecc)
    as (t_peaks & t_troughs & tpf & tpl & ttf & ttl & tref_in1 & fo
        & _ & _ & _ & _ & _ & _ & _ & _ & _ & _ & _ & Hin & Hout & _ & Hmax).
  exists tref_in1. split; [exact (Hin _ eq_refl) |]. split; assumption.
Defined.




(** C8 on the example: the periastron averages 3/2, 5/2 and the apastron
    averages 2, 3 are increasing, and the method returns. *)
Lemma example_orbit_averages_peaks :
  StronglySorted Rlt (orbit_averages [-6; -4; -2] [0; 3; 8]).
Proof.
  cbv [orbit_averages].
  replace ((3 - 0) / (-4 - -6)) with (3 / 2) by field.
  replace ((8 - 3) / (-2 - -4)) with (5 / 2) by field.
  repeat constructor; lra.
Qed.

Lemma example_orbit_averages_troughs :
  StronglySorted Rlt (orbit_averages [-5; -3; -1] [1; 5; 11]).
Proof.
  cbv [orbit_averages].
  replace ((5 - 1) / (-3 - -5)) with 2 by field.
  replace ((11 - 5) / (-1 - -3)) with 3 by field.
  repeat constructor; lra.
Qed.

Lemma orbital_average_at_extrema_example :
  (2 <= length [0; 2; 4]%nat)%nat
  /\ (2 <= length [1; 3; 5]%nat)%nat
  /\ take (t example_self) [0; 2; 4]%nat = Ok [-6; -4; -2]
  /\ take (phase22 example_self) [0; 2; 4]%nat = Ok [0; 3; 8]
  /\ take (t example_self) [1; 3; 5]%nat = Ok [-5; -3; -1]
  /\ take (phase22 example_self) [1; 3; 5]%nat = Ok [1; 5; 11]
  /\ StronglySorted Rlt (orbit_averages [-6; -4; -2] [0; 3; 8])
  /\ StronglySorted Rlt (orbit_averages [-5; -3; -1] [1; 5; 11])
  /\ exists t_average omega22_average,
       compute_orbital_averaged_omega22_at_extrema example_self
         [0; 2; 4]%nat [1; 3; 5]%nat
       = Ok (t_average, omega22_average)
       /\ length t_average = length omega22_average
       /\ StronglySorted Rle t_average
       /\ Permutation
            (combine t_average omega22_average)
            (combine (pair_midpoints [-5; -3; -1] ++ pair_midpoints [-6; -4; -2])
                     (orbit_averages [-5; -3; -1] [1; 5; 11]
                      ++ orbit_averages [-6; -4; -2] [0; 3; 8])).
Proof.
  assert (Hlp : (2 <= length [0; 2; 4]%nat)%nat) by (simpl; lia).
  assert (Hlt : (2 <= length [1; 3; 5]%nat)%nat) by (simpl; lia).
  assert (Htp : take (t example_self) [0; 2; 4]%nat = Ok [-6; -4; -2]) by reflexivity.
  assert (Hpp : take (phase22 example_self) [0; 2; 4]%nat = Ok [0; 3; 8])
    by reflexivity.
  assert (Htt : take (t example_self) [1; 3; 5]%nat = Ok [-5; -3; -1]) by reflexivity.
  assert (Hpt : take (phase22 example_self) [1; 3; 5]%nat = Ok [1; 5; 11])
    by reflexivity.
  repeat (split; [assumption |]).
  split; [exact example_orbit_averages_peaks |].
  split; [exact example_orbit_averages_troughs |].
  exact (proj2 (proj2
    (orbital_average_at_extrema_spec example_self [0; 2; 4]%nat [1; 3; 5]%nat
       _ _ _ _ Hlp Hlt Htp Hpp Htt Hpt))
    example_orbit_averages_peaks example_orbit_averages_troughs).
Defined.

(** ** get_fref_out on a curve from 0 to 1 *)

Lemma inv_two_pi_bounds : 0 < 1 / (2 * PI) < 1.
Proof.
  assert (H2 := PI2_1). assert (Hpi : 2 < PI) by lra.
  assert (Hinv : 0 < / (2 * PI)) by (apply Rinv_0_lt_compat; lra).
  split; [lra |].
  apply (Rmult_lt_reg_r (2 * PI)); [lra |].
  unfold Rdiv. rewrite Rmult_assoc, Rinv_l by lra. lra.
Qed.

Lemma example_frequencies_kept :
  frequencies_in_range (0 / (2 * PI)) (1 / (2 * PI)) [0; 1] = [0].
Proof.
  assert (H := inv_two_pi_bounds).
  assert (H0 : 0 / (2 * PI) = 0) by (unfold Rdiv; ring).
  rewrite H0. run. reflexivity.
Qed.

Lemma example_frequencies_none :
  frequencies_in_range (0 / (2 * PI)) (1 / (2 * PI)) [5] = [].
Proof.
  assert (H := inv_two_pi_bounds).
  assert (H0 : 0 / (2 * PI) = 0) by (unfold Rdiv; ring).
  rewrite H0. run. reflexivity.
Qed.

(** C9 on the example: the curve [0; 1] gives fmin = 0 and fmax = 1/(2*pi);
    of the frequencies 0 and 1 the first is retained, and the single
    frequency 5 is refused as later than the maximum. *)
Lemma get_fref_out_example :
  first_item [0; 1] = Ok 0
  /\ last_item [0; 1] = Ok 1
  /\ frequencies_in_range (0 / (2 * PI)) (1 / (2 * PI)) [0; 1] <> []
  /\ get_fref_out [0; 1] [0; 1]
     = Ok (frequencies_in_range (0 / (2 * PI)) (1 / (2 * PI)) [0; 1])
  /\ frequencies_in_range (0 / (2 * PI)) (1 / (2 * PI)) [5] = []
  /\ [5] <> []
  /\ exists f_first f_last,
       first_item [5] = Ok f_first /\ last_item [5] = Ok f_last
       /\ ((get_fref_out [0; 1] [5] = Raise Exception_fref_in_earlier_than_minimum
            /\ f_first < 0 / (2 * PI))
           \/ (get_fref_out [0; 1] [5] = Raise Exception_fref_in_later_than_maximum
               /\ 1 / (2 * PI) < f_last)
           \/ (get_fref_out [0; 1] [5] = Raise Exception_fref_out_empty
               /\ 0 / (2 * PI) <= f_first /\ f_last <= 1 / (2 * PI))).
Proof.
  assert (Hf : first_item [0; 1] = Ok 0) by reflexivity.
  assert (Hl : last_item [0; 1] = Ok 1) by reflexivity.
  assert (Hkept : frequencies_in_range (0 / (2 * PI)) (1 / (2 * PI)) [0; 1] <> [])
    by (rewrite example_frequencies_kept; discriminate).
  assert (Hne : [5] <> []) by discriminate.
  split; [exact Hf |]. split; [exact Hl |]. split; [exact Hkept |].
  split.
  - exact (proj1 (proj2 (get_fref_out_spec [0; 1] [0; 1] 0 1 Hf Hl)) Hkept).
  - split; [exact example_frequencies_none |]. split; [exact Hne |].
    exact (proj2 (proj2 (get_fref_out_spec [0; 1] [5] 0 1 Hf Hl))
             example_frequencies_none Hne).
Defined.

(** C10 on the example: the reference time -5 lies in the window, and its
    two periastron lookups are positions 0 and 1. *)
Lemma example_time_in_window :
  In (-5) (boolean_index (in_window (Rmax (-6) (-5)) (Rmin (-2) (-1))) [-5; 0]).
Proof. run. left. reflexivity. Qed.

Lemma bracketing_failure_unreachable_example :
  first_item [-6; -4; -2] = Ok (-6)
  /\ last_item [-6; -4; -2] = Ok (-2)
  /\ In (-5) (boolean_index (in_window (Rmax (-6) (-5)) (Rmin (-2) (-1))) [-5; 0])
  /\ -6 <= -5 < -2
  /\ exists idx t_at_last_peak t_at_next_peak,
       last_item (np_where (fun p => Rleb p (-5)) [-6; -4; -2]) = Ok idx
       /\ (idx + 1 < length [-6; -4; -2]%R)%nat
       /\ getitem [-6; -4; -2] idx = Ok t_at_last_peak
       /\ getitem [-6; -4; -2] (idx + 1) = Ok t_at_next_peak
       /\ compute_mean_ano [-6; -4; -2] (-5)
          = Ok (2 * PI * (-5 - t_at_last_peak) / (t_at_next_peak - t_at_last_peak)).
Proof.
  assert (Hf : first_item [-6; -4; -2] = Ok (-6)) by reflexivity.
  assert (Hl : last_item [-6; -4; -2] = Ok (-2)) by reflexivity.
  split; [exact Hf |]. split; [exact Hl |]. split; [exact example_time_in_window |].
  exact (proj2
    (bracketing_failure_unreachable example_spline example_spline_raises
          example_arange example_interp
       example_find_extrema example_self None None)
    [-6; -4; -2] (-6) (-2) (-5) (-1) [-5; 0] (-5) Hf Hl example_time_in_window).
Defined.

(** ** Trimming near the merger *)

Lemma trimming_threshold_index :
  idx_num_orbit_earlier_than_merger trimming_self 1 = Ok 1%nat.
Proof. assert (Hpi := PI_RGT_0). run. reflexivity. Qed.

Lemma trimming_extrema_kept :
  trimmed_extrema trimming_find_extrema trimming_self "maxima" = Ok [0; 1]%nat.
Proof. assert (Hpi := PI_RGT_0). run. reflexivity. Qed.



(** ** The time shift on the two-mode waveform *)

Lemma two_mode_combined_amplitude :
  multi_mode_amplitude (dd_hlm two_mode_dataDict) (length (dd_t two_mode_dataDict))
  = [1; 2; 1; 3; 0].
Proof.
  cbv [multi_mode_amplitude sum_sq_amplitudes two_mode_dataDict dd_hlm dd_t map snd
       zip_with repeat length].
  rewrite !np_abs_real by lra.
  repeat f_equal; apply sqrt_of_square; lra.
Qed.

Lemma two_mode_combined_peak :
  exists peak,
    get_peak_via_quadratic_fit (dd_t two_mode_dataDict) [1; 2; 1; 3; 0] = Ok peak
    /\ fst peak = 29 / 10.
Proof.
  eexists. split.
  - run. reflexivity.
  - cbn [fst]. field.
Qed.

Lemma two_mode_init :
  exists self,
    init example_spline example_spline_raises
        example_angle example_unwrap example_gradient
      two_mode_dataDict get_default_spline_kwargs get_default_extra_kwargs = Ok self
    /\ hd 0 (t self) = -1.
Proof.
  eexists. split.
  - cbv [init two_mode_dataDict dd_hlm mode_lookup Z.eqb Pos.eqb andb bind map].
    rewrite !np_abs_real by lra. run. reflexivity.
  - cbn [t hd]. field.
Qed.

(** C1 on the example. *)
Lemma init_shifts_by_amp22_peak_example :
  exists self,
    init example_spline example_spline_raises
        example_angle example_unwrap example_gradient
      two_mode_dataDict get_default_spline_kwargs get_default_extra_kwargs = Ok self
    /\ exists h22_ peak,
         mode_lookup (dd_hlm two_mode_dataDict) 2 2 = Some h22_
         /\ amp22 self = map np_abs h22_
         /\ get_peak_via_quadratic_fit (dd_t two_mode_dataDict) (amp22 self) = Ok peak
         /\ t self = map (fun x => x - fst peak) (dd_t two_mode_dataDict).
Proof.
  destruct two_mode_init as (self & Hinit & _).
  exists self. split; [exact Hinit |].
  exact (init_shifts_by_amp22_peak example_spline example_spline_raises
        example_angle example_unwrap
           example_gradient two_mode_dataDict get_default_spline_kwargs
           get_default_extra_kwargs self Hinit).
Defined.

(** The claim C1 read literally does not hold: on the two-mode waveform the
    constructor shifts the times by 1, the peak time of |h22|, while the
    quadratic-fit peak of the combined amplitude of the two modes is at
    29/10. *)
Lemma init_shift_is_not_the_multi_mode_peak :
  exists self peak_mm,
    init example_spline example_spline_raises
        example_angle example_unwrap example_gradient
      two_mode_dataDict get_default_spline_kwargs get_default_extra_kwargs = Ok self
    /\ get_peak_via_quadratic_fit (dd_t two_mode_dataDict)
         (multi_mode_amplitude (dd_hlm two_mode_dataDict)
            (length (dd_t two_mode_dataDict))) = Ok peak_mm
    /\ hd 0 (t self) = -1
    /\ fst peak_mm = 29 / 10
    /\ t self <> map (fun x => x - fst peak_mm) (dd_t two_mode_dataDict).
Proof.
  destruct two_mode_init as (self & Hinit & Hhd).
  destruct two_mode_combined_peak as (peak_mm & Hpeak & Hfst).
  exists self, peak_mm.
  split; [exact Hinit |].
  split; [rewrite two_mode_combined_amplitude; exact Hpeak |].
  split; [exact Hhd |]. split; [exact Hfst |].
  intros Heq. apply (f_equal (hd 0)) in Heq. rewrite Hhd, Hfst in Heq.
  cbn [two_mode_dataDict dd_t map hd] in Heq. lra.
Qed.

(** ** Two failing calls *)

(** A finder that reports a single periastron leaves too few extrema. *)
Example interp_extrema_single_extremum :
  interp_extrema example_spline example_spline_raises (fun _ _ => [3]%nat)
    example_self "maxima"
  = Raise (Exception_insufficient_extrema "maxima").
Proof. run. reflexivity. Qed.

(** Neither [tref_in] nor [fref_in]. *)
Example measure_ecc_without_input :
  measure_ecc example_spline example_spline_raises
      example_arange example_interp example_find_extrema
    example_self None None
  = Raise KeyError_exactly_one.
Proof. run. reflexivity. Qed.

(** * The further properties on the example waveforms *)

(** ** __init__ *)

Lemma zeroecc_init :
  exists self,
    init example_spline example_spline_raises
        example_angle example_unwrap example_gradient
      zeroecc_dataDict get_default_spline_kwargs get_default_extra_kwargs = Ok self.
Proof.
  eexists.
  cbv [init compute_res_amp_and_omega22 zeroecc_dataDict dd_hlm dd_t dd_t_zeroecc
       dd_hlm_zeroecc mode_lookup Z.eqb Pos.eqb andb bind map].
  rewrite !np_abs_real by lra. run. reflexivity.
Qed.

(** X1 on the two-mode waveform, built with the default exclusion of one
    orbit. *)
Lemma init_num_orbits_nonnegative_example :
  exists self,
    init example_spline example_spline_raises
        example_angle example_unwrap example_gradient
      two_mode_dataDict get_default_spline_kwargs get_default_extra_kwargs = Ok self
    /\ spline_kwargs self = get_default_spline_kwargs
    /\ extra_kwargs self = get_default_extra_kwargs
    /\ forall n, num_orbits_to_exclude_before_merger (extra_kwargs self) = Some n ->
                 0 <= n.
Proof.
  destruct two_mode_init as (self & Hinit & _).
  exists self. split; [exact Hinit |].
  exact (init_num_orbits_nonnegative example_spline example_spline_raises
        example_angle example_unwrap
           example_gradient two_mode_dataDict get_default_spline_kwargs
           get_default_extra_kwargs self Hinit).
Defined.

(** X2 on the two-mode waveform. *)
Lemma init_keeps_time_steps_example :
  exists self,
    init example_spline example_spline_raises
        example_angle example_unwrap example_gradient
      two_mode_dataDict get_default_spline_kwargs get_default_extra_kwargs = Ok self
    /\ length (t self) = length (dd_t two_mode_dataDict)
    /\ np_diff (t self) = np_diff (dd_t two_mode_dataDict)
    /\ (StronglySorted Rlt (dd_t two_mode_dataDict) -> StronglySorted Rlt (t self)).
Proof.
  destruct two_mode_init as (self & Hinit & _).
  exists self. split; [exact Hinit |].
  exact (init_keeps_time_steps example_spline example_spline_raises
        example_angle example_unwrap
           example_gradient two_mode_dataDict get_default_spline_kwargs
           get_default_extra_kwargs self Hinit).
Defined.

(** X3 on the waveform with a quasicircular counterpart. *)
Lemma init_zeroecc_starts_first_example :
  exists self,
    init example_spline example_spline_raises
        example_angle example_unwrap example_gradient
      zeroecc_dataDict get_default_spline_kwargs get_default_extra_kwargs = Ok self
    /\ (dd_hlm_zeroecc zeroecc_dataDict = None <-> zeroecc self = None)
    /\ forall z, zeroecc self = Some z ->
         exists t_zeroecc_first t_first,
           first_item (t_zeroecc z) = Ok t_zeroecc_first
           /\ first_item (t self) = Ok t_first
           /\ t_zeroecc_first <= t_first.
Proof.
  destruct zeroecc_init as (self & Hinit).
  exists self. split; [exact Hinit |].
  exact (init_zeroecc_starts_first example_spline example_spline_raises
        example_angle example_unwrap
           example_gradient zeroecc_dataDict get_default_spline_kwargs
           get_default_extra_kwargs self Hinit).
Defined.

(** ** measure_ecc *)

(** X4 on the example: four reference times are retained, so the three
    returned quantities are arrays of length four. *)
Lemma measure_ecc_output_shape_example :
  measure_ecc example_spline example_spline_raises
      example_arange example_interp example_find_extrema
    example_self (Some example_tref_in) None = Ok example_measurement
  /\ (1 <= length (values (tref_out example_measurement)))%nat
  /\ length (values (fst (fst (returned example_measurement))))
     = length (values (tref_out example_measurement))
  /\ length (values (snd (fst (returned example_measurement))))
     = length (values (tref_out example_measurement))
  /\ length (values (snd (returned example_measurement)))
     = length (values (tref_out example_measurement))
  /\ ((exists x, fst (fst (returned example_measurement)) = Float x)
      <-> length (values (tref_out example_measurement)) = 1%nat)
  /\ ((exists x, snd (fst (returned example_measurement)) = Float x)
      <-> length (values (tref_out example_measurement)) = 1%nat)
  /\ ((exists x, snd (returned example_measurement) = Float x)
      <-> length (values (tref_out example_measurement)) = 1%nat).
Proof.
  split; [exact example_measure_ecc |].
  exact (measure_ecc_output_shape example_spline example_spline_raises
        example_arange example_interp
           example_find_extrema example_self (Some example_tref_in) None
           example_measurement example_measure_ecc).
Defined.

(** X5 on the example: the retained times lie in [-6, -2) and in [-5, -1). *)
Lemma measure_ecc_no_extrapolation_example :
  measure_ecc example_spline example_spline_raises
      example_arange example_interp example_find_extrema
    example_self (Some example_tref_in) None = Ok example_measurement
  /\ exists t_peaks t_troughs t_peaks_first t_peaks_last t_troughs_first
            t_troughs_last,
       take (t example_self) (peaks_location example_measurement) = Ok t_peaks
       /\ take (t example_self) (troughs_location example_measurement) = Ok t_troughs
       /\ first_item t_peaks = Ok t_peaks_first
       /\ last_item t_peaks = Ok t_peaks_last
       /\ first_item t_troughs = Ok t_troughs_first
       /\ last_item t_troughs = Ok t_troughs_last
       /\ forall x, In x (values (tref_out example_measurement)) ->
            t_peaks_first <= x < t_peaks_last
            /\ t_troughs_first <= x < t_troughs_last.
Proof.
  split; [exact example_measure_ecc |].
  destruct (measure_ecc_no_extrapolation example_spline example_spline_raises
        example_arange example_interp
              example_find_extrema example_self (Some example_tref_in) None
              example_measurement example_measure_ecc)
    as (t_peaks & t_troughs & tpf & tpl & ttf & ttl & op & ot
        & Htp & _ & _ & Htt & _ & _ & Hpf & Hpl & Htf & Htl & Hin).
  exists t_peaks, t_troughs, tpf, tpl, ttf, ttl.
  repeat (split; [assumption |]). exact Hin.
Defined.

(** The reference frequency 2/(2*pi) on the example: the orbital averages
    are 3/2, 2, 5/2, 3 at the times -5, -4, -3, -2, so the frequency is
    retained, and the example spline maps it to the first of these times. *)
Lemma example_measure_ecc_fref :
  exists m,
    measure_ecc example_spline example_spline_raises
        example_arange example_interp example_find_extrema
      example_self None (Some (Float (2 / (2 * PI)))) = Ok m.
Proof.
  assert (Hpi := PI_RGT_0).
  assert (Hinv : 0 < / (2 * PI)) by (apply Rinv_0_lt_compat; lra).
  eexists. run. reflexivity.
Qed.

(** X6 on the example. *)
Lemma measure_ecc_from_frequencies_example :
  exists m,
    measure_ecc example_spline example_spline_raises
        example_arange example_interp example_find_extrema
      example_self None (Some (Float (2 / (2 * PI)))) = Ok m
    /\ exists tref_in1 fref_out1,
         compute_tref_in_and_fref_out_from_fref_in example_spline example_spline_raises
             example_arange
           example_interp example_self
           (peaks_location m) (troughs_location m)
           (omega22_peaks_interp m) (omega22_troughs_interp m) (t_min m) (t_max m)
           (np_atleast_1d (Float (2 / (2 * PI)))) = Ok (tref_in1, fref_out1)
         /\ values (fst (fst (returned m))) = fref_out1
         /\ (forall f, In f fref_out1 -> In f (np_atleast_1d (Float (2 / (2 * PI)))))
         /\ values (tref_out m) = tref_in1
         /\ length fref_out1 = length tref_in1
         /\ Forall (fun x => t_min m <= x < t_max m) tref_in1.
Proof.
  destruct example_measure_ecc_fref as (m & Hm).
  exists m. split; [exact Hm |].
  exact (measure_ecc_from_frequencies example_spline example_spline_raises
        example_arange example_interp
           example_find_extrema example_self (Float (2 / (2 * PI))) m Hm).
Defined.

Lemma example_no_time_in_window (x : R) :
  In x (np_atleast_1d (Float 0)) -> ~ (Rmax (-6) (-5) <= x < Rmin (-2) (-1)).
Proof.
  intros [<- | []]. rewrite Rmax_right, Rmin_left by lra. lra.
Qed.

(** X7 on the example: the single reference time 0 is after the last
    periastron and apastron. *)
Lemma measure_ecc_empty_window_example :
  interp_extrema example_spline example_spline_raises
      example_find_extrema example_self "maxima"
  = Ok (example_spline [-6; -4; -2] [4; 5; 6] example_spline_kwargs,
        [0; 2; 4]%nat)
  /\ interp_extrema example_spline example_spline_raises
      example_find_extrema example_self "minima"
     = Ok (example_spline [-5; -3; -1] [1; 2; 3] example_spline_kwargs,
           [1; 3; 5]%nat)
  /\ np_atleast_1d (Float 0) <> []
  /\ (forall x, In x (np_atleast_1d (Float 0)) ->
        ~ (Rmax (-6) (-5) <= x < Rmin (-2) (-1)))
  /\ exists tref_first tref_last,
       first_item (np_atleast_1d (Float 0)) = Ok tref_first
       /\ last_item (np_atleast_1d (Float 0)) = Ok tref_last
       /\ ((measure_ecc example_spline example_spline_raises
           example_arange example_interp
              example_find_extrema example_self (Some (Float 0)) None
            = Raise Exception_tref_in_later_than_t_max
            /\ Rmin (-2) (-1) < tref_last)
           \/ (measure_ecc example_spline example_spline_raises
               example_arange example_interp
                 example_find_extrema example_self (Some (Float 0)) None
               = Raise Exception_tref_in_earlier_than_t_min
               /\ tref_last <= Rmin (-2) (-1)
               /\ tref_first < Rmax (-6) (-5))
           \/ (measure_ecc example_spline example_spline_raises
               example_arange example_interp
                 example_find_extrema example_self (Some (Float 0)) None
               = Raise Exception_tref_out_empty
               /\ tref_last <= Rmin (-2) (-1)
               /\ Rmax (-6) (-5) <= tref_first)).
Proof.
  assert (Hne : np_atleast_1d (Float 0) <> []) by discriminate.
  split; [exact example_interp_extrema_maxima |].
  split; [exact example_interp_extrema_minima |].
  split; [exact Hne |]. split; [exact example_no_time_in_window |].
  exact (measure_ecc_empty_window example_spline example_spline_raises
        example_arange example_interp
           example_find_extrema example_self (Float 0) _ _
           [-6; -4; -2] [-5; -3; -1] (-6) (-2) (-5) (-1)
           example_interp_extrema_maxima example_interp_extrema_minima
           eq_refl eq_refl eq_refl eq_refl eq_refl eq_refl
           Hne example_no_time_in_window).
Defined.

Lemma example_interpolants_ordered (x : R) :
  In x (values (tref_out example_measurement)) ->
  0 < omega22_troughs_interp example_measurement x
      <= omega22_peaks_interp example_measurement x.
Proof.
  intros _. cbv [example_measurement omega22_troughs_interp omega22_peaks_interp
                 example_spline hd]. lra.
Qed.

(** X8 on the example: the periastron interpolant is 4 and the apastron
    interpolant 1 at every retained time. *)
Lemma measure_ecc_eccentricity_range_example :
  measure_ecc example_spline example_spline_raises
      example_arange example_interp example_find_extrema
    example_self (Some example_tref_in) None = Ok example_measurement
  /\ (forall x, In x (values (tref_out example_measurement)) ->
        0 < omega22_troughs_interp example_measurement x
            <= omega22_peaks_interp example_measurement x)
  /\ Forall2
       (fun tref ecc =>
          0 <= ecc < 1
          /\ (ecc = 0 <-> omega22_peaks_interp example_measurement tref
                          = omega22_troughs_interp example_measurement tref))
       (values (tref_out example_measurement))
       (values (snd (fst (returned example_measurement)))).
Proof.
  split; [exact example_measure_ecc |].
  split; [exact example_interpolants_ordered |].
  exact (measure_ecc_eccentricity_range example_spline example_spline_raises
        example_arange example_interp
           example_find_extrema example_self (Some example_tref_in) None
           example_measurement example_measure_ecc example_interpolants_ordered).
Defined.

Lemma example_t_peaks_increasing : StronglySorted Rlt [-6; -4; -2].
Proof. repeat constructor; lra. Qed.

Lemma example_between_first_two_peaks : -6 <= -5 < -4.
Proof. lra. Qed.

(** X9 on the example: halfway between the periastrons at -6 and -4. *)
Lemma compute_mean_ano_between_example :
  StronglySorted Rlt [-6; -4; -2]
  /\ nth_error [-6; -4; -2] 0 = Some (-6)
  /\ nth_error [-6; -4; -2] (0 + 1) = Some (-4)
  /\ -6 <= -5 < -4
  /\ compute_mean_ano [-6; -4; -2] (-5) = Ok (2 * PI * (-5 - -6) / (-4 - -6)).
Proof.
  split; [exact example_t_peaks_increasing |].
  split; [reflexivity |]. split; [reflexivity |].
  split; [exact example_between_first_two_peaks |].
  exact (compute_mean_ano_between [-6; -4; -2] 0 (-6) (-4) (-5)
           example_t_peaks_increasing eq_refl eq_refl
           example_between_first_two_peaks).
Defined.

(** ** The trimming on the three-sample waveform *)

Lemma trimming_phase22_increasing : StronglySorted Rlt (phase22 trimming_self).
Proof.
  assert (Hpi := PI_RGT_0). cbv [trimming_self phase22].
  repeat constructor; lra.
Qed.

Lemma trimming_one_orbit_nonnegative : 0 <= 1.
Proof. lra. Qed.

(** X10 on the example: the merger sample is the last one, and the two
    retained extrema are before it. *)
Lemma trimmed_extrema_before_merger_example :
  num_orbits_to_exclude_before_merger (extra_kwargs trimming_self) = Some 1
  /\ 0 <= 1
  /\ StronglySorted Rlt (phase22 trimming_self)
  /\ trimmed_extrema trimming_find_extrema trimming_self "maxima" = Ok [0; 1]%nat
  /\ exists merger_idx idx,
       np_argmin (map Rabs (t trimming_self)) = Ok merger_idx
       /\ idx_num_orbit_earlier_than_merger trimming_self 1 = Ok idx
       /\ (idx <= merger_idx)%nat
       /\ Forall (fun i => (i <= merger_idx)%nat) [0; 1]%nat.
Proof.
  split; [reflexivity |]. split; [exact trimming_one_orbit_nonnegative |].
  split; [exact trimming_phase22_increasing |].
  split; [exact trimming_extrema_kept |].
  exact (trimmed_extrema_before_merger trimming_find_extrema trimming_self "maxima" 1
           [0; 1]%nat eq_refl trimming_one_orbit_nonnegative
           trimming_phase22_increasing trimming_extrema_kept).
Defined.

Lemma trimming_threshold_index_two_orbits :
  idx_num_orbit_earlier_than_merger trimming_self 2 = Ok 0%nat.
Proof. assert (Hpi := PI_RGT_0). run. reflexivity. Qed.

Lemma trimming_one_le_two : 1 <= 2.
Proof. lra. Qed.

(** X11 on the example: one excluded orbit puts the threshold at sample 1,
    two excluded orbits at sample 0. *)
Lemma idx_num_orbit_earlier_than_merger_antitone_example :
  StronglySorted Rlt (phase22 trimming_self)
  /\ 1 <= 2
  /\ idx_num_orbit_earlier_than_merger trimming_self 1 = Ok 1%nat
  /\ idx_num_orbit_earlier_than_merger trimming_self 2 = Ok 0%nat
  /\ (0 <= 1)%nat
  /\ forall extrema_idx i,
       In i (filter (fun i => Nat.leb i 0) extrema_idx) ->
       In i (filter (fun i => Nat.leb i 1) extrema_idx).
Proof.
  split; [exact trimming_phase22_increasing |]. split; [exact trimming_one_le_two |].
  split; [exact trimming_threshold_index |].
  split; [exact trimming_threshold_index_two_orbits |].
  exact (idx_num_orbit_earlier_than_merger_antitone trimming_self 1 2 1%nat 0%nat
           trimming_phase22_increasing trimming_one_le_two
           trimming_threshold_index trimming_threshold_index_two_orbits).
Defined.

Lemma all_samples_increasing :
  StronglySorted lt [0; 1; 2]%nat.
Proof. repeat constructor. Qed.

Lemma trimming_all_samples_kept :
  trimmed_extrema (fun _ _ => [0; 1; 2]%nat) trimming_self "maxima" = Ok [0; 1]%nat.
Proof. assert (Hpi := PI_RGT_0). run. reflexivity. Qed.

(** X12 on the example: of the reported positions 0, 1, 2 the last one is
    dropped. *)
Lemma trimmed_extrema_is_prefix_example :
  StronglySorted lt [0; 1; 2]%nat
  /\ trimmed_extrema (fun _ _ => [0; 1; 2]%nat) trimming_self "maxima" = Ok [0; 1]%nat
  /\ exists dropped,
       [0; 1; 2]%nat = [0; 1]%nat ++ dropped
       /\ forall i j, In i [0; 1]%nat -> In j dropped -> (i < j)%nat.
Proof.
  split; [exact all_samples_increasing |]. split; [exact trimming_all_samples_kept |].
  exact (trimmed_extrema_is_prefix (fun _ _ => [0; 1; 2]%nat) trimming_self "maxima"
           [0; 1]%nat all_samples_increasing trimming_all_samples_kept).
Defined.

(** ** The separation warnings on the seven-sample waveform *)

Lemma example_separation_at_peaks :
  check_extrema_separation example_self [0; 2; 4]%nat
  = Ok ([3 / 2 - 0 / 2; 8 / 2 - 3 / 2], [0; (8 / 2 - 3 / 2) / (3 / 2 - 0 / 2)]).
Proof. run. reflexivity. Qed.

(** The orbital phase differences 3/2 and 5/2 between the periastrons are
    both below pi, and the second is more than 1.5 times the first: all
    three warnings are emitted. *)
Lemma example_separation_warnings :
  check_extrema_separation_warnings example_self [0; 2; 4]%nat (3 / 2) PI
  = Ok [Warning_too_close (3 / 2 - 0 / 2) [-4; -2];
        Warning_phase_shift_closer_to_pi;
        Warning_too_far (8 / 2 - 3 / 2) [-2]].
Proof.
  assert (Hpi := PI2_3_2). assert (Hpi4 := PI_4).
  run. reflexivity.
Qed.

(** X13 on the example. *)
Lemma check_extrema_separation_closer_to_pi_example :
  check_extrema_separation example_self [0; 2; 4]%nat
  = Ok ([3 / 2 - 0 / 2; 8 / 2 - 3 / 2], [0; (8 / 2 - 3 / 2) / (3 / 2 - 0 / 2)])
  /\ check_extrema_separation_warnings example_self [0; 2; 4]%nat (3 / 2) PI
     = Ok [Warning_too_close (3 / 2 - 0 / 2) [-4; -2];
           Warning_phase_shift_closer_to_pi;
           Warning_too_far (8 / 2 - 3 / 2) [-2]]
  /\ (In Warning_phase_shift_closer_to_pi
        [Warning_too_close (3 / 2 - 0 / 2) [-4; -2];
         Warning_phase_shift_closer_to_pi;
         Warning_too_far (8 / 2 - 3 / 2) [-2]]
      <-> exists d, In d [3 / 2 - 0 / 2; 8 / 2 - 3 / 2] /\ d < 3 * PI / 2).
Proof.
  split; [exact example_separation_at_peaks |].
  split; [exact example_separation_warnings |].
  exact (proj1 (check_extrema_separation_closer_to_pi example_self [0; 2; 4]%nat
                  (3 / 2) PI _ _ _
                  example_separation_at_peaks example_separation_warnings)).
Defined.

Lemma default_factor_nonnegative : 0 <= 3 / 2.
Proof. lra. Qed.

(** X14 on the example. *)
Lemma check_extrema_separation_warnings_return_example :
  0 <= 3 / 2
  /\ check_extrema_separation example_self [0; 2; 4]%nat
     = Ok ([3 / 2 - 0 / 2; 8 / 2 - 3 / 2], [0; (8 / 2 - 3 / 2) / (3 / 2 - 0 / 2)])
  /\ exists ws,
       check_extrema_separation_warnings example_self [0; 2; 4]%nat (3 / 2) PI = Ok ws
       /\ (length ws <= 3)%nat.
Proof.
  split; [exact default_factor_nonnegative |].
  split; [exact example_separation_at_peaks |].
  exact (check_extrema_separation_warnings_return example_self [0; 2; 4]%nat
           (3 / 2) PI _ default_factor_nonnegative example_separation_at_peaks).
Defined.

(** ** The averaging methods on the seven-sample waveform *)

Lemma example_interp_extrema_maxima_with (method : string) :
  interp_extrema example_spline example_spline_raises example_find_extrema
    (with_averaging_method example_self method) "maxima"
  = Ok (example_spline [-6; -4; -2] [4; 5; 6] example_spline_kwargs,
        [0; 2; 4]%nat).
Proof. run. reflexivity. Qed.

Lemma example_interp_extrema_minima_with (method : string) :
  interp_extrema example_spline example_spline_raises example_find_extrema
    (with_averaging_method example_self method) "minima"
  = Ok (example_spline [-5; -3; -1] [1; 2; 3] example_spline_kwargs,
        [1; 3; 5]%nat).
Proof. run. reflexivity. Qed.

(** X15 on the example, with the method name "mean_motion". *)
Lemma measure_ecc_unknown_averaging_method_example :
  omega22_averaging_method
    (extra_kwargs (with_averaging_method example_self "mean_motion"))
  <> "average_between_extrema"%string
  /\ omega22_averaging_method
       (extra_kwargs (with_averaging_method example_self "mean_motion"))
     <> "orbital_average_at_extrema"%string
  /\ omega22_averaging_method
       (extra_kwargs (with_averaging_method example_self "mean_motion"))
     <> "omega22_zeroecc"%string
  /\ measure_ecc example_spline example_spline_raises
      example_arange example_interp example_find_extrema
       (with_averaging_method example_self "mean_motion") None (Some (Float 1))
     = Raise (KeyError_averaging_method "mean_motion").
Proof.
  assert (H1 : omega22_averaging_method
                 (extra_kwargs (with_averaging_method example_self "mean_motion"))
               <> "average_between_extrema"%string) by discriminate.
  assert (H2 : omega22_averaging_method
                 (extra_kwargs (with_averaging_method example_self "mean_motion"))
               <> "orbital_average_at_extrema"%string) by discriminate.
  assert (H3 : omega22_averaging_method
                 (extra_kwargs (with_averaging_method example_self "mean_motion"))
               <> "omega22_zeroecc"%string) by discriminate.
  split; [exact H1 |]. split; [exact H2 |]. split; [exact H3 |].
  exact (measure_ecc_unknown_averaging_method example_spline example_spline_raises
        example_arange
           example_interp example_find_extrema
           (with_averaging_method example_self "mean_motion") (Float 1) _ _
           (example_interp_extrema_maxima_with "mean_motion")
           (example_interp_extrema_minima_with "mean_motion") H1 H2 H3).
Defined.

Lemma example_two_samples :
  (2 <= length (t (with_averaging_method example_self "omega22_zeroecc")))%nat.
Proof. simpl. lia. Qed.

(** X16 on the example, which has no zero-eccentricity data. *)
Lemma measure_ecc_omega22_zeroecc_without_data_example :
  zeroecc (with_averaging_method example_self "omega22_zeroecc") = None
  /\ (2 <= length (t (with_averaging_method example_self "omega22_zeroecc")))%nat
  /\ measure_ecc example_spline example_spline_raises
      example_arange example_interp example_find_extrema
       (with_averaging_method example_self "omega22_zeroecc") None (Some (Float 1))
     = Raise AttributeError_zeroecc.
Proof.
  split; [reflexivity |]. split; [exact example_two_samples |].
  exact (measure_ecc_omega22_zeroecc_without_data example_spline example_spline_raises
        example_arange
           example_interp example_find_extrema
           (with_averaging_method example_self "omega22_zeroecc") (Float 1) _ _
           (example_interp_extrema_maxima_with "omega22_zeroecc")
           (example_interp_extrema_minima_with "omega22_zeroecc")
           eq_refl eq_refl example_two_samples).
Defined.

Lemma example_get_fref_out : get_fref_out [0; 1] [0; 1] = Ok [0].
Proof.
  assert (H := inv_two_pi_bounds).
  assert (H0 : 0 / (2 * PI) = 0) by (unfold Rdiv; ring).
  unfold get_fref_out, first_item, last_item, getitem. cbn [nth_error last bind].
  rewrite H0. run. reflexivity.
Qed.

(** X17 on the curve from 0 to 1: of the frequencies 0 and 1 the first is
    retained, and it is retained again. *)
Lemma get_fref_out_idempotent_example :
  get_fref_out [0; 1] [0; 1] = Ok [0]
  /\ get_fref_out [0; 1] [0] = Ok [0].
Proof.
  split; [exact example_get_fref_out |].
  exact (get_fref_out_idempotent [0; 1] [0; 1] [0] example_get_fref_out).
Defined.

(** The method "average_between_extrema" on the example, between a
    periastron interpolant at 4 and an apastron interpolant at 1. *)
Example compute_omega22_average_between_extrema_example :
  compute_omega22_average_between_extrema example_arange example_self
    (fun _ => 4) (fun _ => 1) (-5) (-2)
  = Ok ([-5], [(4 + 1) / 2]).
Proof. run. reflexivity. Qed.

(** ** Repeated and single-time measurements on the example *)

(** X19 on the example: the four retained times, given back. *)
Lemma measure_ecc_at_tref_out_example :
  measure_ecc example_spline example_spline_raises
      example_arange example_interp example_find_extrema
    example_self (Some example_tref_in) None = Ok example_measurement
  /\ measure_ecc example_spline example_spline_raises
      example_arange example_interp example_find_extrema
       example_self (Some (tref_out example_measurement)) None
     = Ok example_measurement.
Proof.
  split; [exact example_measure_ecc |].
  exact (measure_ecc_at_tref_out example_spline example_spline_raises
        example_arange example_interp
           example_find_extrema example_self example_tref_in example_measurement
           example_measure_ecc).
Defined.

(** X20 on the example: the second retained time, -9/2, measured alone. *)
Lemma measure_ecc_pointwise_example :
  measure_ecc example_spline example_spline_raises
      example_arange example_interp example_find_extrema
    example_self (Some example_tref_in) None = Ok example_measurement
  /\ nth_error (values (tref_out example_measurement)) 1 = Some (-9 / 2)
  /\ exists ecc mean_ano m1,
       nth_error (values (ecc_ref example_measurement)) 1 = Some ecc
       /\ nth_error (values (mean_ano_ref example_measurement)) 1 = Some mean_ano
       /\ measure_ecc example_spline example_spline_raises example_arange example_interp
            example_find_extrema example_self (Some (Float (-9 / 2))) None = Ok m1
       /\ returned m1 = (Float (-9 / 2), Float ecc, Float mean_ano).
Proof.
  split; [exact example_measure_ecc |]. split; [reflexivity |].
  exact (measure_ecc_pointwise example_spline example_spline_raises
        example_arange example_interp
           example_find_extrema example_self example_tref_in example_measurement
           1%nat (-9 / 2) example_measure_ecc eq_refl).
Defined.

(** ** Junk removal on three samples *)

Lemma junk_removed_one_orbit :
  reomve_junk_from_nr_data junk_angle example_unwrap [0; 1; 2] junk_modes_dict 1
  = Ok ([1; 2], [((2, 2)%Z, [(1, 3 * PI); (1, 8 * PI)])]).
Proof. assert (Hpi := PI_RGT_0). run. reflexivity. Qed.

Lemma junk_removed_zero_orbits :
  reomve_junk_from_nr_data junk_angle example_unwrap [0; 1; 2] junk_modes_dict 0
  = Ok ([0; 1; 2], junk_modes_dict).
Proof. assert (Hpi := PI_RGT_0). run. reflexivity. Qed.

(** X21 on the example: one orbit of junk ends nearest to the second
    sample, and the first sample is cut from the times and from the mode. *)
Lemma reomve_junk_from_nr_data_aligned_example :
  reomve_junk_from_nr_data junk_angle example_unwrap [0; 1; 2] junk_modes_dict 1
  = Ok ([1; 2], [((2, 2)%Z, [(1, 3 * PI); (1, 8 * PI)])])
  /\ exists h22_ idx_junk,
       mode_lookup junk_modes_dict 2 2 = Some h22_
       /\ (idx_junk < length (example_unwrap (map junk_angle h22_)))%nat
       /\ [1; 2] = skipn idx_junk [0; 1; 2]
       /\ map fst [((2, 2)%Z, [(1, 3 * PI); (1, 8 * PI)])] = map fst junk_modes_dict
       /\ (forall l m,
             mode_lookup [((2, 2)%Z, [(1, 3 * PI); (1, 8 * PI)])] l m
             = option_map (skipn idx_junk) (mode_lookup junk_modes_dict l m))
       /\ (Forall (fun kv => length (snd kv) = length [0; 1; 2]%R) junk_modes_dict ->
           Forall (fun kv => length (snd kv) = length [1; 2]%R)
             [((2, 2)%Z, [(1, 3 * PI); (1, 8 * PI)])]
           /\ (length (example_unwrap (map junk_angle h22_)) = length h22_ ->
               [1; 2] <> [])).
Proof.
  split; [exact junk_removed_one_orbit |].
  exact (reomve_junk_from_nr_data_aligned junk_angle example_unwrap [0; 1; 2]
           junk_modes_dict 1 _ _ junk_removed_one_orbit).
Defined.

(** X22 on the example. *)
Lemma reomve_junk_from_nr_data_zero_orbits_example :
  reomve_junk_from_nr_data junk_angle example_unwrap [0; 1; 2] junk_modes_dict 0
  = Ok ([0; 1; 2], junk_modes_dict)
  /\ [0; 1; 2] = [0; 1; 2] /\ junk_modes_dict = junk_modes_dict.
Proof.
  split; [exact junk_removed_zero_orbits |].
  exact (reomve_junk_from_nr_data_zero_orbits junk_angle example_unwrap [0; 1; 2]
           junk_modes_dict _ _ junk_removed_zero_orbits).
Defined.

(** ** Loading EOB files *)

Lemma EccTest_keywords_allowed :
  Forall (fun kv => In (fst kv) allowed_kwargs)
    [("filepath", PyStr "data/EOB/EccTest1.h5")]%string.
Proof. repeat constructor. Qed.

Lemma approximant_not_allowed : ~ In "approximant"%string allowed_kwargs.
Proof. intros [H | [H | [H | []]]]; discriminate. Qed.

(** X23 on an example: the keyword [approximant] after a valid file path. *)
Lemma load_waveform_EOB_invalid_keyword_example :
  Forall (fun kv => In (fst kv) allowed_kwargs)
    [("filepath", PyStr "data/EOB/EccTest1.h5")]%string
  /\ ~ In "approximant"%string allowed_kwargs
  /\ load_waveform nat example_loader example_loader example_loader example_loader
       (fun _ => Loaded 0%nat) "EOB"
       ([("filepath"%string, PyStr "data/EOB/EccTest1.h5")]
        ++ ("approximant"%string, PyStr "EccentricTD") :: [])
     = LoadError (KeyError_invalid_keyword "approximant").
Proof.
  split; [exact EccTest_keywords_allowed |].
  split; [exact approximant_not_allowed |].
  exact (load_waveform_EOB_invalid_keyword nat example_loader example_loader
           example_loader example_loader (fun _ => Loaded 0%nat)
           [("filepath", PyStr "data/EOB/EccTest1.h5")]%string []
           "approximant"%string (PyStr "EccentricTD")
           EccTest_keywords_allowed approximant_not_allowed).
Defined.

Lemma case_keywords_allowed :
  Forall (fun kv => In (fst kv) allowed_kwargs) case_kwargs.
Proof.
  unfold case_kwargs, allowed_kwargs.
  constructor; [cbn [fst]; now left |].
  constructor; [cbn [fst]; right; right; now left | constructor].
Qed.

(** X24 on an example: the file data/EOB/Case3.h5 is refused although the
    loader behind it would return data. *)
Lemma load_waveform_EOB_loads_only_EccTest_example :
  kwargs_get case_kwargs "filepath" = Some (PyStr "data/EOB/Case3.h5")
  /\ contains "EccTest" "data/EOB/Case3.h5" = false
  /\ contains "Case" "data/EOB/Case3.h5" = true
  /\ Forall (fun kv => In (fst kv) allowed_kwargs) case_kwargs
  /\ exists kw,
       In kw allowed_kwargs
       /\ load_waveform nat example_loader example_loader example_loader
            example_loader (fun _ => Loaded 0%nat) "EOB" case_kwargs
          = LoadError (TypeError_unexpected_keyword kw).
Proof.
  split; [reflexivity |]. split; [reflexivity |]. split; [reflexivity |].
  split; [exact case_keywords_allowed |].
  exact (proj2 (load_waveform_EOB_loads_only_EccTest nat example_loader
                  example_loader example_loader example_loader
                  (fun _ => Loaded 0%nat) case_kwargs)
           "data/EOB/Case3.h5"%string eq_refl eq_refl eq_refl case_keywords_allowed).
Defined.

(** ** The window on the example *)

Lemma example_phase22_length :
  length (phase22 example_self) = length (t example_self).
Proof. reflexivity. Qed.

(** X25 on the example: the window is [-5, -2). *)
Lemma measure_ecc_single_time_returns_iff_example :
  interp_extrema example_spline example_spline_raises
      example_find_extrema example_self "maxima"
  = Ok (example_spline [-6; -4; -2] [4; 5; 6] example_spline_kwargs,
        [0; 2; 4]%nat)
  /\ interp_extrema example_spline example_spline_raises
      example_find_extrema example_self "minima"
     = Ok (example_spline [-5; -3; -1] [1; 2; 3] example_spline_kwargs,
           [1; 3; 5]%nat)
  /\ take (t example_self) [0; 2; 4]%nat = Ok [-6; -4; -2]
  /\ take (t example_self) [1; 3; 5]%nat = Ok [-5; -3; -1]
  /\ length (phase22 example_self) = length (t example_self)
  /\ ((exists m,
         measure_ecc example_spline example_spline_raises example_arange example_interp
           example_find_extrema example_self (Some (Float (-3))) None = Ok m)
      <-> Rmax (-6) (-5) <= -3 < Rmin (-2) (-1)).
Proof.
  split; [exact example_interp_extrema_maxima |].
  split; [exact example_interp_extrema_minima |].
  split; [reflexivity |]. split; [reflexivity |].
  split; [exact example_phase22_length |].
  exact (measure_ecc_single_time_returns_iff example_spline example_spline_raises
        example_arange
           example_interp example_find_extrema example_self (-3) _ _
           [-6; -4; -2] [-5; -3; -1] (-6) (-2) (-5) (-1)
           example_interp_extrema_maxima example_interp_extrema_minima
           eq_refl eq_refl eq_refl eq_refl eq_refl eq_refl
           example_phase22_length).
Defined.

(** X26 on the example: three periastrons give two phase differences and
    a ratio array [0; 5/3], and each curve of the diagnostic plot has one
    point. *)
Lemma measure_ecc_phase_diff_arrays_example :
  measure_ecc example_spline example_spline_raises
      example_arange example_interp example_find_extrema
    example_self (Some example_tref_in) None = Ok example_measurement
  /\ length (orb_phase_diff_at_peaks example_measurement)
     = (length (peaks_location example_measurement) - 1)%nat
  /\ length (orb_phase_diff_ratio_at_peaks example_measurement)
     = length (orb_phase_diff_at_peaks example_measurement)
  /\ exists peaks_x peaks_y troughs_x troughs_y,
       plot_phase_diff_ratio_between_peaks example_self example_measurement
       = Ok ((peaks_x, peaks_y), (troughs_x, troughs_y))
       /\ length peaks_x = length peaks_y
       /\ length troughs_x = length troughs_y.
Proof.
  split; [exact example_measure_ecc |].
  destruct (measure_ecc_phase_diff_arrays example_spline example_spline_raises
        example_arange
              example_interp example_find_extrema example_self
              (Some example_tref_in) None example_measurement example_measure_ecc)
    as (H1 & H2 & _ & _ & _ & _ & H3).
  split; [exact H1 |]. split; [exact H2 | exact H3].
Defined.

(** ** The truncation of the quasicircular data on twelve samples *)

Lemma truncation_nearest :
  np_argmin (map (fun x => Rabs (x - -9)) long_t_zeroecc) = Ok 2%nat.
Proof. run. reflexivity. Qed.

Lemma truncation_keeps_the_end :
  truncate_zeroecc long_t_zeroecc [] [-9; -8]
  = Ok ([-7; -6; -5; -4; -3; -2; -1; 0], []).
Proof.
  unfold truncate_zeroecc, first_item, getitem. cbn [nth_error bind].
  rewrite truncation_nearest. reflexivity.
Qed.

(** X27 on the example: the sample nearest to the NR start -9 is the third
    one, the start position is 2 - 10 = -8, and the eight samples from -7
    on are returned; the sample at -9 is not among them. *)
Lemma truncate_zeroecc_start_example :
  truncate_zeroecc long_t_zeroecc [] [-9; -8]
  = Ok ([-7; -6; -5; -4; -3; -2; -1; 0], [])
  /\ exists nr_t_first nearest,
       first_item [-9; -8] = Ok nr_t_first
       /\ np_argmin (map (fun x => Rabs (x - nr_t_first)) long_t_zeroecc) = Ok nearest
       /\ ((nearest < 10)%nat ->
           [-7; -6; -5; -4; -3; -2; -1; 0]
           = skipn (length long_t_zeroecc - (10 - nearest)) long_t_zeroecc
           /\ ((10 < length long_t_zeroecc)%nat ->
               length [-7; -6; -5; -4; -3; -2; -1; 0]%R = (10 - nearest)%nat
               /\ (nearest < length long_t_zeroecc
                             - length [-7; -6; -5; -4; -3; -2; -1; 0]%R)%nat)).
Proof.
  split; [exact truncation_keeps_the_end |].
  destruct (truncate_zeroecc_start long_t_zeroecc [] [-9; -8] _ _
              truncation_keeps_the_end)
    as (t0 & nearest & H1 & H2 & _ & _ & H3).
  exists t0, nearest. split; [exact H1 |]. split; [exact H2 | exact H3].
Defined.

(** X18 on the example: the average of 4 and 1 on the one-point grid. *)
Lemma compute_omega22_average_between_extrema_spec_example :
  compute_omega22_average_between_extrema example_arange example_self
    (fun _ => 4) (fun _ => 1) (-5) (-2)
  = Ok ([-5], [(4 + 1) / 2])
  /\ (2 <= length (t example_self))%nat
  /\ Forall2 (fun x om => Rmin 1 4 <= om <= Rmax 1 4) [-5] [(4 + 1) / 2].
Proof.
  split; [exact compute_omega22_average_between_extrema_example |].
  destruct (proj2 (compute_omega22_average_between_extrema_spec example_arange
                     example_self (fun _ => 4) (fun _ => 1) (-5) (-2))
              _ _ compute_omega22_average_between_extrema_example)
    as (Hlen & _ & Hall).
  split; [exact Hlen | exact Hall].
Defined.

